(** * neurelix-nexus: the "code integration" edge functions

    A shallow embedding of the Supabase edge functions that connect a
    project to GitHub and link tasks ("tarefas") to git entities:

    - [_shared/auto-link.ts]     ([detectTarefaKeys], [createAutoLinks],
                                  [processAutoLink]);
    - [_shared/github-client.ts] ([withRetry]);
    - [_shared/permissions.ts]   ([getProjectRole], [canConnectGit],
                                  [canReviewPR]);
    - [_shared/audit.ts]         ([logAuditEvent]);
    - [github-oauth], [github-oauth-callback], [git-connect] (the
      connection handshake, the revocation handlers and the sync of
      repositories and branches);
    - [git-links] (links made by hand);
    - the migrations, as far as they act on these tables: the trigger
      that keeps [updated_at], the trigger that links a new branch to the
      tasks named in it ([detect_and_link_tarefas]), and
      [cleanup_expired_oauth_states].

    The relational store is a record of tables, every table a list of
    rows in insertion order.  A handler is a function from the store to
    a completion, the new store and the list of outside calls it made.
    Whatever the handler cannot decide by itself (the clock, GitHub's
    answers, a failing statement of the store) is read from an explicit
    [Outside] record. *)

From Stdlib Require Import String Ascii List ZArith Lia Bool Arith.
From Stdlib Require Import Numbers.DecimalString.
Import ListNotations.
Open Scope string_scope.

Set Implicit Arguments.

(* ================================================================== *)
(** * JavaScript values as the handlers use them *)
(* ================================================================== *)

Module Js.

(** [!s] on a string is true exactly for the empty string. *)
Definition truthy (s : string) : bool := negb (String.eqb s "").

(** A value read from a place that may hold [null]/[undefined]; the
    result is the string when it is truthy. *)
Definition nonempty (o : option string) : option string :=
  match o with
  | Some s => if truthy s then Some s else None
  | None => None
  end.

(** [a || b] on strings. *)
Definition or_else (a b : string) : string := if truthy a then a else b.

(** [n] truthy as a JavaScript number: not zero. *)
Definition nonzero (o : option Z) : option Z :=
  match o with
  | Some n => if Z.eqb n 0 then None else Some n
  | None => None
  end.

(** [s.split(sep)[0]] for a non-empty separator: the part of [s] before
    the first occurrence of [sep], the whole of [s] when there is none. *)
Fixpoint split_head (sep s : string) : string :=
  if String.prefix sep s then ""
  else match s with
       | EmptyString => ""
       | String c s' => String c (split_head sep s')
       end.

(** [s.split(",")] on a one-character separator. *)
Fixpoint split_char (sep : ascii) (s : string) : list string :=
  match s with
  | EmptyString => [""]
  | String c s' =>
      if Ascii.eqb c sep then "" :: split_char sep s'
      else match split_char sep s' with
           | hd :: tl => String c hd :: tl
           | [] => [String c ""]
           end
  end.

(** A string is held as the bytes of its UTF-8 encoding, and JavaScript
    counts UTF-16 code units.  The first byte of a character tells how
    many bytes the character takes: one (ASCII), two, three, or four for a
    character above U+FFFF, which is the only kind that takes two code
    units. *)
Definition utf8_bytes (c : ascii) : nat :=
  let n := nat_of_ascii c in
  if (n <? 192)%nat then 1%nat
  else if (n <? 224)%nat then 2%nat
  else if (n <? 240)%nat then 3%nat
  else 4%nat.

(** The high surrogate of the character whose four bytes start with
    [b0 b1 b2], standing alone: the three bytes of its code unit
    [0xD800 + h]. *)
Definition high_surrogate (b0 b1 b2 : ascii) : string :=
  let h := ((nat_of_ascii b0 mod 8) * 256 + (nat_of_ascii b1 mod 64) * 4
            + (nat_of_ascii b2 mod 64) / 16 - 64)%nat in
  String (ascii_of_nat 237)
    (String (ascii_of_nat (160 + h / 64))
       (String (ascii_of_nat (128 + h mod 64)) "")).

(** The first [n] code units of [s]; [inside] is the number of bytes
    still to copy of the character at hand.  A cut between the two code
    units of a character leaves its high surrogate. *)
Fixpoint take_units (n inside : nat) (s : string) : string :=
  match s with
  | EmptyString => ""
  | String c s' =>
      match inside with
      | S k => String c (take_units n k s')
      | O =>
          match n with
          | O => ""
          | S n' =>
              if (utf8_bytes c =? 4)%nat then
                match n' with
                | S n'' => String c (take_units n'' 3 s')
                | O =>
                    match s' with
                    | String b1 (String b2 _) => high_surrogate c b1 b2
                    | _ => ""
                    end
                end
              else String c (take_units n' (utf8_bytes c - 1) s')
          end
      end
  end.

(** [s.substring(0, n)]: the first [n] UTF-16 code units. *)
Definition substring0 (n : nat) (s : string) : string := take_units n 0 s.

(** [n.toString()] of an integer. *)
Definition toString (n : Z) : string := NilZero.string_of_int (Z.to_int n).

Definition hex_digit (n : nat) : ascii :=
  if (n <? 10)%nat then ascii_of_nat (48 + n) else ascii_of_nat (55 + n).

Definition is_digit (c : ascii) : bool :=
  let n := nat_of_ascii c in (48 <=? n)%nat && (n <=? 57)%nat.
Definition is_upper (c : ascii) : bool :=
  let n := nat_of_ascii c in (65 <=? n)%nat && (n <=? 90)%nat.
Definition is_lower (c : ascii) : bool :=
  let n := nat_of_ascii c in (97 <=? n)%nat && (n <=? 122)%nat.

(** The characters [encodeURIComponent] leaves alone:
    [A-Z a-z 0-9 - _ . ! ~ * ' ( )]. *)
Definition uri_unreserved (c : ascii) : bool :=
  is_upper c || is_lower c || is_digit c
  || existsb (Ascii.eqb c)
       ["-"; "_"; "."; "!"; "~"; "*"; "'"; "("; ")"]%char.

(** [encodeURIComponent]: every other byte becomes [%XX].  A string is
    a sequence of bytes here, so a character outside ASCII is taken as
    already being in UTF-8. *)
Fixpoint encodeURIComponent (s : string) : string :=
  match s with
  | EmptyString => ""
  | String c s' =>
      if uri_unreserved c then String c (encodeURIComponent s')
      else
        let n := nat_of_ascii c in
        String "%" (String (hex_digit (n / 16)) (String (hex_digit (n mod 16))
                                                   (encodeURIComponent s')))
  end.

(** [s.includes(needle)] *)
Fixpoint includes (needle s : string) : bool :=
  String.prefix needle s
  || match s with
     | EmptyString => false
     | String _ s' => includes needle s'
     end.

(** [s.slice(n)] for [0 <= n]. *)
Fixpoint slice (n : nat) (s : string) : string :=
  match n, s with
  | O, _ => s
  | S n', String _ s' => slice n' s'
  | S _, EmptyString => ""
  end.

(** [s.replace(/^\/+/, "/")]: a run of leading slashes becomes one. *)
Fixpoint strip_slashes (s : string) : string :=
  match s with
  | String "/" s' => strip_slashes s'
  | _ => s
  end.

Definition collapse_leading_slashes (s : string) : string :=
  match s with
  | String "/" s' => String "/" (strip_slashes s')
  | _ => s
  end.

End Js.

(* ================================================================== *)
(** * The relational store *)
(* ================================================================== *)

Module Store.

Definition uuid := string.
(** A [timestamp with time zone], in milliseconds since the epoch. *)
Definition timestamp := Z.

Inductive AppRole := admin | tech_lead | developer | viewer.

Inductive connection_status := status_active | status_error | status_revoked.

Record tarefa := {
  tarefa_id : uuid;
  tarefa_project_id : uuid;
  tarefa_key : string }.

Inductive entity_type := branch_entity | commit_entity | pull_request_entity.

(** The [metadata] column of [tarefa_git_links]. *)
Inductive link_metadata :=
| auto_linked (et : entity_type) (entity_id : string) (detected_from : option string)
| manual_link.

Record tarefa_git_link := {
  link_tarefa_id : uuid;
  link_provider : string;
  link_branch : option string;
  link_commit_sha : option string;
  link_pr_number : option Z;
  link_url : option string;
  link_created_by : option uuid;
  link_metadata_of : link_metadata }.

Record project_member := {
  member_user_id : uuid;
  member_project_id : uuid;
  member_role : AppRole }.

Record pull_request := {
  pr_id : uuid;
  pr_repo_id : uuid;
  pr_number : Z;
  pr_author_id : option uuid }.

Record project_repo := {
  pr_link_project_id : uuid;
  pr_link_repo_id : uuid }.

Record github_oauth_state := {
  st_state : uuid;
  st_project_id : uuid;
  st_user_id : uuid;
  st_expires_at : timestamp }.

Record provider_connection := {
  conn_id : uuid;
  conn_project_id : uuid;
  conn_provider : string;
  conn_owner_type : string;
  conn_owner_name : option string;
  conn_installation_id : option string;
  conn_status : connection_status;
  conn_secrets_ref : option string;
  conn_last_sync_at : option timestamp;
  conn_error_message : option string;
  conn_created_by : option uuid;
  conn_updated_at : option timestamp;
  conn_github_user_id : option string;
  conn_username : option string;
  conn_access_token_encrypted : option string;
  conn_scopes : list string }.

Record repo := {
  repo_id : uuid;
  repo_connection_id : option uuid;
  repo_provider_repo_id : string;
  repo_full_name : string;
  repo_default_branch : string;
  repo_visibility : string;
  repo_description : option string;
  repo_url : option string;
  repo_sync_status : string;
  repo_last_synced_at : option timestamp;
  repo_selected : bool;
  repo_project_id : option uuid }.

Record branch := {
  branch_id : uuid;
  branch_repo_id : uuid;
  branch_name : string;
  branch_last_commit_sha : string;
  branch_is_default : bool;
  branch_protected : bool }.

Record audit_event := {
  audit_actor_id : uuid;
  audit_action : string;
  audit_entity_type : string;
  audit_entity_id : option string;
  audit_before : option (list (string * string));
  audit_after : option (list (string * string)) }.

Record DB := {
  tarefas : list tarefa;
  tarefa_git_links : list tarefa_git_link;
  project_members : list project_member;
  pull_requests : list pull_request;
  project_repos : list project_repo;
  github_oauth_states : list github_oauth_state;
  provider_connections : list provider_connection;
  repos : list repo;
  branches : list branch;
  audit_events : list audit_event }.

Definition with_tarefa_git_links (d : DB) (t : list tarefa_git_link) : DB :=
  {| tarefas := tarefas d; tarefa_git_links := t;
     project_members := project_members d; pull_requests := pull_requests d;
     project_repos := project_repos d;
     github_oauth_states := github_oauth_states d;
     provider_connections := provider_connections d; repos := repos d;
     branches := branches d; audit_events := audit_events d |}.

Definition with_github_oauth_states (d : DB) (t : list github_oauth_state) : DB :=
  {| tarefas := tarefas d; tarefa_git_links := tarefa_git_links d;
     project_members := project_members d; pull_requests := pull_requests d;
     project_repos := project_repos d;
     github_oauth_states := t;
     provider_connections := provider_connections d; repos := repos d;
     branches := branches d; audit_events := audit_events d |}.

Definition with_provider_connections (d : DB) (t : list provider_connection) : DB :=
  {| tarefas := tarefas d; tarefa_git_links := tarefa_git_links d;
     project_members := project_members d; pull_requests := pull_requests d;
     project_repos := project_repos d;
     github_oauth_states := github_oauth_states d;
     provider_connections := t; repos := repos d;
     branches := branches d; audit_events := audit_events d |}.

Definition with_repos (d : DB) (t : list repo) : DB :=
  {| tarefas := tarefas d; tarefa_git_links := tarefa_git_links d;
     project_members := project_members d; pull_requests := pull_requests d;
     project_repos := project_repos d;
     github_oauth_states := github_oauth_states d;
     provider_connections := provider_connections d; repos := t;
     branches := branches d; audit_events := audit_events d |}.

Definition with_branches (d : DB) (t : list branch) : DB :=
  {| tarefas := tarefas d; tarefa_git_links := tarefa_git_links d;
     project_members := project_members d; pull_requests := pull_requests d;
     project_repos := project_repos d;
     github_oauth_states := github_oauth_states d;
     provider_connections := provider_connections d; repos := repos d;
     branches := t; audit_events := audit_events d |}.

Definition with_audit_events (d : DB) (t : list audit_event) : DB :=
  {| tarefas := tarefas d; tarefa_git_links := tarefa_git_links d;
     project_members := project_members d; pull_requests := pull_requests d;
     project_repos := project_repos d;
     github_oauth_states := github_oauth_states d;
     provider_connections := provider_connections d; repos := repos d;
     branches := branches d; audit_events := t |}.

(** What a supabase-js query hands back: [{ data, error }]. *)
Record result (A : Type) := { data : option A; error : option string }.

Definition ok {A} (a : A) : result A := {| data := Some a; error := None |}.
Definition empty {A} : result A := {| data := None; error := None |}.
Definition failed {A} (msg : string) : result A :=
  {| data := None; error := Some msg |}.

Definition PGRST116 : string :=
  "JSON object requested, multiple (or no) rows returned".

(** [.maybeSingle()]: the row when the query selects exactly one, [null]
    when it selects none, and an error with [data: null] when it selects
    several. *)
Definition maybeSingle {A} (rows : list A) : result A :=
  match rows with
  | [] => empty
  | [r] => ok r
  | _ :: _ :: _ => failed PGRST116
  end.

(** [.single()]: the row when there is exactly one, an error otherwise. *)
Definition single {A} (rows : list A) : result A :=
  match rows with
  | [r] => ok r
  | _ => failed PGRST116
  end.

Definition opt_eqb {A} (eqb : A -> A -> bool) (a b : option A) : bool :=
  match a, b with
  | Some x, Some y => eqb x y
  | None, None => true
  | _, _ => false
  end.

(** [.eq(column, v)] on a nullable column: a [NULL] cell equals nothing. *)
Definition col_eq {A} (eqb : A -> A -> bool) (cell : option A) (v : A) : bool :=
  match cell with
  | Some x => eqb x v
  | None => false
  end.

End Store.

(* ================================================================== *)
(** * Handlers: store passing, exceptions and outside calls *)
(* ================================================================== *)

(** The [status] property of a thrown object, when it has one. *)
Inductive status_value :=
| status_number (n : Z)
| status_other.

(** A thrown JavaScript value, as far as the handlers look at it. *)
Inductive thrown :=
| thrown_Error (message : string) (status : option status_value)
    (* [instanceof Error]; Octokit's RequestError carries a [status] *)
| thrown_object (as_string : string) (status : option status_value)
    (* any other object; [as_string] is [String(error)] *)
| thrown_primitive (as_string : string).
    (* a string, a number, [null], [undefined] *)

Inductive completion (A : Type) :=
| Normal (a : A)
| Throw (e : thrown).
Arguments Normal {A} a.
Arguments Throw {A} e.

(** A call that leaves the process. *)
Inductive outside_call :=
| fetch_call (method url : string)
| octokit_call (endpoint : string).

Definition M (A : Type) : Type :=
  Store.DB -> completion A * Store.DB * list outside_call.

Definition ret {A} (a : A) : M A := fun d => (Normal a, d, []).

Definition throw {A} (e : thrown) : M A := fun d => (Throw e, d, []).

Definition bind {A B} (m : M A) (k : A -> M B) : M B :=
  fun d =>
    match m d with
    | (Normal a, d1, t1) =>
        match k a d1 with
        | (r, d2, t2) => (r, d2, (t1 ++ t2)%list)
        end
    | (Throw e, d1, t1) => (Throw e, d1, t1)
    end.

(** [try { m } catch (e) { h e }]. *)
Definition try_catch {A} (m : M A) (h : thrown -> M A) : M A :=
  fun d =>
    match m d with
    | (Normal a, d1, t1) => (Normal a, d1, t1)
    | (Throw e, d1, t1) =>
        match h e d1 with
        | (r, d2, t2) => (r, d2, (t1 ++ t2)%list)
        end
    end.

(** Read the store. *)
Definition query {A} (f : Store.DB -> A) : M A := fun d => (Normal (f d), d, []).

(** Change the store. *)
Definition exec (f : Store.DB -> Store.DB) : M unit :=
  fun d => (Normal tt, f d, []).

Definition outside (c : outside_call) : M unit := fun d => (Normal tt, d, [c]).

Declare Scope handler_scope.
Delimit Scope handler_scope with handler.
Notation "x <- m ;; k" := (bind m (fun x => k))
  (at level 61, m at next level, right associativity) : handler_scope.
Notation "m ;;; k" := (bind m (fun _ => k))
  (at level 61, right associativity) : handler_scope.
Open Scope handler_scope.

(** [for (const x of l) { body x }]. *)
Fixpoint for_each {A} (l : list A) (body : A -> M unit) : M unit :=
  match l with
  | [] => ret tt
  | x :: l' => body x ;;; for_each l' body
  end.

(* ================================================================== *)
(** * [_shared/auto-link.ts] *)
(* ================================================================== *)

Module AutoLink.
Import Store.

(** ** The regular expression [TSK-( [A-Z0-9]+ (?: - [A-Z0-9]+ )* )], flags [gi]

    Under the [i] flag (and without [u]) a character is compared after
    [Canonicalize], which maps an ASCII lower-case letter to its upper
    case and never maps a character outside ASCII into ASCII. *)

Definition canonicalize (c : ascii) : ascii :=
  if Js.is_lower c then ascii_of_nat (nat_of_ascii c - 32) else c.

(** The class [[A-Z0-9]]. *)
Definition class_AZ09 (c : ascii) : bool := Js.is_upper c || Js.is_digit c.

(** The class [[A-Z0-9]] under the [i] flag. *)
Definition class_AZ09_i (c : ascii) : bool := class_AZ09 (canonicalize c).

Definition char_eq_i (a b : ascii) : bool :=
  Ascii.eqb (canonicalize a) (canonicalize b).

(** A literal under the [i] flag, at the head of [text]; the result is
    what follows the literal. *)
Fixpoint literal_i (lit text : list ascii) : option (list ascii) :=
  match lit with
  | [] => Some text
  | a :: lit' =>
      match text with
      | c :: text' => if char_eq_i a c then literal_i lit' text' else None
      | [] => None
      end
  end.

Definition hyphen : ascii := "-"%char.

(** The rest of [[A-Z0-9]+(?:-[A-Z0-9]+)*] once its first character is
    known to be in the class: both quantifiers are greedy and nothing
    follows them in the pattern, so the match runs on while the next
    character is in the class, or is a hyphen with a class character
    right after it. *)
Fixpoint groups (l : list ascii) : list ascii :=
  match l with
  | [] => []
  | c :: l' =>
      if class_AZ09_i c then c :: groups l'
      else if Ascii.eqb c hyphen then
        match l' with
        | d :: _ => if class_AZ09_i d then c :: groups l' else []
        | [] => []
        end
      else []
  end.

(** The pattern tried at the head of [l]; the result is capture group 1. *)
Definition regex_exec_at (l : list ascii) : option (list ascii) :=
  match literal_i (list_ascii_of_string "TSK-") l with
  | Some (c :: rest) =>
      if class_AZ09_i c then Some (groups (c :: rest)) else None
  | _ => None
  end.

(** [text.matchAll(regex)]: the pattern is tried at every position from
    left to right; after a match the scan resumes at its end
    ([lastIndex]), which is [skip] characters further on. *)
Fixpoint matchAll_from (skip : nat) (l : list ascii) : list (list ascii) :=
  match l with
  | [] => []
  | _ :: l' =>
      match skip with
      | S k => matchAll_from k l'
      | O =>
          match regex_exec_at l with
          | Some m1 => m1 :: matchAll_from (3 + List.length m1) l'
          | None => matchAll_from 0 l'
          end
      end
  end.

Definition matchAll (text : string) : list (list ascii) :=
  matchAll_from 0 (list_ascii_of_string text).

(** [keys.add(k)] on a [Set<string>], kept in insertion order. *)
Definition Set_add (k : string) (keys : list string) : list string :=
  if existsb (String.eqb k) keys then keys else (keys ++ [k])%list.

Definition detectTarefaKeys (text : string) : list string :=
  if negb (Js.truthy text) then []
  else
    fold_left
      (fun keys m1 => Set_add ("TSK-" ++ string_of_list_ascii m1) keys)
      (matchAll text) [].

(** The [metadata] argument of [createAutoLinks]. *)
Record metadata := {
  branchName : option string;
  commitSha : option string;
  prNumber : option Z;
  detectedFrom : option string }.

(** The object handed to [.match(...)]: a key that was not set puts no
    constraint on the row. *)
Record link_query := {
  q_tarefa_id : uuid;
  q_provider : string;
  q_branch : option string;
  q_commit_sha : option string;
  q_pr_number : option Z }.

Definition unconstrained_or {A} (eqb : A -> A -> bool)
    (wanted : option A) (cell : option A) : bool :=
  match wanted with
  | Some v => col_eq eqb cell v
  | None => true
  end.

(** [.match(q)]: every key of [q] equals the row's column. *)
Definition matches (q : link_query) (r : tarefa_git_link) : bool :=
  String.eqb (link_tarefa_id r) (q_tarefa_id q)
  && String.eqb (link_provider r) (q_provider q)
  && unconstrained_or String.eqb (q_branch q) (link_branch r)
  && unconstrained_or String.eqb (q_commit_sha q) (link_commit_sha r)
  && unconstrained_or Z.eqb (q_pr_number q) (link_pr_number r).

(** [existingLinkQuery]: [tarefa_id] and [provider] always, the other
    three only under [if (metadata.x)]. *)
Definition existingLinkQuery (t : tarefa) (md : metadata) : link_query :=
  {| q_tarefa_id := tarefa_id t;
     q_provider := "github";
     q_branch := Js.nonempty (branchName md);
     q_commit_sha := Js.nonempty (commitSha md);
     q_pr_number := Js.nonzero (prNumber md) |}.

(** [linkData]: a column that is not set is stored as [NULL]. *)
Definition linkData (t : tarefa) (et : entity_type) (entityId : string)
    (md : metadata) : tarefa_git_link :=
  {| link_tarefa_id := tarefa_id t;
     link_provider := "github";
     link_branch := Js.nonempty (branchName md);
     link_commit_sha := Js.nonempty (commitSha md);
     link_pr_number := Js.nonzero (prNumber md);
     link_url := None;
     link_created_by := None;
     link_metadata_of := auto_linked et entityId (detectedFrom md) |}.

(** [from("tarefas").select("id, key").eq("project_id", p).in("key", keys)] *)
Definition select_tarefas (projectId : uuid) (tarefaKeys : list string)
    (d : DB) : list tarefa :=
  filter (fun t => String.eqb (tarefa_project_id t) projectId
                   && existsb (String.eqb (tarefa_key t)) tarefaKeys)
         (tarefas d).

(** [from("tarefa_git_links").select("id").match(q).maybeSingle()] *)
Definition select_existing (q : link_query) (d : DB) : result tarefa_git_link :=
  maybeSingle (filter (matches q) (tarefa_git_links d)).

(** [from("tarefa_git_links").insert(row)] *)
Definition insert_link (row : tarefa_git_link) (d : DB) : DB :=
  with_tarefa_git_links d (tarefa_git_links d ++ [row])%list.

Definition createAutoLinks (tarefaKeys : list string) (projectId repoId : uuid)
    (entityType : entity_type) (entityId : string) (md : metadata) : M unit :=
  if (List.length tarefaKeys =? 0)%nat then ret tt
  else
    found <- query (select_tarefas projectId tarefaKeys) ;;
    if (List.length found =? 0)%nat then ret tt
    else
      for_each found (fun t =>
        existing <- query (select_existing (existingLinkQuery t md)) ;;
        match data existing with
        | Some _ => ret tt                       (* link already exists, skip *)
        | None => exec (insert_link (linkData t entityType entityId md))
        end).

Definition processAutoLink (text : string) (projectId repoId : uuid)
    (entityType : entity_type) (entityId : string)
    (branchName_ commitSha_ : option string) (prNumber_ : option Z)
    : M (list string) :=
  let keys := detectTarefaKeys text in
  (if (0 <? List.length keys)%nat then
     createAutoLinks keys projectId repoId entityType entityId
       {| branchName := branchName_; commitSha := commitSha_;
          prNumber := prNumber_;
          detectedFrom := Some (Js.substring0 200 text) |}
   else ret tt) ;;;
  ret keys.

End AutoLink.

(* ================================================================== *)
(** * [_shared/github-client.ts]: [withRetry] *)
(* ================================================================== *)

Module GithubClient.

(** What [withRetry] does that can be seen from outside: it calls [fn]
    and it sleeps. *)
Inductive event :=
| attempt
| sleep (ms : Z).

Section WithRetry.

(** [fn] is any function with effects: [St] is whatever it reads and
    changes, and a call either resolves or rejects. *)
Variables (T St : Type).
Variable fn : St -> completion T * St.

(** [error instanceof Error ? error : new Error(String(error))] *)
Definition as_Error (err : thrown) : thrown :=
  match err with
  | thrown_Error _ _ => err
  | thrown_object s _ => thrown_Error s None
  | thrown_primitive s => thrown_Error s None
  end.

(** [error && typeof error === 'object' && 'status' in error] and then
    [status === 403 || status === 429]. *)
Definition is_rate_limit (err : thrown) : bool :=
  match err with
  | thrown_Error _ (Some (status_number n))
  | thrown_object _ (Some (status_number n)) => Z.eqb n 403 || Z.eqb n 429
  | _ => false
  end.

(** The [for] loop, [remaining] iterations before [i < maxRetries]
    fails. *)
Fixpoint retry_loop (remaining : nat) (i : Z) (delay : Z)
    (lastError : option thrown) (s : St) : completion T * St * list event :=
  match remaining with
  | O =>
      (Throw (match lastError with
              | Some e => e
              | None => thrown_Error "Max retries exceeded" None
              end), s, [])
  | S remaining' =>
      match fn s with
      | (Normal v, s1) => (Normal v, s1, [attempt])
      | (Throw err, s1) =>
          let lastError := as_Error err in
          if is_rate_limit err then
            match retry_loop remaining' (i + 1) delay (Some lastError) s1 with
            | (r, s2, evs) => (r, s2, attempt :: sleep (delay * (i + 1)) :: evs)
            end
          else (Throw lastError, s1, [attempt])
      end
  end.

Definition withRetry (maxRetries : nat) (delay : Z) (s : St)
    : completion T * St * list event :=
  retry_loop maxRetries 0 delay None s.

(** [withRetry(fn)] with the default [maxRetries = 3], [delay = 1000]. *)
Definition withRetry_default (s : St) : completion T * St * list event :=
  withRetry 3 1000 s.

End WithRetry.

End GithubClient.

(* ================================================================== *)
(** * [_shared/permissions.ts] *)
(* ================================================================== *)

Module Permissions.
Import Store.

Definition select_member (userId projectId : uuid) (d : DB) : result project_member :=
  maybeSingle
    (filter (fun m => String.eqb (member_user_id m) userId
                      && String.eqb (member_project_id m) projectId)
            (project_members d)).

Definition getProjectRole (userId projectId : uuid) : M (option AppRole) :=
  r <- query (select_member userId projectId) ;;
  match error r, data r with
  | None, Some row => ret (Some (member_role row))
  | _, _ => ret None
  end.

Definition is_admin (role : option AppRole) : bool :=
  match role with Some admin => true | _ => false end.

Definition canConnectGit (userId projectId : uuid) : M bool :=
  role <- getProjectRole userId projectId ;;
  ret (is_admin role).

Definition canCreatePR (userId projectId : uuid) : M bool :=
  role <- getProjectRole userId projectId ;;
  ret (match role with
       | Some admin | Some tech_lead | Some developer => true
       | _ => false
       end).

Definition select_pr (prId : uuid) (d : DB) : result pull_request :=
  maybeSingle (filter (fun p => String.eqb (pr_id p) prId) (pull_requests d)).

Definition select_project_repo (repoId : uuid) (d : DB) : result project_repo :=
  maybeSingle
    (filter (fun l => String.eqb (pr_link_repo_id l) repoId) (project_repos d)).

Definition canReviewPR (userId prId : uuid) : M bool :=
  pr <- query (select_pr prId) ;;
  match data pr with
  | None => ret false
  | Some pr =>
      if col_eq String.eqb (pr_author_id pr) userId then ret false
      else
        projectRepo <- query (select_project_repo (pr_repo_id pr)) ;;
        match data projectRepo with
        | None => ret false
        | Some projectRepo =>
            role <- getProjectRole userId (pr_link_project_id projectRepo) ;;
            ret (match role with Some _ => true | None => false end)
        end
  end.

Definition canMergePR (userId prId : uuid) : M bool :=
  pr <- query (select_pr prId) ;;
  match data pr with
  | None => ret false
  | Some pr =>
      projectRepo <- query (select_project_repo (pr_repo_id pr)) ;;
      match data projectRepo with
      | None => ret false
      | Some projectRepo =>
          role <- getProjectRole userId (pr_link_project_id projectRepo) ;;
          ret (match role with
               | Some admin | Some tech_lead => true
               | _ => false
               end)
      end
  end.

End Permissions.

(* ================================================================== *)
(** * Requests, responses and what lies outside an edge function *)
(* ================================================================== *)

Module Http.

#[warnings="-register-all"] Inductive json :=
| j_null
| j_bool (b : bool)
| j_num (n : Z)
| j_str (s : string)
| j_arr (items : list json)
| j_obj (fields : list (string * json)).

Record Request := {
  method : string;
  pathname : string;
  (** the query string, decoded *)
  search : list (string * string);
  (** the [authorization] header *)
  authorization : option string;
  (** the fields of the JSON body; [None] when [req.json()] rejects *)
  payload : option (list (string * string)) }.

Fixpoint assoc (k : string) (l : list (string * string)) : option string :=
  match l with
  | [] => None
  | (k', v) :: l' => if String.eqb k' k then Some v else assoc k l'
  end.

(** [url.searchParams.get(k)] *)
Definition searchParams_get (req : Request) (k : string) : option string :=
  assoc k (search req).

Record Response := {
  status : Z;
  headers : list (string * string);
  body : option json }.

Definition corsHeaders : list (string * string) :=
  [("Access-Control-Allow-Origin", "*");
   ("Access-Control-Allow-Headers",
    "authorization, x-client-info, apikey, content-type")].

(** [new Response(null, { status: 302, headers: { ...corsHeaders, Location } })] *)
Definition redirect (location : string) : Response :=
  {| status := 302;
     headers := (corsHeaders ++ [("Location", location)])%list;
     body := None |}.

(** [new Response(JSON.stringify(j), { status, headers: { ...corsHeaders,
    "Content-Type": "application/json" } })] *)
Definition json_response (st : Z) (j : json) : Response :=
  {| status := st;
     headers := (corsHeaders ++ [("Content-Type", "application/json")])%list;
     body := Some j |}.

Definition json_error (st : Z) (msg : string) : Response :=
  json_response st (j_obj [("error", j_str msg)]).

(** [new Response(null, { headers: corsHeaders })] *)
Definition preflight : Response :=
  {| status := 200; headers := corsHeaders; body := None |}.

Definition location_of (r : Response) : option string :=
  assoc "Location" (headers r).

(** [await req.json()] *)
Definition req_json (req : Request) : M (list (string * string)) :=
  match payload req with
  | Some fields => ret fields
  | None => throw (thrown_Error "Unexpected end of JSON input" None)
  end.

(** The environment variables, each read as [Deno.env.get(X) || ""]. *)
Record Env := {
  SUPABASE_URL : string;
  GITHUB_CLIENT_ID : string;
  GITHUB_CLIENT_SECRET : string;
  GITHUB_REDIRECT_URI : string;
  GITHUB_APP_ID : string;
  GITHUB_PRIVATE_KEY : string;
  env_FRONTEND_URL : string }.

(** What [fetch] resolves to, as far as the handlers read it; a body
    that is not JSON makes [.json()] reject. *)
Record fetch_response (A : Type) := {
  resp_ok : bool;
  json_of : option A }.

Record token_data := {
  access_token : option string;
  scope : option string;
  oauth_error : option string;
  error_description : option string }.

Record github_user := {
  gh_id : option Z;
  gh_login : option string }.

(** What [octokit.apps.getInstallation] answers. *)
Record installation := {
  account_type : option string;
  account_login : option string }.

(** A repository and a branch as Octokit lists them. *)
Record gh_repo := {
  gh_repo_id : Z;
  gh_full_name : string;
  gh_default_branch : option string;
  gh_visibility : option string;
  gh_description : option string;
  gh_html_url : string }.

Record gh_branch := {
  gh_branch_name : string;
  gh_commit_sha : string;
  gh_protected : bool }.

Inductive verb := v_select | v_insert | v_update | v_delete | v_upsert.

(** Everything a handler reads from outside during one request. *)
Record Outside := {
  (** [Date.now()] *)
  now : Z;
  (** [crypto.randomUUID()] *)
  randomUUID : string;
  (** the [gen_random_uuid()] default of a row inserted by this request *)
  new_row_id : string;
  (** POST github.com/login/oauth/access_token, by [code];
      [None] when [fetch] rejects *)
  token_endpoint : string -> option (fetch_response token_data);
  (** GET api.github.com/user, by access token *)
  user_endpoint : string -> option (fetch_response github_user);
  (** DELETE api.github.com/applications/:id/token; [false] when
      [fetch] rejects *)
  revoke_endpoint : string -> bool;
  (** [supabase.auth.getUser(token)]: the user's id for a valid token *)
  auth_getUser : string -> option string;
  (** [createAppAuth(...)({ type })] resolves with a token: as the app,
      and for an installation *)
  app_auth : bool;
  installation_auth : string -> bool;
  (** Octokit: [None] when the request is rejected *)
  get_installation : string -> option installation;
  list_installation_repos : string -> option (list gh_repo);
  list_branches : string -> option (list gh_branch);
  (** the [gen_random_uuid()] default of a [repos] row, by the
      repository it is inserted for *)
  new_repo_id : string -> string;
  (** the [gen_random_uuid()] default of a [branches] row, by its
      repository and its name *)
  new_branch_id : string -> string -> string;
  (** [now()] in the database, which the column defaults and the
      triggers of this request's statements read (one reading for the
      request, as for [now]) *)
  db_now : Z;
  (** [tarefa_git_links] is declared by a migration that is not among
      these files: whether a row violates one of its unique constraints,
      given the rows of the table, is taken from here *)
  links_conflict :
    Store.tarefa_git_link -> list Store.tarefa_git_link -> bool;
  (** a statement of the store that fails leaves the store as it is and
      comes back with [error] set *)
  store_fails : string -> verb -> option string }.

(** A statement on [table], under the failures of [o]. *)
Definition stmt {A} (o : Outside) (table : string) (v : verb)
    (run : Store.DB -> Store.result A * Store.DB) : M (Store.result A) :=
  fun d =>
    match store_fails o table v with
    | Some msg => (Normal (Store.failed msg), d, [])
    | None => let (r, d') := run d in (Normal r, d', [])
    end.

(** [validateAuth] of [_shared/permissions.ts]: [(userId, error)]. *)
Definition validateAuth (o : Outside) (authHeader : option string)
    : string * option string :=
  match authHeader with
  | Some h =>
      if String.prefix "Bearer " h then
        match auth_getUser o (Js.slice 7 h) with
        | Some uid => (uid, None)
        | None => ("", Some "Invalid token")
        end
      else ("", Some "Missing or invalid authorization header")
  | None => ("", Some "Missing or invalid authorization header")
  end.

(** [fetch(...)] may reject, and [.json()] may reject. *)
Definition fetch {A} (method_ url : string) (answer : option (fetch_response A))
    : M (fetch_response A) :=
  outside (fetch_call method_ url) ;;;
  match answer with
  | Some r => ret r
  | None => throw (thrown_Error "fetch failed" None)
  end.

Definition response_json {A} (r : fetch_response A) : M A :=
  match json_of r with
  | Some j => ret j
  | None => throw (thrown_Error "Unexpected token in JSON" None)
  end.

End Http.

(* ================================================================== *)
(** * [_shared/audit.ts] *)
(* ================================================================== *)

Module Audit.
Import Store Http.

(** The result of the insert is not read, and the [try]/[catch] around
    it swallows everything: an insert that fails leaves no event and is
    not noticed. *)
Definition logAuditEvent (o : Outside) (actorId : uuid)
    (action entityType : string)
    (entityId : option string) (before after : option (list (string * string)))
    : M unit :=
  try_catch
    (let finalActorId :=
       if String.eqb actorId "system"
       then "00000000-0000-0000-0000-000000000000" else actorId in
     stmt o "audit_events" v_insert
       (fun d =>
          (@empty unit,
           with_audit_events d
             (audit_events d ++
              [{| audit_actor_id := finalActorId; audit_action := action;
                  audit_entity_type := entityType; audit_entity_id := entityId;
                  audit_before := before; audit_after := after |}])%list)) ;;;
     ret tt)
    (fun _ => ret tt).

End Audit.

(* ================================================================== *)
(** * The migrations: triggers and functions of the database *)
(* ================================================================== *)

Module Migrations.
Import Store Http.

(** [update_updated_at_column()], the BEFORE UPDATE trigger of
    [provider_connections]: [NEW.updated_at = now()], whatever the
    statement wrote into the column.  ([repos] and [branches] have the
    same trigger; their [updated_at] is not among the columns kept
    here.) *)
Definition update_updated_at_column (o : Outside) (c : provider_connection)
    : provider_connection :=
  {| conn_id := conn_id c; conn_project_id := conn_project_id c;
     conn_provider := conn_provider c; conn_owner_type := conn_owner_type c;
     conn_owner_name := conn_owner_name c;
     conn_installation_id := conn_installation_id c;
     conn_status := conn_status c;
     conn_secrets_ref := conn_secrets_ref c;
     conn_last_sync_at := conn_last_sync_at c;
     conn_error_message := conn_error_message c;
     conn_created_by := conn_created_by c;
     conn_updated_at := Some (db_now o);
     conn_github_user_id := conn_github_user_id c;
     conn_username := conn_username c;
     conn_access_token_encrypted := conn_access_token_encrypted c;
     conn_scopes := conn_scopes c |}.

(** [detect_and_link_tarefas(p_text, p_repo_id, p_project_id,
    p_entity_type, p_entity_id, p_branch_name, p_commit_sha,
    p_pr_number)]: for every match of
    [regexp_matches] on [p_text] with the expression
    [TSK-( [A-Z0-9]+ (?: - [A-Z0-9]+ )* )] and the flags [gi],
    from left to right, the task with that key in the project
    ([LIMIT 1]) gets a link, [ON CONFLICT DO NOTHING].  The expression
    and its flags are those of [detectTarefaKeys]; on it the longest
    match of the database and the greedy match of JavaScript are the
    same, so the matches are those of [AutoLink.matchAll]. *)
Definition detect_and_link_tarefas (o : Outside) (p_text : string)
    (p_project_id : uuid) (p_entity_type : entity_type) (p_entity_id : uuid)
    (p_branch_name p_commit_sha : option string) (p_pr_number : option Z)
    (d : DB) : DB :=
  fold_left
    (fun d v_match =>
       let v_tarefa_key := "TSK-" ++ string_of_list_ascii v_match in
       match filter (fun t => String.eqb (tarefa_project_id t) p_project_id
                              && String.eqb (tarefa_key t) v_tarefa_key)
                    (tarefas d) with
       | t :: _ =>
           let row :=
             {| link_tarefa_id := tarefa_id t;
                link_provider := "github";
                link_branch := p_branch_name;
                link_commit_sha := p_commit_sha;
                link_pr_number := p_pr_number;
                link_url := None;
                link_created_by := None;
                link_metadata_of :=
                  auto_linked p_entity_type p_entity_id (Some p_text) |} in
           if links_conflict o row (tarefa_git_links d) then d
           else with_tarefa_git_links d (tarefa_git_links d ++ [row])%list
       | [] => d
       end)
    (AutoLink.matchAll p_text) d.

(** [auto_link_branch_tarefas()], the AFTER INSERT trigger of
    [branches], for the row [new]. *)
Definition auto_link_branch_tarefas (o : Outside) (new : branch) (d : DB) : DB :=
  match filter (fun r => String.eqb (repo_id r) (branch_repo_id new)) (repos d) with
  | r :: _ =>
      match repo_project_id r with
      | Some v_project_id =>
          detect_and_link_tarefas o (branch_name new) v_project_id
            branch_entity (branch_id new) (Some (branch_name new)) None None d
      | None => d
      end
  | [] => d
  end.

(** [cleanup_expired_oauth_states()], to be run from time to time:
    [DELETE FROM github_oauth_states WHERE expires_at < now()]. *)
Definition cleanup_expired_oauth_states (now_ : timestamp) (d : DB) : DB :=
  with_github_oauth_states d
    (filter (fun s => negb (st_expires_at s <? now_)%Z) (github_oauth_states d)).

End Migrations.

(* ================================================================== *)
(** * The edge function [github-oauth] *)
(* ================================================================== *)

Module GithubOauth.
Import Store Http.

(** [GITHUB_REDIRECT_URI.split("/callback")[0] || "http://localhost:5173"] *)
Definition frontendUrl (env : Env) : string :=
  Js.or_else (Js.split_head "/callback" (GITHUB_REDIRECT_URI env))
             "http://localhost:5173".

Definition error_redirect (env : Env) (message : string) : Response :=
  redirect (frontendUrl env ++ "/project/error?message="
            ++ Js.encodeURIComponent message).

(** [from("github_oauth_states").insert({ state, project_id, user_id,
    expires_at })] *)
Definition insert_state (o : Outside) (row : github_oauth_state) : M (result unit) :=
  stmt o "github_oauth_states" v_insert
    (fun d => (empty,
               with_github_oauth_states d (github_oauth_states d ++ [row])%list)).

(** [from("github_oauth_states").select("*").eq("state", state)
      .gt("expires_at", new Date().toISOString()).maybeSingle()] *)
Definition select_valid_state (o : Outside) (state : string)
    : M (result github_oauth_state) :=
  stmt o "github_oauth_states" v_select
    (fun d =>
       (maybeSingle
          (filter (fun s => String.eqb (st_state s) state
                            && (now o <? st_expires_at s)%Z)
                  (github_oauth_states d)), d)).

(** [from("github_oauth_states").delete().eq("state", state)] *)
Definition delete_state (o : Outside) (state : string) : M (result unit) :=
  stmt o "github_oauth_states" v_delete
    (fun d =>
       (empty,
        with_github_oauth_states d
          (filter (fun s => negb (String.eqb (st_state s) state))
                  (github_oauth_states d)))).

(** [from("provider_connections").select(...).eq("project_id", p)
      .eq("provider", "github").maybeSingle()] *)
Definition select_connection (o : Outside) (projectId : uuid)
    : M (result provider_connection) :=
  stmt o "provider_connections" v_select
    (fun d =>
       (maybeSingle
          (filter (fun c => String.eqb (conn_project_id c) projectId
                            && String.eqb (conn_provider c) "github")
                  (provider_connections d)), d)).

Definition update_rows (id : uuid)
    (change : provider_connection -> provider_connection)
    (rows : list provider_connection) : list provider_connection :=
  map (fun c => if String.eqb (conn_id c) id then change c else c) rows.

(** [from("provider_connections").update(change).eq("id", id)]; the
    BEFORE UPDATE trigger of the table runs on every row that is
    updated. *)
Definition update_connection (o : Outside) (id : uuid)
    (change : provider_connection -> provider_connection)
    : M (result unit) :=
  stmt o "provider_connections" v_update
    (fun d =>
       (empty,
        with_provider_connections d
          (update_rows id
             (fun c => Migrations.update_updated_at_column o (change c))
             (provider_connections d)))).

(** [from("provider_connections").update(change).eq("id", id)
      .select().single()] *)
Definition update_connection_single (o : Outside) (id : uuid)
    (change : provider_connection -> provider_connection)
    : M (result provider_connection) :=
  stmt o "provider_connections" v_update
    (fun d =>
       let rows :=
         update_rows id
           (fun c => Migrations.update_updated_at_column o (change c))
           (provider_connections d) in
       (single (filter (fun c => String.eqb (conn_id c) id) rows),
        with_provider_connections d rows)).

(** [from("provider_connections").insert(row).select().single()] *)
Definition insert_connection (o : Outside) (row : provider_connection)
    : M (result provider_connection) :=
  stmt o "provider_connections" v_insert
    (fun d =>
       (ok row,
        with_provider_connections d (provider_connections d ++ [row])%list)).

(** [from("repos").update({ selected: false }).eq("connection_id", id)] *)
Definition unselect_repos (o : Outside) (id : uuid) : M (result unit) :=
  stmt o "repos" v_update
    (fun d =>
       (empty,
        with_repos d
          (map (fun r =>
                  if col_eq String.eqb (repo_connection_id r) id
                  then {| repo_id := repo_id r;
                          repo_connection_id := repo_connection_id r;
                          repo_provider_repo_id := repo_provider_repo_id r;
                          repo_full_name := repo_full_name r;
                          repo_default_branch := repo_default_branch r;
                          repo_visibility := repo_visibility r;
                          repo_description := repo_description r;
                          repo_url := repo_url r;
                          repo_sync_status := repo_sync_status r;
                          repo_last_synced_at := repo_last_synced_at r;
                          repo_selected := false;
                          repo_project_id := repo_project_id r |}
                  else r)
               (repos d)))).

(** [from("provider_connections").update({ status: "revoked" })]: what
    the statement writes; [updated_at] is set after it by the trigger,
    see [update_connection]. *)
Definition set_revoked (c : provider_connection) : provider_connection :=
  {| conn_id := conn_id c; conn_project_id := conn_project_id c;
     conn_provider := conn_provider c; conn_owner_type := conn_owner_type c;
     conn_owner_name := conn_owner_name c;
     conn_installation_id := conn_installation_id c;
     conn_status := status_revoked;
     conn_secrets_ref := conn_secrets_ref c;
     conn_last_sync_at := conn_last_sync_at c;
     conn_error_message := conn_error_message c;
     conn_created_by := conn_created_by c;
     conn_updated_at := conn_updated_at c;
     conn_github_user_id := conn_github_user_id c;
     conn_username := conn_username c;
     conn_access_token_encrypted := conn_access_token_encrypted c;
     conn_scopes := conn_scopes c |}.

(** [githubUser.id.toString()]: a [TypeError] when there is no [id]. *)
Definition id_toString (u : github_user) : M string :=
  match gh_id u with
  | Some n => ret (Js.toString n)
  | None => throw (thrown_Error "Cannot read properties of undefined" None)
  end.

(** [tokenData.scope?.split(",") || []] *)
Definition scopes_of (t : token_data) : list string :=
  match scope t with
  | Some s => Js.split_char "," s
  | None => []
  end.

Definition opt_field (k : string) (v : option string) : list (string * string) :=
  match v with
  | Some s => [(k, s)]
  | None => []
  end.

(** [POST /start] *)
Definition handleOAuthStart (env : Env) (o : Outside) (req : Request)
    (userId : uuid) : M Response :=
  fields <- req_json req ;;
  match Js.nonempty (assoc "projectId" fields) with
  | None => ret (json_error 400 "projectId is required")
  | Some projectId =>
      allowed <- Permissions.canConnectGit userId projectId ;;
      if negb allowed then
        ret (json_error 403 "Forbidden: Only admins can connect GitHub")
      else
        let state := randomUUID o in
        let expiresAt := (now o + 5 * 60 * 1000)%Z in
        saved <- insert_state o {| st_state := state;
                                   st_project_id := projectId;
                                   st_user_id := userId;
                                   st_expires_at := expiresAt |} ;;
        match error saved with
        | Some _ => ret (json_error 500 "Failed to initiate OAuth")
        | None =>
            if negb (Js.truthy (GITHUB_CLIENT_ID env))
               || negb (Js.truthy (GITHUB_REDIRECT_URI env))
            then
              ret (json_response 500
                     (j_obj [("error", j_str "GitHub OAuth not configured. Please set GITHUB_CLIENT_ID and GITHUB_REDIRECT_URI environment variables.");
                             ("details", j_str "Contact your administrator to configure GitHub OAuth integration.")]))
            else
              let supabaseUrl :=
                Js.or_else (SUPABASE_URL env)
                           "https://hgbnmrhzxewziagjdjke.supabase.co" in
              let callbackUrl :=
                if Js.includes "github-oauth-callback" (GITHUB_REDIRECT_URI env)
                then GITHUB_REDIRECT_URI env
                else supabaseUrl ++ "/functions/v1/github-oauth-callback" in
              let scopes := "repo read:org" in
              let authorizeUrl :=
                "https://github.com/login/oauth/authorize?client_id="
                ++ GITHUB_CLIENT_ID env
                ++ "&redirect_uri=" ++ Js.encodeURIComponent callbackUrl
                ++ "&scope=" ++ Js.encodeURIComponent scopes
                ++ "&state=" ++ state in
              ret (json_response 200
                     (j_obj [("authorizeUrl", j_str authorizeUrl);
                             ("state", j_str state)]))
        end
  end.

(** The [.update({...})] of the callback on an existing connection:
    what the statement writes.  The [updated_at] it writes is replaced by
    the trigger, see [update_connection]. *)
Definition reconnect (o : Outside) (github_user_id : string)
    (login : option string) (accessTokenEncrypted : string)
    (scopes : list string) (secrets_ref : option string -> option string)
    (c : provider_connection) : provider_connection :=
  {| conn_id := conn_id c; conn_project_id := conn_project_id c;
     conn_provider := conn_provider c; conn_owner_type := conn_owner_type c;
     conn_owner_name := conn_owner_name c;
     conn_installation_id := conn_installation_id c;
     conn_status := status_active;
     conn_secrets_ref := secrets_ref (conn_secrets_ref c);
     conn_last_sync_at := conn_last_sync_at c;
     conn_error_message := conn_error_message c;
     conn_created_by := conn_created_by c;
     conn_updated_at := Some (now o);
     conn_github_user_id := Some github_user_id;
     conn_username := login;
     conn_access_token_encrypted := Some accessTokenEncrypted;
     conn_scopes := scopes |}.

(** The row of the callback's [.insert({...})]. *)
Definition new_connection (o : Outside) (projectId userId : uuid)
    (github_user_id : string) (login : option string)
    (accessTokenEncrypted : string) (scopes : list string)
    (secrets_ref : option string) : provider_connection :=
  {| conn_id := new_row_id o; conn_project_id := projectId;
     conn_provider := "github"; conn_owner_type := "user";
     conn_owner_name := login;
     conn_installation_id := None;
     conn_status := status_active;
     conn_secrets_ref := secrets_ref;
     conn_last_sync_at := None;
     conn_error_message := None;
     conn_created_by := Some userId;
     conn_updated_at := Some (db_now o);     (* the column's default *)
     conn_github_user_id := Some github_user_id;
     conn_username := login;
     conn_access_token_encrypted := Some accessTokenEncrypted;
     conn_scopes := scopes |}.

(** [GET /callback]; it is GitHub that calls it, without authentication. *)
Definition handleOAuthCallback (env : Env) (o : Outside) (req : Request)
    : M Response :=
  if negb (Js.truthy (GITHUB_CLIENT_ID env))
     || negb (Js.truthy (GITHUB_CLIENT_SECRET env))
     || negb (Js.truthy (GITHUB_REDIRECT_URI env))
  then ret (error_redirect env "GitHub OAuth not configured")
  else
    match Js.nonempty (searchParams_get req "code"),
          Js.nonempty (searchParams_get req "state") with
    | Some code, Some state =>
        st <- select_valid_state o state ;;
        match error st, data st with
        | None, Some oauthState =>
            let userId := st_user_id oauthState in
            tokenResponse <-
              fetch "POST" "https://github.com/login/oauth/access_token"
                    (token_endpoint o code) ;;
            if negb (resp_ok tokenResponse) then
              ret (error_redirect env "Failed to exchange code for token")
            else
              tokenData <- response_json tokenResponse ;;
              let scopes := scopes_of tokenData in
              match Js.nonempty (access_token tokenData) with
              | None => ret (error_redirect env "No access token received")
              | Some accessToken =>
                  userResponse <-
                    fetch "GET" "https://api.github.com/user"
                          (user_endpoint o accessToken) ;;
                  if negb (resp_ok userResponse) then
                    ret (error_redirect env "Failed to fetch GitHub user")
                  else
                    githubUser <- response_json userResponse ;;
                    let accessTokenEncrypted := accessToken in
                    let finish (connectionId : uuid) : M Response :=
                      delete_state o state ;;;
                      Audit.logAuditEvent o userId "CONNECT" "provider_connection"
                        (Some connectionId) None
                        (Some ([("provider", "github")]
                               ++ opt_field "username" (gh_login githubUser)
                               ++ [("project_id", st_project_id oauthState)])%list) ;;;
                      ret (redirect (frontendUrl env ++ "/project/"
                                     ++ st_project_id oauthState
                                     ++ "/code/select-repos?connected=true")) in
                    existing <- select_connection o (st_project_id oauthState) ;;
                    match data existing with
                    | Some existingConnection =>
                        uid <- id_toString githubUser ;;
                        r <- update_connection_single o (conn_id existingConnection)
                               (reconnect o uid (gh_login githubUser)
                                  accessTokenEncrypted scopes (fun old => old)) ;;
                        match error r, data r with
                        | None, Some row => finish (conn_id row)
                        | _, _ =>
                            ret (error_redirect env "Failed to update connection")
                        end
                    | None =>
                        uid <- id_toString githubUser ;;
                        r <- insert_connection o
                               (new_connection o (st_project_id oauthState) userId
                                  uid (gh_login githubUser) accessTokenEncrypted
                                  scopes None) ;;
                        match error r, data r with
                        | None, Some row => finish (conn_id row)
                        | _, _ =>
                            ret (error_redirect env "Failed to create connection")
                        end
                    end
              end
        | _, _ => ret (error_redirect env "Invalid or expired state")
        end
    | _, _ => ret (error_redirect env "Missing code or state parameter")
    end.

(** [GET /connection] *)
Definition handleGetConnection (o : Outside) (req : Request) (userId : uuid)
    : M Response :=
  match Js.nonempty (searchParams_get req "projectId") with
  | None => ret (json_error 400 "projectId is required")
  | Some projectId =>
      member <- query (Permissions.select_member userId projectId) ;;
      match data member with
      | None => ret (json_error 403 "Forbidden")
      | Some _ =>
          connection <- select_connection o projectId ;;
          let status_name (s : connection_status) :=
            match s with
            | status_active => "active"
            | status_error => "error"
            | status_revoked => "revoked"
            end in
          let str (v : option string) :=
            match Js.nonempty v with Some s => j_str s | None => j_null end in
          ret (json_response 200
                 (match data connection with
                  | Some c =>
                      j_obj [("connected",
                              j_bool (match conn_status c with
                                      | status_active => true
                                      | _ => false
                                      end));
                             ("username", str (conn_username c));
                             ("status", j_str (status_name (conn_status c)));
                             ("scopes", j_arr (map j_str (conn_scopes c)));
                             ("lastSyncAt",
                              match Js.nonzero (conn_last_sync_at c) with
                              | Some t => j_num t
                              | None => j_null
                              end)]
                  | None =>
                      j_obj [("connected", j_bool false); ("username", j_null);
                             ("status", j_null); ("scopes", j_arr []);
                             ("lastSyncAt", j_null)]
                  end))
      end
  end.

(** [POST /connection/revoke] *)
Definition handleRevokeConnection (env : Env) (o : Outside) (req : Request)
    (userId : uuid) : M Response :=
  fields <- req_json req ;;
  match Js.nonempty (assoc "projectId" fields) with
  | None => ret (json_error 400 "projectId is required")
  | Some projectId =>
      allowed <- Permissions.canConnectGit userId projectId ;;
      if negb allowed then ret (json_error 403 "Forbidden")
      else
        connection <- select_connection o projectId ;;
        match data connection with
        | None => ret (json_error 404 "Connection not found")
        | Some connection =>
            (* revoke the token on GitHub, if we have it *)
            match Js.nonempty (conn_access_token_encrypted connection) with
            | Some token =>
                try_catch
                  (fetch "DELETE"
                     ("https://api.github.com/applications/"
                      ++ GITHUB_CLIENT_ID env ++ "/token")
                     (if revoke_endpoint o token
                      then Some {| resp_ok := true; json_of := @None unit |}
                      else None) ;;;
                   ret tt)
                  (fun _ => ret tt)          (* continue anyway *)
            | None => ret tt
            end ;;;
            (* mark as revoked *)
            r <- update_connection o (conn_id connection) set_revoked ;;
            match error r with
            | Some _ => ret (json_error 500 "Failed to revoke connection")
            | None =>
                (* remove selected repos *)
                unselect_repos o (conn_id connection) ;;;
                Audit.logAuditEvent o userId "CONNECT" "provider_connection"
                  (Some (conn_id connection))
                  (Some [("status", "active")]) (Some [("status", "revoked")]) ;;;
                ret (json_response 200 (j_obj [("ok", j_bool true)]))
            end
        end
  end.

(** The prefix loop of [serve]: the first prefix that [path] starts
    with is cut off. *)
Fixpoint strip_prefix (prefixes : list string) (path : string) : string :=
  match prefixes with
  | [] => path
  | p :: ps =>
      if String.prefix p path then Js.slice (String.length p) path
      else strip_prefix ps path
  end.

Definition normalize_path (prefixes : list string) (pathname_ : string) : string :=
  let path := strip_prefix prefixes pathname_ in
  let path :=
    if String.eqb path "" || String.eqb path "/" then "/"
    else if negb (String.prefix "/" path) then "/" ++ path
    else path in
  if String.eqb path "/" then "/" else Js.collapse_leading_slashes path.

(** [error instanceof Error ? error.message : "Internal server error"] *)
Definition message_of (e : thrown) : string :=
  match e with
  | thrown_Error m _ => m
  | _ => "Internal server error"
  end.

Definition serve (env : Env) (o : Outside) (req : Request) : M Response :=
  if String.eqb (method req) "OPTIONS" then ret preflight
  else
    try_catch
      (if String.eqb (method req) "GET" && Js.includes "/callback" (pathname req)
       then
         (* the callback needs no authentication: GitHub calls it *)
         try_catch (handleOAuthCallback env o req)
                   (fun _ => ret (error_redirect env "OAuth callback error"))
       else
         let normalizedPath :=
           normalize_path ["/functions/v1/github-oauth"; "/github-oauth"]
                          (pathname req) in
         let (userId, authError) := validateAuth o (authorization req) in
         match authError, Js.truthy userId with
         | None, true =>
             if String.eqb (method req) "POST"
                && String.eqb normalizedPath "/start"
             then handleOAuthStart env o req userId
             else if String.eqb (method req) "GET"
                     && String.eqb normalizedPath "/connection"
             then handleGetConnection o req userId
             else if String.eqb (method req) "POST"
                     && String.eqb normalizedPath "/connection/revoke"
             then handleRevokeConnection env o req userId
             else
               ret (json_response 404
                      (j_obj [("error", j_str "Not found");
                              ("path", j_str normalizedPath)]))
         | _, _ => ret (json_error 401 "Unauthorized")
         end)
      (fun e => ret (json_error 500 (message_of e))).

End GithubOauth.

(* ================================================================== *)
(** * The edge function [github-oauth-callback] *)
(* ================================================================== *)

Module GithubOauthCallback.
Import Store Http.

(** [Deno.env.get("FRONTEND_URL") || "http://localhost:8080"] *)
Definition FRONTEND_URL (env : Env) : string :=
  Js.or_else (env_FRONTEND_URL env) "http://localhost:8080".

(** Both branches of [getFrontendUrl] return [FRONTEND_URL]. *)
Definition getFrontendUrl (env : Env) : string := FRONTEND_URL env.

(** [from("github_oauth_states").select("project_id").eq("state", state)
      .maybeSingle()], whatever the expiry. *)
Definition select_state_project (o : Outside) (state : string)
    : M (result github_oauth_state) :=
  stmt o "github_oauth_states" v_select
    (fun d =>
       (maybeSingle
          (filter (fun s => String.eqb (st_state s) state)
                  (github_oauth_states d)), d)).

(** The error redirect that first tries to find the project in the
    state row, expired or not. *)
Definition error_redirect (env : Env) (o : Outside) (state : option string)
    (message : string) : M Response :=
  let frontendUrl := getFrontendUrl env in
  projectId <-
    match Js.nonempty state with
    | Some state =>
        found <- select_state_project o state ;;
        ret (match data found with
             | Some oauthState => Js.nonempty (Some (st_project_id oauthState))
             | None => None
             end)
    | None => ret None
    end ;;
  let errorPath :=
    match projectId with
    | Some projectId =>
        "/project/" ++ projectId ++ "/code/repos?error="
        ++ Js.encodeURIComponent message
    | None => "/project/error?message=" ++ Js.encodeURIComponent message
    end in
  ret (redirect (frontendUrl ++ errorPath)).

Definition project_error_redirect (env : Env) (projectId message : string)
    : Response :=
  redirect (getFrontendUrl env ++ "/project/" ++ projectId
            ++ "/code/repos?error=" ++ Js.encodeURIComponent message).

(** [x.error_description || x.error || fallback] *)
Definition error_message_of (t : token_data) (fallback : string) : string :=
  match Js.nonempty (error_description t) with
  | Some m => m
  | None =>
      match Js.nonempty (oauth_error t) with
      | Some m => m
      | None => fallback
      end
  end.

Definition serve (env : Env) (o : Outside) (req : Request) : M Response :=
  if String.eqb (method req) "OPTIONS" then ret preflight
  else if negb (String.eqb (method req) "GET") then
    ret (json_error 405 "Method not allowed")
  else
    try_catch
      (let code_param := searchParams_get req "code" in
       let state_param := searchParams_get req "state" in
       if negb (Js.truthy (GITHUB_CLIENT_ID env))
          || negb (Js.truthy (GITHUB_CLIENT_SECRET env))
          || negb (Js.truthy (GITHUB_REDIRECT_URI env))
       then error_redirect env o state_param "GitHub OAuth not configured"
       else
         match Js.nonempty code_param, Js.nonempty state_param with
         | Some code, Some state =>
             st <- GithubOauth.select_valid_state o state ;;
             match error st, data st with
             | None, Some oauthState =>
                 let userId := st_user_id oauthState in
                 let projectId := st_project_id oauthState in
                 tokenResponse <-
                   fetch "POST" "https://github.com/login/oauth/access_token"
                         (token_endpoint o code) ;;
                 if negb (resp_ok tokenResponse) then
                   let errorMsg :=
                     match json_of tokenResponse with
                     | Some errorData =>
                         error_message_of errorData
                           "Failed to exchange code for token"
                     | None => "Failed to exchange code for token"
                     end in
                   ret (project_error_redirect env projectId errorMsg)
                 else
                   tokenData <- response_json tokenResponse ;;
                   let scopes := GithubOauth.scopes_of tokenData in
                   match Js.nonempty (access_token tokenData) with
                   | None =>
                       ret (project_error_redirect env projectId
                              (error_message_of tokenData
                                 "No access token received"))
                   | Some accessToken =>
                       userResponse <-
                         fetch "GET" "https://api.github.com/user"
                               (user_endpoint o accessToken) ;;
                       if negb (resp_ok userResponse) then
                         ret (project_error_redirect env projectId
                                "Failed to fetch GitHub user")
                       else
                         githubUser <- response_json userResponse ;;
                         let accessTokenEncrypted := accessToken in
                         let secrets_ref :=
                           "github_oauth_" ++ projectId ++ "_" ++ userId in
                         let finish (connectionId : uuid) : M Response :=
                           GithubOauth.delete_state o state ;;;
                           Audit.logAuditEvent o userId "CONNECT"
                             "provider_connection" (Some connectionId) None
                             (Some ([("provider", "github")]
                                    ++ GithubOauth.opt_field "username"
                                         (gh_login githubUser)
                                    ++ [("project_id", projectId)])%list) ;;;
                           ret (redirect (getFrontendUrl env ++ "/project/"
                                          ++ projectId
                                          ++ "/code/repos?connected=true")) in
                         existing <- GithubOauth.select_connection o projectId ;;
                         match data existing with
                         | Some existingConnection =>
                             uid <- GithubOauth.id_toString githubUser ;;
                             r <- GithubOauth.update_connection_single o
                                    (conn_id existingConnection)
                                    (GithubOauth.reconnect o uid
                                       (gh_login githubUser)
                                       accessTokenEncrypted scopes
                                       (fun _ => Some secrets_ref)) ;;
                             match error r, data r with
                             | None, Some row => finish (conn_id row)
                             | Some msg, _ =>
                                 ret (project_error_redirect env projectId
                                        ("Failed to update connection: " ++ msg))
                             | None, None =>
                                 ret (project_error_redirect env projectId
                                        "Failed to update connection: ")
                             end
                         | None =>
                             uid <- GithubOauth.id_toString githubUser ;;
                             r <- GithubOauth.insert_connection o
                                    (GithubOauth.new_connection o projectId
                                       userId uid (gh_login githubUser)
                                       accessTokenEncrypted scopes
                                       (Some secrets_ref)) ;;
                             match error r, data r with
                             | None, Some row => finish (conn_id row)
                             | Some msg, _ =>
                                 ret (project_error_redirect env projectId
                                        ("Failed to create connection: " ++ msg))
                             | None, None =>
                                 ret (project_error_redirect env projectId
                                        "Failed to create connection: ")
                             end
                         end
                   end
             | _, _ => error_redirect env o state_param "Invalid or expired state"
             end
         | _, _ =>
             error_redirect env o state_param "Missing code or state parameter"
         end)
      (fun _ =>
         error_redirect env o (searchParams_get req "state")
                        "Internal server error").

End GithubOauthCallback.

(* ================================================================== *)
(** * The edge function [git-connect] (GitHub App installations) *)
(* ================================================================== *)

Module GitConnect.
Import Store Http.

(** [getGitHubAppCredentials] of [_shared/github-client.ts] *)
Definition getGitHubAppCredentials (env : Env) : M unit :=
  if negb (Js.truthy (GITHUB_APP_ID env)) || negb (Js.truthy (GITHUB_PRIVATE_KEY env))
  then throw (thrown_Error "GitHub App credentials not configured" None)
  else ret tt.

(** [getGitHubAppClient]: the credentials, then a token as the app. *)
Definition getGitHubAppClient (env : Env) (o : Outside) : M unit :=
  getGitHubAppCredentials env ;;;
  outside (octokit_call "app auth") ;;;
  if app_auth o then ret tt
  else throw (thrown_Error "app authentication failed" None).

(** [getGitHubClient({ connectionId, installationId })] *)
Definition getGitHubClient (env : Env) (o : Outside)
    (installationId : option string) : M unit :=
  match Js.nonempty installationId with
  | None => throw (thrown_Error "Installation ID required for GitHub App" None)
  | Some installationId =>
      getGitHubAppCredentials env ;;;
      outside (octokit_call "installation auth") ;;;
      if installation_auth o installationId then ret tt
      else throw (thrown_Error "installation authentication failed" None)
  end.

(** An Octokit request: a [RequestError] when it is rejected. *)
Definition octokit {A} (endpoint : string) (answer : option A) : M A :=
  outside (octokit_call endpoint) ;;;
  match answer with
  | Some a => ret a
  | None => throw (thrown_Error "Not Found" (Some (status_number 404)))
  end.

(** [from("provider_connections").select(...).eq("id", id).maybeSingle()] *)
Definition select_connection_by_id (o : Outside) (id : uuid)
    : M (result provider_connection) :=
  stmt o "provider_connections" v_select
    (fun d =>
       (maybeSingle (filter (fun c => String.eqb (conn_id c) id)
                            (provider_connections d)), d)).

Definition same_repo (connectionId : uuid) (providerRepoId : string) (r : repo) : bool :=
  col_eq String.eqb (repo_connection_id r) connectionId
  && String.eqb (repo_provider_repo_id r) providerRepoId.

(** [from("repos").upsert(repoData, { onConflict:
    "connection_id,provider_repo_id" })] *)
Definition upsert_repo (o : Outside) (connectionId : uuid) (g : gh_repo)
    : M (result unit) :=
  let providerRepoId := Js.toString (gh_repo_id g) in
  let written (id : uuid) (selected : bool) (project : option uuid) : repo :=
    {| repo_id := id;
       repo_connection_id := Some connectionId;
       repo_provider_repo_id := providerRepoId;
       repo_full_name := gh_full_name g;
       repo_default_branch :=
         match Js.nonempty (gh_default_branch g) with
         | Some b => b | None => "main" end;
       repo_visibility :=
         match Js.nonempty (gh_visibility g) with
         | Some v => v | None => "private" end;
       repo_description := Js.nonempty (gh_description g);
       repo_url := Some (gh_html_url g);
       repo_sync_status := "synced";
       repo_last_synced_at := Some (now o);
       repo_selected := selected;
       repo_project_id := project |} in
  stmt o "repos" v_upsert
    (fun d =>
       (empty,
        with_repos d
          (if existsb (same_repo connectionId providerRepoId) (repos d)
           then map (fun r => if same_repo connectionId providerRepoId r
                              then written (repo_id r) (repo_selected r)
                                           (repo_project_id r)
                              else r) (repos d)
           else (repos d ++ [written (new_repo_id o providerRepoId) false None])%list))).

Definition select_synced_repo (o : Outside) (connectionId : uuid)
    (providerRepoId : string) : M (result repo) :=
  stmt o "repos" v_select
    (fun d => (maybeSingle (filter (same_repo connectionId providerRepoId)
                                   (repos d)), d)).

Definition same_branch (repoId : uuid) (name : string) (b : branch) : bool :=
  String.eqb (branch_repo_id b) repoId && String.eqb (branch_name b) name.

(** [from("branches").upsert(branchData, { onConflict: "repo_id,name" })]:
    a row that is there is updated and keeps its id; a row that is
    inserted gets a new id, and the AFTER INSERT trigger of [branches]
    runs for it.  The trigger runs inside the statement: when it fails,
    the statement fails as a whole, which is one of the failures that
    [store_fails] stands for. *)
Definition upsert_branch (o : Outside) (repoId : uuid) (g : gh_branch)
    : M (result unit) :=
  let written (id : uuid) : branch :=
    {| branch_id := id;
       branch_repo_id := repoId;
       branch_name := gh_branch_name g;
       branch_last_commit_sha := gh_commit_sha g;
       branch_is_default :=
         String.eqb (gh_branch_name g) "main"
         || String.eqb (gh_branch_name g) "master";
       branch_protected := gh_protected g |} in
  stmt o "branches" v_upsert
    (fun d =>
       (empty,
        if existsb (same_branch repoId (gh_branch_name g)) (branches d)
        then with_branches d
               (map (fun b => if same_branch repoId (gh_branch_name g) b
                              then written (branch_id b) else b) (branches d))
        else
          let new := written (new_branch_id o repoId (gh_branch_name g)) in
          Migrations.auto_link_branch_tarefas o new
            (with_branches d (branches d ++ [new])%list))).

Definition syncBranches (o : Outside) (repoId : uuid) (repoFullName : string)
    : M unit :=
  try_catch
    (listed <- octokit "repos.listBranches" (list_branches o repoFullName) ;;
     for_each listed (fun b => upsert_branch o repoId b ;;; ret tt))
    (fun _ => ret tt).

(** [.update({ last_sync_at: new Date().toISOString() })]: what the
    statement writes; [updated_at] is set after it by the trigger. *)
Definition set_last_sync_at (t : timestamp) (c : provider_connection)
    : provider_connection :=
  {| conn_id := conn_id c; conn_project_id := conn_project_id c;
     conn_provider := conn_provider c; conn_owner_type := conn_owner_type c;
     conn_owner_name := conn_owner_name c;
     conn_installation_id := conn_installation_id c;
     conn_status := conn_status c;
     conn_secrets_ref := conn_secrets_ref c;
     conn_last_sync_at := Some t;
     conn_error_message := conn_error_message c;
     conn_created_by := conn_created_by c;
     conn_updated_at := conn_updated_at c;
     conn_github_user_id := conn_github_user_id c;
     conn_username := conn_username c;
     conn_access_token_encrypted := conn_access_token_encrypted c;
     conn_scopes := conn_scopes c |}.

(** [.update({ status: "error", error_message })]: what the statement
    writes; [updated_at] is set after it by the trigger. *)
Definition set_error (msg : string) (c : provider_connection)
    : provider_connection :=
  {| conn_id := conn_id c; conn_project_id := conn_project_id c;
     conn_provider := conn_provider c; conn_owner_type := conn_owner_type c;
     conn_owner_name := conn_owner_name c;
     conn_installation_id := conn_installation_id c;
     conn_status := status_error;
     conn_secrets_ref := conn_secrets_ref c;
     conn_last_sync_at := conn_last_sync_at c;
     conn_error_message := Some msg;
     conn_created_by := conn_created_by c;
     conn_updated_at := conn_updated_at c;
     conn_github_user_id := conn_github_user_id c;
     conn_username := conn_username c;
     conn_access_token_encrypted := conn_access_token_encrypted c;
     conn_scopes := conn_scopes c |}.

(** Sync repositories from GitHub. *)
Definition syncRepos (env : Env) (o : Outside) (connectionId userId : uuid)
    : M unit :=
  try_catch
    (connection <- select_connection_by_id o connectionId ;;
     match data connection with
     | None => throw (thrown_Error "Connection not found or invalid" None)
     | Some connection =>
         match Js.nonempty (conn_installation_id connection) with
         | None => throw (thrown_Error "Connection not found or invalid" None)
         | Some installationId =>
             getGitHubClient env o (Some installationId) ;;;
             listed <- octokit "apps.listInstallationReposForAuthenticatedUser"
                               (list_installation_repos o installationId) ;;
             for_each listed (fun g =>
               r <- upsert_repo o connectionId g ;;
               match error r with
               | Some _ => ret tt                               (* continue *)
               | None =>
                   syncedRepo <- select_synced_repo o connectionId
                                   (Js.toString (gh_repo_id g)) ;;
                   match data syncedRepo with
                   | Some syncedRepo =>
                       syncBranches o (repo_id syncedRepo) (gh_full_name g)
                   | None => ret tt
                   end
               end) ;;;
             GithubOauth.update_connection o connectionId
               (set_last_sync_at (now o)) ;;;
             Audit.logAuditEvent o userId "SYNC" "provider_connection"
               (Some connectionId) None
               (Some [("repos_synced",
                       Js.toString (Z.of_nat (List.length listed)))])
         end
     end)
    (fun e =>
       GithubOauth.update_connection o connectionId
         (set_error (match e with
                     | thrown_Error m _ => m
                     | _ => "Unknown error"
                     end)) ;;;
       ret tt).

Definition connection_json (c : provider_connection) : json :=
  j_obj [("id", j_str (conn_id c));
         ("project_id", j_str (conn_project_id c));
         ("provider", j_str (conn_provider c))].

(** [POST /callback]: after the GitHub App was installed. *)
Definition handleCallback (env : Env) (o : Outside) (req : Request)
    (userId : uuid) : M Response :=
  fields <- req_json req ;;
  let provider :=
    match assoc "provider" fields with Some p => p | None => "github" end in
  match Js.nonempty (assoc "projectId" fields),
        Js.nonempty (assoc "installationId" fields) with
  | Some projectId, Some installationId =>
      allowed <- Permissions.canConnectGit userId projectId ;;
      if negb allowed then ret (json_error 403 "Forbidden")
      else
        try_catch
          (getGitHubAppClient env o ;;;
           inst <- octokit "apps.getInstallation"
                           (get_installation o installationId) ;;
           let secretsRef := "github_installation_" ++ installationId in
           r <- GithubOauth.insert_connection o
                  {| conn_id := new_row_id o;
                     conn_project_id := projectId;
                     conn_provider := provider;
                     conn_owner_type :=
                       match Js.nonempty (assoc "ownerType" fields) with
                       | Some t => t
                       | None =>
                           if opt_eqb String.eqb (account_type inst)
                                      (Some "Organization")
                           then "org" else "user"
                       end;
                     conn_owner_name :=
                       Some (match Js.nonempty (assoc "ownerName" fields) with
                             | Some n => n
                             | None =>
                                 match Js.nonempty (account_login inst) with
                                 | Some l => l
                                 | None => ""
                                 end
                             end);
                     conn_installation_id := Some installationId;
                     conn_status := status_active;
                     conn_secrets_ref := Some secretsRef;
                     conn_last_sync_at := None;
                     conn_error_message := None;
                     conn_created_by := Some userId;
                     conn_updated_at := Some (db_now o);  (* the default *)
                     conn_github_user_id := None;
                     conn_username := None;
                     conn_access_token_encrypted := None;
                     conn_scopes := [] |} ;;
           match error r, data r with
           | None, Some connection =>
               Audit.logAuditEvent o userId "CONNECT" "provider_connection"
                 (Some (conn_id connection)) None
                 (Some [("provider", provider);
                        ("installation_id", installationId)]) ;;;
               (* trigger the initial sync *)
               syncRepos env o (conn_id connection) userId ;;;
               ret (json_response 200
                      (j_obj [("connection", connection_json connection)]))
           | _, _ => ret (json_error 500 "Failed to create connection")
           end)
          (fun _ => ret (json_error 500 "Failed to process callback"))
  | _, _ => ret (json_error 400 "projectId and installationId are required")
  end.

(** [DELETE /connections/:id] *)
Definition handleDeleteConnection (o : Outside) (connectionId userId : uuid)
    : M Response :=
  connection <- select_connection_by_id o connectionId ;;
  match data connection with
  | None => ret (json_error 404 "Connection not found")
  | Some connection =>
      allowed <- Permissions.canConnectGit userId (conn_project_id connection) ;;
      if negb allowed then ret (json_error 403 "Forbidden")
      else
        (* mark as revoked *)
        r <- GithubOauth.update_connection o connectionId GithubOauth.set_revoked ;;
        match error r with
        | Some _ => ret (json_error 500 "Failed to revoke connection")
        | None =>
            Audit.logAuditEvent o userId "CONNECT" "provider_connection"
              (Some connectionId)
              (Some [("status", "active")]) (Some [("status", "revoked")]) ;;;
            ret (json_response 200 (j_obj [("success", j_bool true)]))
        end
  end.

(** [POST /start]: where to install the GitHub App. *)
Definition handleStartConnection (env : Env) (req : Request) (userId : uuid)
    : M Response :=
  fields <- req_json req ;;
  let provider :=
    match assoc "provider" fields with Some p => p | None => "github" end in
  match Js.nonempty (assoc "projectId" fields) with
  | None => ret (json_error 400 "projectId is required")
  | Some projectId =>
      allowed <- Permissions.canConnectGit userId projectId ;;
      if negb allowed then
        ret (json_error 403 "Forbidden: Only admins can connect Git providers")
      else if String.eqb provider "github" then
        ret (json_response 200
               (j_obj [("url", j_str ("https://github.com/apps/"
                                      ++ GITHUB_APP_ID env
                                      ++ "/installations/new"));
                       ("provider", j_str "github");
                       ("type", j_str "github_app")]))
      else ret (json_error 400 "Unsupported provider")
  end.

(** [from("repos").select("connection_id").eq("id", id).maybeSingle()] *)
Definition select_repo_by_id (o : Outside) (id : uuid) : M (result repo) :=
  stmt o "repos" v_select
    (fun d => (maybeSingle (filter (fun r => String.eqb (repo_id r) id)
                                   (repos d)), d)).

(** [POST /sync]: a manual sync, of a connection or of the connection
    of a repository. *)
Definition handleSync (env : Env) (o : Outside) (req : Request) (userId : uuid)
    : M Response :=
  let repoId := searchParams_get req "repoId" in
  let connectionId := searchParams_get req "connectionId" in
  match Js.nonempty connectionId, Js.nonempty repoId with
  | None, None => ret (json_error 400 "connectionId or repoId is required")
  | Some connectionId, _ =>
      syncRepos env o connectionId userId ;;;
      ret (json_response 200 (j_obj [("success", j_bool true)]))
  | None, Some repoId =>
      found <- select_repo_by_id o repoId ;;
      match data found with
      | Some r =>
          match repo_connection_id r with
          | Some connectionId => syncRepos env o connectionId userId
          | None =>
              (* [syncRepos(null, ...)]: no connection has the id [null],
                 neither for the select nor for the update of the
                 [catch] *)
              ret tt
          end
      | None => ret tt
      end ;;;
      ret (json_response 200 (j_obj [("success", j_bool true)]))
  end.

End GitConnect.

(* ================================================================== *)
(** * The edge function [git-links]: links made by hand *)
(* ================================================================== *)

Module GitLinks.
Import Store Http.

(** The JSON body of [POST /], destructured. *)
Record link_body := {
  body_tarefaId : option uuid;
  body_repoId : option uuid;
  body_branchName : option string;
  body_prNumber : option Z;
  body_commitSha : option string }.

(** [from("tarefas").select("project_id").eq("id", id).maybeSingle()] *)
Definition select_tarefa (o : Outside) (id : uuid) : M (result tarefa) :=
  stmt o "tarefas" v_select
    (fun d => (maybeSingle (filter (fun t => String.eqb (tarefa_id t) id)
                                   (tarefas d)), d)).

(** [from("project_members").select("role").eq("project_id", p)
      .eq("user_id", u).maybeSingle()] *)
Definition select_role (o : Outside) (projectId userId : uuid)
    : M (result project_member) :=
  stmt o "project_members" v_select
    (fun d => (Permissions.select_member userId projectId d, d)).

(** The roles that may link a task by hand. *)
Definition may_link (role : AppRole) : bool :=
  match role with
  | admin | tech_lead | developer => true
  | viewer => false
  end.

(** The URL of the linked entity: the pull request before the commit
    before the branch, and nothing without the URL of the repository. *)
Definition link_url_of (repoUrl : option string) (b : link_body) : option string :=
  match Js.nonempty repoUrl with
  | None => None
  | Some repoUrl =>
      match Js.nonzero (body_prNumber b), Js.nonempty (body_commitSha b),
            Js.nonempty (body_branchName b) with
      | Some n, _, _ => Some (repoUrl ++ "/pull/" ++ Js.toString n)
      | None, Some sha, _ => Some (repoUrl ++ "/commit/" ++ sha)
      | None, None, Some name => Some (repoUrl ++ "/tree/" ++ name)
      | None, None, None => Some repoUrl
      end
  end.

(** A row of [tarefa_git_links] in a response. *)
Definition link_json (l : tarefa_git_link) : json :=
  let str (v : option string) :=
    match v with Some s => j_str s | None => j_null end in
  j_obj [("tarefa_id", j_str (link_tarefa_id l));
         ("provider", j_str (link_provider l));
         ("branch", str (link_branch l));
         ("commit_sha", str (link_commit_sha l));
         ("pr_number",
          match link_pr_number l with Some n => j_num n | None => j_null end);
         ("url", str (link_url l));
         ("created_by", str (link_created_by l))].

Section CreateLink.

(** The upsert on the conflict target
    [tarefa_id,provider,branch,commit_sha,pr_number] with
    [.select().single()]; the declaration of [tarefa_git_links] and of
    its constraints is not part of these sources, so what the statement
    does with the row is left open. *)
Variable upsert_link :
  tarefa_git_link -> DB -> result tarefa_git_link * DB.

(** [POST /]; [body] is [None] when [req.json()] rejects. *)
Definition handleCreateLink (o : Outside) (body : option link_body)
    (userId : uuid) : M Response :=
  match body with
  | None => throw (thrown_Error "Unexpected end of JSON input" None)
  | Some b =>
      match Js.nonempty (body_tarefaId b) with
      | None => ret (json_error 400 "tarefaId is required")
      | Some tarefaId =>
          t <- select_tarefa o tarefaId ;;
          match data t with
          | None => ret (json_error 404 "Tarefa not found")
          | Some t =>
              member <- select_role o (tarefa_project_id t) userId ;;
              match data member with
              | None => ret (json_error 403 "Forbidden")
              | Some m =>
                  if negb (may_link (member_role m)) then
                    ret (json_error 403 "Forbidden")
                  else
                    repoUrl <-
                      match Js.nonempty (body_repoId b) with
                      | Some repoId =>
                          found <- GitConnect.select_repo_by_id o repoId ;;
                          ret (match data found with
                               | Some r => repo_url r
                               | None => None
                               end)
                      | None => ret None
                      end ;;
                    let linkData :=
                      {| link_tarefa_id := tarefaId;
                         link_provider := "github";
                         link_branch := Js.nonempty (body_branchName b);
                         link_commit_sha := Js.nonempty (body_commitSha b);
                         link_pr_number := Js.nonzero (body_prNumber b);
                         link_url := link_url_of repoUrl b;
                         link_created_by := Some userId;
                         link_metadata_of := manual_link |} in
                    r <- stmt o "tarefa_git_links" v_upsert (upsert_link linkData) ;;
                    match error r with
                    | Some _ => ret (json_error 500 "Failed to create link")
                    | None =>
                        ret (json_response 200
                               (j_obj [("link",
                                        match data r with
                                        | Some row => link_json row
                                        | None => j_null
                                        end)]))
                    end
              end
          end
      end
  end.

End CreateLink.

End GitLinks.

(* ================================================================== *)
(** * Notions used to state the properties *)
(* ================================================================== *)

(** [wp m Q d]: running [m] on the store [d] ends in a completion, a
    store and a list of outside calls that satisfy [Q]. *)
Definition wp {A} (m : M A)
    (Q : completion A -> Store.DB -> list outside_call -> Prop)
    (d : Store.DB) : Prop :=
  match m d with
  | (r, d', calls) => Q r d' calls
  end.

Module RetrySpec.
Import GithubClient.

Section Runs.
Variables (T St : Type).
Variable fn : St -> completion T * St.

(** The HTTP status of an error: the number in the [status] property
    of what was thrown; none for a primitive, for an object without
    [status] and for a [status] that is not a number. *)
Definition error_status (e : thrown) : option Z :=
  match e with
  | thrown_Error _ (Some (status_number n)) => Some n
  | thrown_object _ (Some (status_number n)) => Some n
  | _ => None
  end.


Definition rate_limited_b (e : thrown) : bool :=
  match error_status e with
  | Some n => Z.eqb n 403 || Z.eqb n 429
  | None => false
  end.

(** The state of [fn] after [k] invocations in a row that were all
    rejected with a status 403 or 429; [None] when one of them ended
    otherwise. *)
Fixpoint after_rate_limits (k : nat) (s : St) : option St :=
  match k with
  | O => Some s
  | S k' =>
      match fn s with
      | (Throw e, s1) =>
          if rate_limited_b e then after_rate_limits k' s1 else None
      | (Normal _, _) => None
      end
  end.

(** [k] rejected attempts, numbered from [i + 1], each followed by its
    wait of [delay * attemptNumber]. *)
Fixpoint backoff (delay i : Z) (k : nat) : list event :=
  match k with
  | O => []
  | S k' => attempt :: sleep (delay * (i + 1)) :: backoff delay (i + 1) k'
  end.


End Runs.
End RetrySpec.

Module KeySpec.

(** An alphanumeric character: an ASCII letter or digit. *)
Definition alnum (c : ascii) : bool :=
  Js.is_upper c || Js.is_lower c || Js.is_digit c.

Definition all_alnum (g : list ascii) : Prop :=
  Forall (fun c => alnum c = true) g.

(** One or more groups of alphanumeric characters, separated by
    hyphens. *)
Inductive key_rest : list ascii -> Prop :=
| rest_group (g : list ascii) :
    g <> [] -> all_alnum g -> key_rest g
| rest_more (g r : list ascii) :
    g <> [] -> all_alnum g -> key_rest r ->
    key_rest (g ++ AutoLink.hyphen :: r).

(** [TSK-], in any letter case. *)
Definition is_tsk (p : list ascii) : Prop :=
  exists t s k,
    p = [t; s; k; AutoLink.hyphen]
    /\ (t = "T" \/ t = "t")%char
    /\ (s = "S" \/ s = "s")%char
    /\ (k = "K" \/ k = "k")%char.

(** What follows a match: nothing that would make it longer, neither an
    alphanumeric character nor a hyphen with one behind it. *)
Definition ends_here (post : list ascii) : Prop :=
  match post with
  | [] => True
  | c :: post' =>
      alnum c = false
      /\ (c = AutoLink.hyphen ->
          match post' with
          | d :: _ => alnum d = false
          | [] => True
          end)
  end.

(** At index [i] the text reads [TSK-] and then [rest], and [rest] is as
    long as it can be. *)
Definition occurs_at (text : list ascii) (i : nat) (rest : list ascii) : Prop :=
  exists pre p post,
    text = (pre ++ p ++ rest ++ post)%list
    /\ List.length pre = i
    /\ is_tsk p /\ key_rest rest /\ ends_here post.

(** The occurrence at [i] does not start inside an earlier one. *)
Definition outermost (text : list ascii) (i : nat) : Prop :=
  forall j rest,
    occurs_at text j rest -> (j < i)%nat ->
    (j + 4 + List.length rest <= i)%nat.

(** The canonical key of an occurrence: [TSK-] and the rest as found. *)
Definition key_of (rest : list ascii) : string :=
  "TSK-" ++ string_of_list_ascii rest.

End KeySpec.

Module LinkSpec.
Import Store AutoLink.

(** The rows the lookup of [createAutoLinks] selects for a task. *)
Definition matching_rows (md : metadata) (links : list tarefa_git_link)
    (t : tarefa) : list tarefa_git_link :=
  filter (matches (existingLinkQuery t md)) links.

(** One turn of the loop of [createAutoLinks], on the table of links. *)
Definition link_step (et : entity_type) (entityId : string) (md : metadata)
    (links : list tarefa_git_link) (t : tarefa) : list tarefa_git_link :=
  match data (maybeSingle (matching_rows md links t)) with
  | Some _ => links
  | None => (links ++ [linkData t et entityId md])%list
  end.

(** The tasks [createAutoLinks] resolves the keys to. *)
Definition resolved (keys : list string) (projectId : uuid) (d : DB) : list tarefa :=
  if (List.length keys =? 0)%nat then [] else select_tarefas projectId keys d.


End LinkSpec.

Module ReviewSpec.
Import Store.


(** A user has one membership row in a project at most. *)
Definition members_keyed (d : DB) : Prop :=
  forall u p,
    (List.length
       (filter (fun m => String.eqb (member_user_id m) u
                         && String.eqb (member_project_id m) p)
               (project_members d)) <= 1)%nat.

(** The user holds some role in the project. *)
Definition holds_role (d : DB) (userId projectId : uuid) : Prop :=
  exists m, In m (project_members d)
            /\ member_user_id m = userId /\ member_project_id m = projectId.



End ReviewSpec.

Module HandshakeSpec.
Import Store Http.

(** The three variables the callback insists on are set. *)
Definition configured (env : Env) : Prop :=
  Js.truthy (GITHUB_CLIENT_ID env) = true
  /\ Js.truthy (GITHUB_CLIENT_SECRET env) = true
  /\ Js.truthy (GITHUB_REDIRECT_URI env) = true.

(** The request carries a [code] and a [state]. *)
Definition carries (req : Request) (code state : string) : Prop :=
  Js.nonempty (searchParams_get req "code") = Some code
  /\ Js.nonempty (searchParams_get req "state") = Some state.

(** No row of [github_oauth_states] holds [state] with an expiry that is
    strictly in the future: the token was never stored, was deleted, or
    has expired. *)
Definition no_live_state (d : DB) (now_ : timestamp) (state : string) : Prop :=
  forall s, In s (github_oauth_states d) -> st_state s = state ->
            (st_expires_at s <= now_)%Z.

(** [s] is the one row that holds [state], and it has not expired. *)
Definition live_state (d : DB) (now_ : timestamp) (state : string)
    (s : github_oauth_state) : Prop :=
  filter (fun s => String.eqb (st_state s) state && (now_ <? st_expires_at s)%Z)
         (github_oauth_states d) = [s].

(** No row of [github_oauth_states] holds [state]. *)
Definition state_absent (d : DB) (state : string) : Prop :=
  forall s, In s (github_oauth_states d) -> st_state s <> state.

(** Where the callback of [github-oauth] sends the browser on success. *)
Definition connected_redirect (env : Env) (projectId : uuid) : Response :=
  redirect (GithubOauth.frontendUrl env ++ "/project/" ++ projectId
            ++ "/code/select-repos?connected=true").

(** Where [github-oauth-callback] sends the browser on success. *)
Definition connected_redirect' (env : Env) (projectId : uuid) : Response :=
  redirect (GithubOauthCallback.getFrontendUrl env ++ "/project/" ++ projectId
            ++ "/code/repos?connected=true").

(** The two places [github-oauth-callback] sends the browser to with an
    error [message]: the error page, or the repository page of the
    project named by the state row. *)
Definition error_location (env : Env) (project : option uuid) (message : string)
    : string :=
  GithubOauthCallback.getFrontendUrl env
  ++ match project with
     | Some p => "/project/" ++ p ++ "/code/repos?error="
                 ++ Js.encodeURIComponent message
     | None => "/project/error?message=" ++ Js.encodeURIComponent message
     end.

End HandshakeSpec.

Module PersistSpec.
Import Store Http.

(** GitHub exchanges [code] for the token [token] and names the account
    behind it, with the numeric id [uid]. *)
Definition github_answers (o : Outside) (code token : string)
    (user : github_user) (uid : Z) : Prop :=
  exists tr td ur,
    token_endpoint o code = Some tr /\ resp_ok tr = true
    /\ json_of tr = Some td /\ Js.nonempty (access_token td) = Some token
    /\ user_endpoint o token = Some ur /\ resp_ok ur = true
    /\ json_of ur = Some user /\ gh_id user = Some uid.

(** No statement of the store fails. *)
Definition store_answers (o : Outside) : Prop :=
  forall table v, store_fails o table v = None.

(** [provider_connections.id] is the primary key. *)
Definition connections_keyed (d : DB) : Prop :=
  forall id,
    (List.length (filter (fun c => String.eqb (conn_id c) id)
                         (provider_connections d)) <= 1)%nat.

End PersistSpec.

Module AccessSpec.
Import Store.

(** The user has a membership row in the project, with that role. *)
Definition has_role (d : DB) (userId projectId : uuid) (role : AppRole) : Prop :=
  exists m, In m (project_members d)
            /\ member_user_id m = userId /\ member_project_id m = projectId
            /\ member_role m = role.



Definition may_merge (role : AppRole) : bool :=
  match role with admin | tech_lead => true | _ => false end.

End AccessSpec.

Module RetryTrace.
Import GithubClient.

(** The number of times [fn] was invoked. *)
Definition attempts (evs : list event) : nat :=
  List.length (filter (fun e => match e with attempt => true | sleep _ => false end)
                      evs).

End RetryTrace.

Module RouteSpec.
Import Http.

(** [validateAuth] finds no user behind the [authorization] header: there
    is none, it is no bearer token, or the token is not one of a user. *)
Definition unauthenticated (o : Outside) (req : Request) : Prop :=
  match authorization req with
  | Some h =>
      String.prefix "Bearer " h = false
      \/ auth_getUser o (Js.slice 7 h) = None
      \/ auth_getUser o (Js.slice 7 h) = Some ""
  | None => True
  end.

(** The routing of [github-oauth] without the prefix loop. *)
Definition route_of (path : string) : string :=
  GithubOauth.normalize_path [] path.

End RouteSpec.

Module ConnectionSpec.
Import Store.

(** The project has an active connection with GitHub that holds the
    access token [token] of the GitHub account [uid]. *)
Definition connected_with (d : DB) (projectId : uuid) (token : string) (uid : Z)
    : Prop :=
  exists c,
    In c (provider_connections d)
    /\ conn_project_id c = projectId /\ conn_provider c = "github"
    /\ conn_status c = status_active
    /\ conn_access_token_encrypted c = Some token
    /\ conn_github_user_id c = Some (Js.toString uid).

(** The row [c] as the database keeps it after an update at [t] that
    wrote the status [st] and the error message [msg]: no other column
    differs. *)
Definition rewritten (st : connection_status) (msg : option string)
    (t : timestamp) (c : provider_connection) : provider_connection :=
  {| conn_id := conn_id c; conn_project_id := conn_project_id c;
     conn_provider := conn_provider c; conn_owner_type := conn_owner_type c;
     conn_owner_name := conn_owner_name c;
     conn_installation_id := conn_installation_id c;
     conn_status := st;
     conn_secrets_ref := conn_secrets_ref c;
     conn_last_sync_at := conn_last_sync_at c;
     conn_error_message := msg;
     conn_created_by := conn_created_by c;
     conn_updated_at := Some t;
     conn_github_user_id := conn_github_user_id c;
     conn_username := conn_username c;
     conn_access_token_encrypted := conn_access_token_encrypted c;
     conn_scopes := conn_scopes c |}.

(** Revoked at [t]: the status is revoked and [updated_at] is [t]. *)
Definition revoked_at (t : timestamp) (c : provider_connection)
    : provider_connection :=
  rewritten status_revoked (conn_error_message c) t c.

(** The connections of the table with the rows of id [id] replaced by
    what [change] makes of them. *)
Definition with_rows_of_id (id : uuid)
    (change : provider_connection -> provider_connection)
    (rows : list provider_connection) : list provider_connection :=
  map (fun c => if String.eqb (conn_id c) id then change c else c) rows.

(** What the audit log gains by one event: the event, or nothing when
    the insert into [audit_events] fails. *)
Definition logged (o : Http.Outside) (e : audit_event) : list audit_event :=
  match Http.store_fails o "audit_events" Http.v_insert with
  | Some _ => []
  | None => [e]
  end.

End ConnectionSpec.

Module SyncSpec.
Import Store.

(** What a sync leaves alone in a row of [repos]: its id, its key
    (connection and GitHub's id), its selection and its project. *)
Definition same_place (r r' : repo) : Prop :=
  repo_id r' = repo_id r
  /\ repo_connection_id r' = repo_connection_id r
  /\ repo_provider_repo_id r' = repo_provider_repo_id r
  /\ repo_selected r' = repo_selected r
  /\ repo_project_id r' = repo_project_id r.

(** [new] holds the rows of [old], each in its place, and after them
    rows that are not selected and belong to no project. *)
Definition extended (old new : list repo) : Prop :=
  exists kept added,
    new = (kept ++ added)%list
    /\ Forall2 same_place old kept
    /\ Forall (fun r => repo_selected r = false /\ repo_project_id r = None) added.

(** [UNIQUE(connection_id, provider_repo_id)] *)
Definition repos_keyed (rows : list repo) : Prop :=
  forall c p, (List.length (filter (GitConnect.same_repo c p) rows) <= 1)%nat.

(** [UNIQUE(repo_id, name)] *)
Definition branches_keyed (rows : list branch) : Prop :=
  forall r n, (List.length (filter (GitConnect.same_branch r n) rows) <= 1)%nat.

(** The branches of the other repositories. *)
Definition branches_elsewhere (repoId : uuid) (rows : list branch) : list branch :=
  filter (fun b => negb (String.eqb (branch_repo_id b) repoId)) rows.

(** The store without its links, and without its branches and links. *)
Definition but_links (d : DB) : DB := with_tarefa_git_links d [].
Definition but_branches_and_links (d : DB) : DB :=
  with_tarefa_git_links (with_branches d []) [].

(** [d] is [d0] but for its branches and its links. *)
Definition but_for_branches_and_links (d0 d : DB) : Prop :=
  but_branches_and_links d = but_branches_and_links d0.

(** The automatic link of the branch [name], of id [id], to the task
    [t]. *)
Definition link_of_branch (t : tarefa) (name : string) (id : uuid)
    : tarefa_git_link :=
  {| link_tarefa_id := tarefa_id t;
     link_provider := "github";
     link_branch := Some name;
     link_commit_sha := None;
     link_pr_number := None;
     link_url := None;
     link_created_by := None;
     link_metadata_of := auto_linked branch_entity id (Some name) |}.

(** A link as the database makes it when a branch that [d0] does not
    have is inserted for [repoId]: the automatic link of that branch to a
    task of the project of the repository, the key of the task being one
    of those found in the name of the branch. *)
Definition branch_link (d0 : DB) (repoId : uuid) (l : tarefa_git_link) : Prop :=
  exists t r name id,
    In t (tarefas d0) /\ In r (repos d0)
    /\ repo_id r = repoId
    /\ repo_project_id r = Some (tarefa_project_id t)
    /\ In (tarefa_key t) (AutoLink.detectTarefaKeys name)
    /\ (forall b, In b (branches d0) ->
                  branch_repo_id b = repoId -> branch_name b <> name)
    /\ l = link_of_branch t name id.

(** The links of [d] are those of [d0], and after them links of new
    branches of [repoId]. *)
Definition links_added (repoId : uuid) (d0 d : DB) : Prop :=
  exists added,
    tarefa_git_links d = (tarefa_git_links d0 ++ added)%list
    /\ Forall (branch_link d0 repoId) added.

(** Every branch of [d0] is still a branch of [d], under its
    repository and its name. *)
Definition branches_stay (d0 d : DB) : Prop :=
  forall b, In b (branches d0) ->
            exists b', In b' (branches d)
                       /\ branch_repo_id b' = branch_repo_id b
                       /\ branch_name b' = branch_name b.

(** What [syncBranches] of [repoId] keeps, from [d0] to [d]. *)
Definition branches_kept (repoId : uuid) (d0 d : DB) : Prop :=
  but_for_branches_and_links d0 d
  /\ branches_elsewhere repoId (branches d)
     = branches_elsewhere repoId (branches d0)
  /\ (branches_keyed (branches d0) -> branches_keyed (branches d))
  /\ branches_stay d0 d
  /\ links_added repoId d0 d.

(** What [syncRepos] keeps of the catalogue, from [d0] to [d]. *)
Definition repos_kept (d0 d : DB) : Prop :=
  extended (repos d0) (repos d)
  /\ (repos_keyed (repos d0) -> repos_keyed (repos d)).

End SyncSpec.

Module AuditSpec.
Import Store.

(** The audit log of [d] is the one of [d0] followed by at most [n]
    more events. *)
Definition grown_by (n : nat) (d0 d : DB) : Prop :=
  exists more, audit_events d = (audit_events d0 ++ more)%list
               /\ (List.length more <= n)%nat.

End AuditSpec.

Module CallSpec.

Definition token_exchange : outside_call :=
  fetch_call "POST" "https://github.com/login/oauth/access_token".

Definition user_lookup : outside_call :=
  fetch_call "GET" "https://api.github.com/user".

(** Nothing, the token exchange, or the token exchange and then the
    lookup of the user: each once. *)
Definition single_attempts (calls : list outside_call) : Prop :=
  calls = [] \/ calls = [token_exchange] \/ calls = [token_exchange; user_lookup].

End CallSpec.

(* ================================================================== *)
(** * Concrete inputs *)
(* ================================================================== *)
(** A function whose every call is rejected with status 429; its state
    counts the calls. *)
Definition always_429 (calls_so_far : nat) : completion unit * nat :=
  (Throw (thrown_Error "rate limited" (Some (status_number 429))), S calls_so_far).

Definition empty_db : Store.DB :=
  {| Store.tarefas := []; Store.tarefa_git_links := [];
     Store.project_members := []; Store.pull_requests := [];
     Store.project_repos := []; Store.github_oauth_states := [];
     Store.provider_connections := []; Store.repos := [];
     Store.branches := []; Store.audit_events := [] |}.

(** Pull request [pr-1] of repository [repo-1], written by alice; the
    repository is linked to project [proj-1], where bob is a developer. *)
Definition review_db : Store.DB :=
  {| Store.tarefas := []; Store.tarefa_git_links := [];
     Store.project_members :=
       [{| Store.member_user_id := "bob"; Store.member_project_id := "proj-1";
           Store.member_role := Store.developer |}];
     Store.pull_requests :=
       [{| Store.pr_id := "pr-1"; Store.pr_repo_id := "repo-1";
           Store.pr_number := 42; Store.pr_author_id := Some "alice" |}];
     Store.project_repos :=
       [{| Store.pr_link_project_id := "proj-1";
           Store.pr_link_repo_id := "repo-1" |}];
     Store.github_oauth_states := [];
     Store.provider_connections := []; Store.repos := [];
     Store.branches := []; Store.audit_events := [] |}.

(** The same, but [repo-1] is shared: it is linked to project [proj-2]
    as well, and bob is a developer in both projects. *)
Definition shared_repo_db : Store.DB :=
  {| Store.tarefas := []; Store.tarefa_git_links := [];
     Store.project_members :=
       [{| Store.member_user_id := "bob"; Store.member_project_id := "proj-1";
           Store.member_role := Store.developer |};
        {| Store.member_user_id := "bob"; Store.member_project_id := "proj-2";
           Store.member_role := Store.developer |}];
     Store.pull_requests :=
       [{| Store.pr_id := "pr-1"; Store.pr_repo_id := "repo-1";
           Store.pr_number := 42; Store.pr_author_id := Some "alice" |}];
     Store.project_repos :=
       [{| Store.pr_link_project_id := "proj-1";
           Store.pr_link_repo_id := "repo-1" |};
        {| Store.pr_link_project_id := "proj-2";
           Store.pr_link_repo_id := "repo-1" |}];
     Store.github_oauth_states := [];
     Store.provider_connections := []; Store.repos := [];
     Store.branches := []; Store.audit_events := [] |}.

Definition env0 : Http.Env :=
  {| Http.SUPABASE_URL := "https://nexus.supabase.co";
     Http.GITHUB_CLIENT_ID := "Iv1.client";
     Http.GITHUB_CLIENT_SECRET := "secret";
     Http.GITHUB_REDIRECT_URI := "https://app.example.com/callback";
     Http.GITHUB_APP_ID := "12345";
     Http.GITHUB_PRIVATE_KEY := "private-key";
     Http.env_FRONTEND_URL := "https://app.example.com" |}.

Definition token_granted : Http.fetch_response Http.token_data :=
  {| Http.resp_ok := true;
     Http.json_of :=
       Some {| Http.access_token := Some "gho_token";
               Http.scope := Some "repo,read:org";
               Http.oauth_error := None;
               Http.error_description := None |} |}.

(** GitHub's answer to a code it does not accept (HTTP 400 here). *)
Definition token_refused : Http.fetch_response Http.token_data :=
  {| Http.resp_ok := false; Http.json_of := None |}.

(** An outside at time [now_] where GitHub answers the token exchange
    with [token] and every other call as one would hope, and where the
    statements of the store fail as [fails] says. *)
Definition outside_at (now_ : Z)
    (token : option (Http.fetch_response Http.token_data))
    (fails : string -> Http.verb -> option string) : Http.Outside :=
  {| Http.now := now_;
     Http.randomUUID := "state-2";
     Http.new_row_id := "conn-2";
     Http.token_endpoint := fun _ => token;
     Http.user_endpoint := fun _ =>
       Some {| Http.resp_ok := true;
               Http.json_of := Some {| Http.gh_id := Some 583231%Z;
                                       Http.gh_login := Some "octocat" |} |};
     Http.revoke_endpoint := fun _ => true;
     Http.auth_getUser := fun _ => Some "alice";
     Http.app_auth := true;
     Http.installation_auth := fun _ => true;
     Http.get_installation := fun _ =>
       Some {| Http.account_type := Some "Organization";
               Http.account_login := Some "acme" |};
     Http.list_installation_repos := fun _ => Some [];
     Http.list_branches := fun _ => Some [];
     Http.new_repo_id := fun r => "repo-of-" ++ r;
     Http.new_branch_id := fun r b => "branch-" ++ b ++ "-of-" ++ r;
     Http.db_now := now_ + 40;
     Http.links_conflict := fun _ _ => false;
     Http.store_fails := fails |}.

(** GitHub answers every call and no statement of the store fails. *)
Definition outside0 : Http.Outside :=
  outside_at 1700000000000%Z (Some token_granted) (fun _ _ => None).

(** The same, but GitHub refuses the code. *)
Definition outside_refused : Http.Outside :=
  outside_at 1700000000000%Z (Some token_refused) (fun _ _ => None).

Definition conn_1 : Store.provider_connection :=
  {| Store.conn_id := "conn-1"; Store.conn_project_id := "proj-1";
     Store.conn_provider := "github"; Store.conn_owner_type := "user";
     Store.conn_owner_name := Some "octocat";
     Store.conn_installation_id := None;
     Store.conn_status := Store.status_active;
     Store.conn_secrets_ref := None;
     Store.conn_last_sync_at := None;
     Store.conn_error_message := None;
     Store.conn_created_by := Some "alice";
     Store.conn_updated_at := None;
     Store.conn_github_user_id := Some "583231";
     Store.conn_username := Some "octocat";
     Store.conn_access_token_encrypted := Some "gho_token";
     Store.conn_scopes := ["repo"; "read:org"] |}.

Definition repo_1 : Store.repo :=
  {| Store.repo_id := "repo-1"; Store.repo_connection_id := Some "conn-1";
     Store.repo_provider_repo_id := "1296269";
     Store.repo_full_name := "octocat/hello";
     Store.repo_default_branch := "main";
     Store.repo_visibility := "private";
     Store.repo_description := None;
     Store.repo_url := Some "https://github.com/octocat/hello";
     Store.repo_sync_status := "synced";
     Store.repo_last_synced_at := None;
     Store.repo_selected := true;
     Store.repo_project_id := Some "proj-1" |}.

(** Project [proj-1], of which alice is an admin, is connected to GitHub
    through [conn-1], and repository [repo-1] of that connection is
    selected. *)
Definition connected_db : Store.DB :=
  {| Store.tarefas := []; Store.tarefa_git_links := [];
     Store.project_members :=
       [{| Store.member_user_id := "alice"; Store.member_project_id := "proj-1";
           Store.member_role := Store.admin |}];
     Store.pull_requests := []; Store.project_repos := [];
     Store.github_oauth_states := [];
     Store.provider_connections := [conn_1];
     Store.repos := [repo_1];
     Store.branches := []; Store.audit_events := [] |}.

(** [POST /callback] of git-connect, after installation 77 of the app. *)
Definition app_callback_request : Http.Request :=
  {| Http.method := "POST"; Http.pathname := "/git-connect/callback";
     Http.search := []; Http.authorization := Some "Bearer jwt";
     Http.payload := Some [("projectId", "proj-1"); ("installationId", "77")] |}.

(** The connections of a project with GitHub. *)
Definition github_connections (d : Store.DB) (projectId : Store.uuid)
    : list Store.provider_connection :=
  filter (fun c => String.eqb (Store.conn_project_id c) projectId
                   && String.eqb (Store.conn_provider c) "github")
         (Store.provider_connections d).

(** The repositories of a connection that are still selected. *)
Definition selected_repos (d : Store.DB) (connectionId : Store.uuid)
    : list Store.repo :=
  filter (fun r => Store.col_eq String.eqb (Store.repo_connection_id r) connectionId
                   && Store.repo_selected r)
         (Store.repos d).

Definition status_of (d : Store.DB) (connectionId : Store.uuid)
    : list Store.connection_status :=
  map Store.conn_status
      (filter (fun c => String.eqb (Store.conn_id c) connectionId)
              (Store.provider_connections d)).

(** A state token issued to alice for [proj-1] one minute before the
    time of [outside0]. *)
Definition state_1 : Store.github_oauth_state :=
  {| Store.st_state := "state-1"; Store.st_project_id := "proj-1";
     Store.st_user_id := "alice";
     Store.st_expires_at := 1700000240000%Z |}.

(** The store of [connected_db] while the handshake of [state-1] is
    pending. *)
Definition pending_db : Store.DB :=
  Store.with_github_oauth_states connected_db [state_1].

(** GitHub's redirect back to the callback. *)
Definition callback_request : Http.Request :=
  {| Http.method := "GET"; Http.pathname := "/github-oauth-callback";
     Http.search := [("code", "code-1"); ("state", "state-1")];
     Http.authorization := None; Http.payload := None |}.

(** The same request sent with POST. *)
Definition callback_post : Http.Request :=
  {| Http.method := "POST"; Http.pathname := "/github-oauth-callback";
     Http.search := [("code", "code-1"); ("state", "state-1")];
     Http.authorization := None; Http.payload := None |}.

(** One minute after [state-1] has expired. *)
Definition outside_late : Http.Outside :=
  outside_at 1700000300000%Z (Some token_granted) (fun _ _ => None).

Definition tarefa_1 : Store.tarefa :=
  {| Store.tarefa_id := "tarefa-1"; Store.tarefa_project_id := "proj-1";
     Store.tarefa_key := "TSK-1" |}.

(** A link made by hand ([POST /] of git-links) from [tarefa-1] to pull
    request 42 on its branch, for one commit. *)
Definition manual_link_to (sha : string) : Store.tarefa_git_link :=
  {| Store.link_tarefa_id := "tarefa-1"; Store.link_provider := "github";
     Store.link_branch := Some "feat/TSK-1";
     Store.link_commit_sha := Some sha;
     Store.link_pr_number := Some 42%Z;
     Store.link_url := None;
     Store.link_created_by := Some "alice";
     Store.link_metadata_of := Store.manual_link |}.

(** [tarefa-1] is linked by hand to two commits of pull request 42. *)
Definition linked_twice_db : Store.DB :=
  {| Store.tarefas := [tarefa_1];
     Store.tarefa_git_links := [manual_link_to "1111111"; manual_link_to "2222222"];
     Store.project_members := []; Store.pull_requests := [];
     Store.project_repos := []; Store.github_oauth_states := [];
     Store.provider_connections := []; Store.repos := [];
     Store.branches := []; Store.audit_events := [] |}.

(** The metadata [processAutoLink] is called with for a pull request:
    its branch and its number. *)
Definition pr_42_metadata : AutoLink.metadata :=
  {| AutoLink.branchName := Some "feat/TSK-1"; AutoLink.commitSha := None;
     AutoLink.prNumber := Some 42%Z;
     AutoLink.detectedFrom := Some "TSK-1 add login feat/TSK-1" |}.

(** The rows whose deduplication tuple is exactly
    (task, provider, branch, commit SHA, PR number). *)
Definition rows_with_tuple (d : Store.DB) (tarefaId provider : string)
    (branch commit : option string) (pr : option Z) : list Store.tarefa_git_link :=
  filter (fun r =>
            String.eqb (Store.link_tarefa_id r) tarefaId
            && String.eqb (Store.link_provider r) provider
            && Store.opt_eqb String.eqb (Store.link_branch r) branch
            && Store.opt_eqb String.eqb (Store.link_commit_sha r) commit
            && Store.opt_eqb Z.eqb (Store.link_pr_number r) pr)
         (Store.tarefa_git_links d).


(** alice asks for the authorization URL of [proj-1]. *)
Definition start_request : Http.Request :=
  {| Http.method := "POST"; Http.pathname := "/functions/v1/github-oauth/start";
     Http.search := []; Http.authorization := Some "Bearer jwt";
     Http.payload := Some [("projectId", "proj-1")] |}.

(** The same request without the [authorization] header. *)
Definition anonymous_start_request : Http.Request :=
  {| Http.method := "POST"; Http.pathname := "/functions/v1/github-oauth/start";
     Http.search := []; Http.authorization := None;
     Http.payload := Some [("projectId", "proj-1")] |}.

(** One minute after [outside0]. *)
Definition outside_minute_later : Http.Outside :=
  outside_at 1700000060000%Z (Some token_granted) (fun _ _ => None).

(** GitHub's redirect back with the state that [outside0] mints. *)
Definition callback_request_2 : Http.Request :=
  {| Http.method := "GET"; Http.pathname := "/github-oauth/callback";
     Http.search := [("code", "code-1"); ("state", "state-2")];
     Http.authorization := None; Http.payload := None |}.

(** alice revokes the connection of [proj-1]. *)
Definition revoke_request : Http.Request :=
  {| Http.method := "POST";
     Http.pathname := "/functions/v1/github-oauth/connection/revoke";
     Http.search := []; Http.authorization := Some "Bearer jwt";
     Http.payload := Some [("projectId", "proj-1")] |}.

(* ================================================================== *)
(** * Properties *)
(* ================================================================== *)

(** ** The handler monad *)

Lemma wp_ret {A} (a : A) Q d : Q (Normal a) d [] -> wp (ret a) Q d.
Proof. exact (fun H => H). Qed.

Lemma wp_throw {A} (e : thrown) (Q : completion A -> _ -> _ -> Prop) d :
  Q (Throw e) d [] -> wp (throw e) Q d.
Proof. exact (fun H => H). Qed.

Lemma wp_bind {A B} (m : M A) (k : A -> M B) Q d :
  wp m (fun r d1 c1 =>
          match r with
          | Normal a => wp (k a) (fun r2 d2 c2 => Q r2 d2 (c1 ++ c2)%list) d1
          | Throw e => Q (Throw e) d1 c1
          end) d ->
  wp (bind m k) Q d.
Proof.
  unfold wp, bind. destruct (m d) as [[[a|e] d1] c1]; [|exact (fun H => H)].
  destruct (k a d1) as [[r2 d2] c2]. exact (fun H => H).
Qed.

Lemma wp_try_catch {A} (m : M A) (h : thrown -> M A) Q d :
  wp m (fun r d1 c1 =>
          match r with
          | Normal a => Q (Normal a) d1 c1
          | Throw e => wp (h e) (fun r2 d2 c2 => Q r2 d2 (c1 ++ c2)%list) d1
          end) d ->
  wp (try_catch m h) Q d.
Proof.
  unfold wp, try_catch. destruct (m d) as [[[a|e] d1] c1]; [exact (fun H => H)|].
  destruct (h e d1) as [[r2 d2] c2]. exact (fun H => H).
Qed.

Lemma wp_query {A} (f : Store.DB -> A) Q d :
  Q (Normal (f d)) d [] -> wp (query f) Q d.
Proof. exact (fun H => H). Qed.

Lemma wp_exec (f : Store.DB -> Store.DB) Q d :
  Q (Normal tt) (f d) [] -> wp (exec f) Q d.
Proof. exact (fun H => H). Qed.

Lemma wp_outside (c : outside_call) Q d :
  Q (Normal tt) d [c] -> wp (outside c) Q d.
Proof. exact (fun H => H). Qed.

Lemma wp_stmt {A} o table v (run : Store.DB -> Store.result A * Store.DB) Q d :
  match Http.store_fails o table v with
  | Some msg => Q (Normal (Store.failed msg)) d []
  | None => Q (Normal (fst (run d))) (snd (run d)) []
  end ->
  wp (Http.stmt o table v run) Q d.
Proof.
  unfold wp, Http.stmt. destruct (Http.store_fails o table v); [exact (fun H => H)|].
  destruct (run d). exact (fun H => H).
Qed.

Lemma wp_conseq {A} (m : M A) (Q Q' : completion A -> _ -> _ -> Prop) d :
  (forall r d' c, Q r d' c -> Q' r d' c) -> wp m Q d -> wp m Q' d.
Proof. unfold wp. destruct (m d) as [[r d'] c]. auto. Qed.

Lemma wp_run {A} (m : M A) Q d r d' c :
  wp m Q d -> m d = (r, d', c) -> Q r d' c.
Proof. unfold wp. intros H E. rewrite E in H. exact H. Qed.

(** ** Queries on lists of rows *)

Lemma filter_none {A} (f : A -> bool) (l : list A) :
  (forall x, In x l -> f x = false) -> filter f l = [].
Proof.
  induction l as [|a l IH]; intros H; [reflexivity|].
  simpl. rewrite (H a (or_introl eq_refl)). apply IH.
  intros x Hx. apply H. right. exact Hx.
Qed.

Lemma filter_the_one {A} (f : A -> bool) (l : list A) (x : A) :
  (List.length (filter f l) <= 1)%nat -> In x l -> f x = true ->
  filter f l = [x].
Proof.
  intros Hlen Hin Hf.
  assert (Hx : In x (filter f l)) by (apply filter_In; auto).
  destruct (filter f l) as [|a [|b r]]; simpl in *.
  - contradiction.
  - destruct Hx as [->|[]]. reflexivity.
  - lia.
Qed.

Lemma filter_singleton_In {A} (f : A -> bool) (l : list A) (x : A) :
  filter f l = [x] -> In x l /\ f x = true.
Proof.
  intros H. apply filter_In. rewrite H. left. reflexivity.
Qed.

(** ** Stepping through a handler *)

Ltac store_simpl :=
  cbn [Store.data Store.error Store.failed Store.empty Store.ok fst snd
       Store.tarefas Store.tarefa_git_links Store.project_members
       Store.pull_requests Store.project_repos Store.github_oauth_states
       Store.provider_connections Store.repos Store.branches
       Store.audit_events
       Store.with_tarefa_git_links Store.with_github_oauth_states
       Store.with_provider_connections Store.with_repos Store.with_branches
       Store.with_audit_events].

Ltac wp_leaf :=
  lazymatch goal with
  | |- wp (ret _) _ _ => apply wp_ret
  | |- wp (throw _) _ _ => apply wp_throw
  | |- wp (query _) _ _ => apply wp_query
  | |- wp (exec _) _ _ => apply wp_exec
  | |- wp (outside _) _ _ => apply wp_outside
  | |- wp (Http.stmt _ _ _ _) _ _ => apply wp_stmt
  end.

Ltac case_split x := destruct x eqn:?.

(** A case split that first looks for an equation about the scrutinee
    among the hypotheses. *)
Ltac case_known x :=
  first [ match goal with
          | H : ?l = _ |- _ =>
              match x with context [l] => rewrite H end
          end
        | destruct x eqn:? ].

Ltac wp_step_by split_on :=
  lazymatch goal with
  | |- wp (bind _ _) _ _ => apply wp_bind
  | |- wp (try_catch _ _) _ _ => apply wp_try_catch
  | |- wp (if ?c then _ else _) _ _ => split_on c
  | |- wp (match ?x with _ => _ end) _ _ => split_on x
  | |- match ?x with _ => _ end => split_on x
  | |- wp (Audit.logAuditEvent _ _ _ _ _ _ _) _ _ => unfold Audit.logAuditEvent
  | |- wp (Http.fetch _ _ _) _ _ => unfold Http.fetch
  | |- wp (Http.response_json _) _ _ => unfold Http.response_json
  | |- wp (Http.req_json _) _ _ => unfold Http.req_json
  | |- wp (GithubOauth.id_toString _) _ _ => unfold GithubOauth.id_toString
  | |- wp (GithubOauth.select_valid_state _ _) _ _ =>
      unfold GithubOauth.select_valid_state
  | |- wp (GithubOauth.select_connection _ _) _ _ =>
      unfold GithubOauth.select_connection
  | |- wp (GithubOauth.update_connection _ _ _) _ _ =>
      unfold GithubOauth.update_connection
  | |- wp (GithubOauth.update_connection_single _ _ _) _ _ =>
      unfold GithubOauth.update_connection_single
  | |- wp (GithubOauth.insert_connection _ _) _ _ =>
      unfold GithubOauth.insert_connection
  | |- wp (GithubOauth.delete_state _ _) _ _ => unfold GithubOauth.delete_state
  | |- wp (GithubOauth.unselect_repos _ _) _ _ =>
      unfold GithubOauth.unselect_repos
  | |- wp (GithubOauth.insert_state _ _) _ _ => unfold GithubOauth.insert_state
  | |- wp (GithubOauthCallback.select_state_project _ _) _ _ =>
      unfold GithubOauthCallback.select_state_project
  | |- wp (GitConnect.select_connection_by_id _ _) _ _ =>
      unfold GitConnect.select_connection_by_id
  | |- _ => wp_leaf
  end; cbv beta iota zeta; store_simpl.

Ltac wp_step := wp_step_by case_split.

Ltac wp_steps := repeat wp_step.

(** ** [detectTarefaKeys] *)

Section Keys.
Import AutoLink KeySpec.

Lemma canonicalize_lower c :
  Js.is_lower c = true ->
  nat_of_ascii (canonicalize c) = (nat_of_ascii c - 32)%nat.
Proof.
  intros H. unfold canonicalize. rewrite H.
  apply nat_ascii_embedding. pose proof (nat_ascii_bounded c). lia.
Qed.

Lemma class_AZ09_i_alnum c : class_AZ09_i c = alnum c.
Proof.
  unfold class_AZ09_i, class_AZ09, alnum.
  destruct (Js.is_lower c) eqn:L.
  - unfold Js.is_upper at 1. rewrite (@canonicalize_lower _ L).
    unfold Js.is_lower in L. apply andb_true_iff in L. destruct L as [L1 L2].
    apply Nat.leb_le in L1, L2.
    replace (65 <=? nat_of_ascii c - 32)%nat with true
      by (symmetry; apply Nat.leb_le; lia).
    replace (nat_of_ascii c - 32 <=? 90)%nat with true
      by (symmetry; apply Nat.leb_le; lia).
    simpl. rewrite orb_true_r. reflexivity.
  - unfold canonicalize. rewrite L. rewrite orb_false_r. reflexivity.
Qed.

Lemma char_eq_i_upper (u c : ascii) :
  Js.is_upper u = true ->
  char_eq_i u c = true ->
  c = u \/ c = ascii_of_nat (nat_of_ascii u + 32).
Proof.
  intros Hu H. unfold char_eq_i in H. apply Ascii.eqb_eq in H.
  assert (Hcu : canonicalize u = u).
  { unfold canonicalize. unfold Js.is_upper in Hu. unfold Js.is_lower.
    apply andb_true_iff in Hu. destruct Hu as [_ Hu]. apply Nat.leb_le in Hu.
    replace (97 <=? nat_of_ascii u)%nat with false
      by (symmetry; apply Nat.leb_gt; lia).
    reflexivity. }
  rewrite Hcu in H. destruct (Js.is_lower c) eqn:L.
  - right. pose proof (@canonicalize_lower _ L) as E. rewrite <- H in E.
    unfold Js.is_lower in L. apply andb_true_iff in L. destruct L as [L1 _].
    apply Nat.leb_le in L1.
    rewrite <- (ascii_nat_embedding c). f_equal. lia.
  - left. unfold canonicalize in H. rewrite L in H. congruence.
Qed.

Lemma literal_i_tsk l x :
  literal_i (list_ascii_of_string "TSK-") l = Some x ->
  exists p, l = (p ++ x)%list /\ is_tsk p.
Proof.
  cbn [list_ascii_of_string literal_i].
  destruct l as [|t [|s [|k [|h l]]]]; try discriminate;
    try (destruct (char_eq_i _ _); discriminate);
    try (destruct (char_eq_i _ _); [destruct (char_eq_i _ _)|]; discriminate);
    try (destruct (char_eq_i _ _);
         [destruct (char_eq_i _ _); [destruct (char_eq_i _ _)|]|]; discriminate).
  destruct (char_eq_i "T" t) eqn:Ht; [|discriminate].
  destruct (char_eq_i "S" s) eqn:Hs; [|discriminate].
  destruct (char_eq_i "K" k) eqn:Hk; [|discriminate].
  destruct (char_eq_i "-" h) eqn:Hh; [|discriminate].
  intros E. injection E as <-.
  exists [t; s; k; h]. split; [reflexivity|].
  exists t, s, k. split.
  - f_equal. f_equal. f_equal. f_equal.
    unfold char_eq_i in Hh. apply Ascii.eqb_eq in Hh.
    change (canonicalize "-") with hyphen in Hh.
    unfold canonicalize in Hh. destruct (Js.is_lower h) eqn:L; [|congruence].
    exfalso. pose proof (@canonicalize_lower _ L) as E.
    unfold canonicalize in E. rewrite L, <- Hh in E.
    unfold Js.is_lower in L. apply andb_true_iff in L. destruct L as [L1 _].
    apply Nat.leb_le in L1. change (nat_of_ascii hyphen) with 45%nat in E. lia.
  - split; [exact (@char_eq_i_upper "T" t eq_refl Ht)|].
    split; [exact (@char_eq_i_upper "S" s eq_refl Hs)|].
    exact (@char_eq_i_upper "K" k eq_refl Hk).
Qed.

Lemma tsk_literal_i p x :
  is_tsk p -> literal_i (list_ascii_of_string "TSK-") (p ++ x) = Some x.
Proof.
  intros (t & s & k & -> & [->| ->] & [->| ->] & [->| ->]); reflexivity.
Qed.


Lemma hyphen_not_alnum : alnum hyphen = false.
Proof. reflexivity. Qed.

(** [groups] written with [alnum]. *)
Lemma groups_cons c l :
  groups (c :: l)
  = if alnum c then c :: groups l
    else if Ascii.eqb c hyphen then
           match l with
           | d :: _ => if alnum d then c :: groups l else []
           | [] => []
           end
         else [].
Proof.
  cbn [groups]. rewrite class_AZ09_i_alnum.
  destruct l as [|d l]; [reflexivity|]. rewrite class_AZ09_i_alnum. reflexivity.
Qed.

Lemma groups_splits l :
  exists post, l = (groups l ++ post)%list /\ ends_here post.
Proof.
  induction l as [|c l (post & E & Hpost)].
  - exists []. split; [reflexivity|exact I].
  - rewrite groups_cons. destruct (alnum c) eqn:Hc.
    + exists post. split; [simpl; f_equal; exact E|exact Hpost].
    + destruct (Ascii.eqb c hyphen) eqn:Hh.
      * destruct l as [|d l'].
        -- exists [c]. split; [reflexivity|]. split; [exact Hc|]. intros _. exact I.
        -- destruct (alnum d) eqn:Hd.
           ++ exists post. split; [simpl; f_equal; exact E|exact Hpost].
           ++ exists (c :: d :: l'). split; [reflexivity|].
              split; [exact Hc|]. intros _. exact Hd.
      * exists (c :: l). split; [reflexivity|]. split; [exact Hc|].
        intros ->. rewrite Ascii.eqb_refl in Hh. discriminate.
Qed.

Lemma key_rest_cons c r :
  alnum c = true -> key_rest r -> key_rest (c :: r).
Proof.
  intros Hc [g Hg Ha|g r' Hg Ha Hr].
  - apply rest_group; [discriminate|]. constructor; assumption.
  - change (c :: g ++ hyphen :: r')%list with ((c :: g) ++ hyphen :: r')%list.
    apply rest_more; [discriminate| |exact Hr]. constructor; assumption.
Qed.

Lemma key_rest_head r :
  key_rest r -> exists c r', r = c :: r' /\ alnum c = true.
Proof.
  intros [g Hg Ha|g r' Hg Ha _]; destruct g as [|c g']; try contradiction;
    inversion Ha; subst; eexists; eexists; split; try reflexivity; assumption.
Qed.

Lemma groups_key_rest l :
  (forall c, alnum c = true -> key_rest (c :: groups l))
  /\ (forall d l', l = d :: l' -> alnum d = true -> key_rest (groups l)).
Proof.
  induction l as [|a l [IH1 IH2]].
  - split; [|discriminate]. intros c Hc.
    apply rest_group; [discriminate|]. constructor; [exact Hc|constructor].
  - split.
    + intros c Hc. rewrite groups_cons. destruct (alnum a) eqn:Ha.
      * apply key_rest_cons; [exact Hc|]. apply IH1. exact Ha.
      * assert (Hone : key_rest [c]).
        { apply rest_group; [discriminate|]. constructor; [exact Hc|constructor]. }
        destruct (Ascii.eqb a hyphen) eqn:Hh; [|exact Hone].
        apply Ascii.eqb_eq in Hh. subst a.
        destruct l as [|d l']; [exact Hone|].
        destruct (alnum d) eqn:Hd; [|exact Hone].
        apply (@rest_more [c]); [discriminate| |].
        -- constructor; [exact Hc|constructor].
        -- exact (IH2 d l' eq_refl Hd).
    + intros d l' E Hd. injection E as -> ->.
      rewrite groups_cons, Hd. apply IH1. exact Hd.
Qed.

Lemma groups_all_alnum g x :
  all_alnum g -> groups (g ++ x) = (g ++ groups x)%list.
Proof.
  induction 1 as [|c g Hc _ IH]; [reflexivity|].
  cbn [app]. rewrite groups_cons, Hc, IH. reflexivity.
Qed.

Lemma groups_stops post : ends_here post -> groups post = [].
Proof.
  destruct post as [|c post']; [reflexivity|]. intros [Hc Hh].
  rewrite groups_cons, Hc. destruct (Ascii.eqb c hyphen) eqn:E; [|reflexivity].
  apply Ascii.eqb_eq in E. specialize (Hh E).
  destruct post' as [|d post'']; [reflexivity|]. rewrite Hh. reflexivity.
Qed.

Lemma groups_of_key_rest rest post :
  key_rest rest -> ends_here post -> groups (rest ++ post) = rest.
Proof.
  intros Hr Hpost. induction Hr as [g Hg Ha|g r Hg Ha Hr IH].
  - rewrite (@groups_all_alnum g post Ha), (@groups_stops post Hpost). apply app_nil_r.
  - rewrite <- app_assoc. rewrite (@groups_all_alnum g _ Ha). f_equal.
    cbn [app]. rewrite groups_cons, hyphen_not_alnum, Ascii.eqb_refl.
    destruct (@key_rest_head _ Hr) as (d & r' & -> & Hd).
    cbn [app] in *. rewrite Hd. f_equal. exact IH.
Qed.

(** The pattern at the head of [l], said without the matcher. *)
Lemma regex_exec_at_occurs l rest :
  regex_exec_at l = Some rest <-> occurs_at l 0 rest.
Proof.
  unfold regex_exec_at, occurs_at. split.
  - destruct (literal_i _ l) as [[|c x]|] eqn:E; try discriminate.
    rewrite class_AZ09_i_alnum. destruct (alnum c) eqn:Hc; [|discriminate].
    intros H. injection H as <-.
    destruct (@literal_i_tsk l (c :: x) E) as (p & -> & Hp).
    destruct (groups_splits (c :: x)) as (post & Ex & Hpost).
    exists [], p, post. split; [simpl; f_equal; exact Ex|].
    split; [reflexivity|]. split; [exact Hp|]. split; [|exact Hpost].
    exact (proj2 (groups_key_rest (c :: x)) c x eq_refl Hc).
  - intros (pre & p & post & -> & Hpre & Hp & Hr & Hpost).
    destruct pre; [|discriminate]. cbn [app].
    rewrite (@tsk_literal_i p _ Hp).
    destruct (@key_rest_head _ Hr) as (c & r' & -> & Hc).
    cbn [app]. rewrite class_AZ09_i_alnum, Hc.
    change (c :: (r' ++ post))%list with ((c :: r') ++ post)%list.
    rewrite (@groups_of_key_rest _ _ Hr Hpost). reflexivity.
Qed.


Lemma groups_skipn n : forall l,
  (n <= List.length (groups l))%nat ->
  groups (skipn n l) = skipn n (groups l).
Proof.
  induction n as [|n IH]; intros l H; [reflexivity|].
  destruct l as [|c l]; [simpl in H; lia|].
  rewrite groups_cons in *. destruct (alnum c).
  - cbn [skipn]. apply IH. cbn [List.length] in H. lia.
  - destruct (Ascii.eqb c hyphen); [|cbn [List.length] in H; lia].
    destruct l as [|d l']; [cbn [List.length] in H; lia|].
    destruct (alnum d); [|cbn [List.length] in H; lia].
    cbn [skipn]. apply IH. cbn [List.length] in H. lia.
Qed.

Lemma regex_exec_at_shape l rest :
  regex_exec_at l = Some rest ->
  exists t s k c x,
    l = t :: s :: k :: hyphen :: c :: x
    /\ alnum s = true /\ alnum k = true /\ alnum c = true
    /\ canonicalize s <> "T"%char /\ canonicalize k <> "T"%char
    /\ rest = groups (c :: x).
Proof.
  unfold regex_exec_at.
  destruct (literal_i _ l) as [[|c x]|] eqn:E; try discriminate.
  rewrite class_AZ09_i_alnum. destruct (alnum c) eqn:Hc; [|discriminate].
  intros H. injection H as <-.
  destruct (@literal_i_tsk l (c :: x) E) as (p & -> & t & s & k & -> & _ & Hs & Hk).
  exists t, s, k, c, x. split; [reflexivity|].
  destruct Hs as [->| ->]; destruct Hk as [->| ->];
    repeat split; (reflexivity || exact Hc || discriminate).
Qed.

Lemma regex_exec_at_head l rest :
  regex_exec_at l = Some rest ->
  exists t l', l = t :: l' /\ canonicalize t = "T"%char.
Proof.
  unfold regex_exec_at. cbn [list_ascii_of_string literal_i].
  destruct l as [|t l']; [discriminate|].
  unfold char_eq_i at 1. destruct (Ascii.eqb _ (canonicalize t)) eqn:E;
    [|discriminate].
  intros _. apply Ascii.eqb_eq in E. exists t, l'. split; [reflexivity|].
  symmetry. exact E.
Qed.

Lemma regex_exec_at_hyphen x : regex_exec_at (hyphen :: x) = None.
Proof. reflexivity. Qed.

(** A match that starts inside another one ends where that one ends. *)
Lemma nested_match l m j r :
  regex_exec_at l = Some m ->
  (0 < j)%nat -> (j < 4 + List.length m)%nat ->
  regex_exec_at (skipn j l) = Some r ->
  (j + 4 + List.length r <= 4 + List.length m)%nat.
Proof.
  intros Hm Hj0 Hj Hr.
  destruct (@regex_exec_at_shape _ _ Hm)
    as (t & s & k & c & x & -> & Hs & Hk & Hc & Hns & Hnk & ->).
  destruct j as [|[|[|[|q]]]]; [lia| | | |].
  - exfalso. cbn [skipn] in Hr.
    destruct (@regex_exec_at_head _ _ Hr) as (t' & l' & E & Ht'). congruence.
  - exfalso. cbn [skipn] in Hr.
    destruct (@regex_exec_at_head _ _ Hr) as (t' & l' & E & Ht'). congruence.
  - exfalso. cbn [skipn] in Hr. rewrite regex_exec_at_hyphen in Hr. discriminate.
  - cbn [skipn] in Hr.
    assert (Hq : (q < List.length (groups (c :: x)))%nat) by lia. clear Hj Hj0.
    destruct (@regex_exec_at_shape _ _ Hr)
      as (t' & s' & k' & c' & x' & E & Hs' & Hk' & Hc' & _ & _ & ->).
    set (y := c :: x) in *.
    assert (Hstop : forall n tail,
               skipn n (skipn q y) = tail ->
               groups tail <> [] ->
               List.length (groups y) <> (n + q)%nat).
    { intros n tail Etail Hne Hlen. apply Hne. rewrite <- Etail, skipn_skipn.
      rewrite groups_skipn by lia. rewrite <- Hlen. apply skipn_all. }
    assert (H1 : List.length (groups y) <> (1 + q)%nat).
    { apply (Hstop 1%nat (s' :: k' :: hyphen :: c' :: x')); [rewrite E; reflexivity|].
      rewrite groups_cons, Hs'. discriminate. }
    assert (H2 : List.length (groups y) <> (2 + q)%nat).
    { apply (Hstop 2%nat (k' :: hyphen :: c' :: x')); [rewrite E; reflexivity|].
      rewrite groups_cons, Hk'. discriminate. }
    assert (H3 : List.length (groups y) <> (3 + q)%nat).
    { apply (Hstop 3%nat (hyphen :: c' :: x')); [rewrite E; reflexivity|].
      rewrite groups_cons, hyphen_not_alnum, Ascii.eqb_refl, Hc'. discriminate. }
    assert (E4 : c' :: x' = skipn (4 + q) y).
    { rewrite <- skipn_skipn, E. reflexivity. }
    rewrite E4, groups_skipn by lia. rewrite length_skipn. lia.
Qed.


(** The matches of [matchAll_from skip l]: the pattern matches at an
    index [i] not below [skip], and every match that starts between
    [skip] and [i] has ended by [i]. *)
Lemma matchAll_from_matches l : forall skip rest,
  In rest (matchAll_from skip l)
  <-> exists i,
        (skip <= i)%nat
        /\ regex_exec_at (skipn i l) = Some rest
        /\ forall j r, (skip <= j)%nat -> (j < i)%nat ->
                        regex_exec_at (skipn j l) = Some r ->
                        (j + 4 + List.length r <= i)%nat.
Proof.
  induction l as [|c l IH]; intros skip rest.
  - split; [intros []|]. intros (i & _ & H & _).
    rewrite skipn_nil in H. discriminate.
  - destruct skip as [|k].
    + cbn [matchAll_from]. destruct (regex_exec_at (c :: l)) as [m|] eqn:E.
      * split.
        -- intros [<-|Hin].
           ++ clear IH. exists 0%nat. split; [lia|]. split; [exact E|]. intros; lia.
           ++ apply IH in Hin. clear IH. destruct Hin as (i & Hi & Hat & Hbefore).
              exists (S i). split; [lia|]. split; [exact Hat|].
              intros [|j] r _ Hlt Hr.
              ** cbn [skipn] in Hr. rewrite E in Hr. injection Hr as <-. lia.
              ** destruct (Nat.le_gt_cases (3 + List.length m) j) as [Hge|Hin].
                 --- cbn [skipn] in Hr.
                     specialize (Hbefore j r Hge ltac:(lia) Hr). lia.
                 --- pose proof (@nested_match (c :: l) m (S j) r E) as Hn.
                     specialize (Hn ltac:(lia) ltac:(lia) Hr). lia.
        -- intros ([|i] & _ & Hat & Hbefore).
           ++ left. cbn [skipn] in Hat. congruence.
           ++ right. apply IH. clear IH. exists i.
              pose proof (Hbefore 0%nat m ltac:(lia) ltac:(lia) E) as H0.
              split; [lia|]. split; [exact Hat|].
              intros j r Hge Hlt Hr.
              specialize (Hbefore (S j) r ltac:(lia) ltac:(lia) Hr). lia.
      * split.
        -- intros Hin. apply IH in Hin. clear IH. destruct Hin as (i & _ & Hat & Hbefore).
           exists (S i). split; [lia|]. split; [exact Hat|].
           intros [|j] r _ Hlt Hr.
           ++ cbn [skipn] in Hr. congruence.
           ++ specialize (Hbefore j r ltac:(lia) ltac:(lia) Hr). lia.
        -- intros ([|i] & _ & Hat & Hbefore).
           ++ cbn [skipn] in Hat. congruence.
           ++ apply IH. clear IH. exists i. split; [lia|]. split; [exact Hat|].
              intros j r _ Hlt Hr.
              specialize (Hbefore (S j) r ltac:(lia) ltac:(lia) Hr). lia.
    + cbn [matchAll_from]. split.
      * intros Hin. apply IH in Hin. clear IH. destruct Hin as (i & Hi & Hat & Hbefore).
        exists (S i). split; [lia|]. split; [exact Hat|].
        intros [|j] r Hge Hlt Hr; [lia|].
        specialize (Hbefore j r ltac:(lia) ltac:(lia) Hr). lia.
      * intros ([|i] & Hi & Hat & Hbefore); [clear IH; lia|].
        apply IH. clear IH. exists i. split; [lia|]. split; [exact Hat|].
        intros j r Hge Hlt Hr.
        specialize (Hbefore (S j) r ltac:(lia) ltac:(lia) Hr). lia.
Qed.

Lemma skipn_length_app {A} (pre l : list A) :
  skipn (List.length pre) (pre ++ l) = l.
Proof. induction pre; [reflexivity|assumption]. Qed.

Lemma occurs_at_skipn l i rest :
  occurs_at l i rest <-> regex_exec_at (skipn i l) = Some rest.
Proof.
  rewrite regex_exec_at_occurs. unfold occurs_at. split.
  - intros (pre & p & post & -> & <- & H).
    exists [], p, post. rewrite skipn_length_app. auto.
  - intros (pre & p & post & E & Hpre & Hp & H).
    destruct pre; [|discriminate]. cbn [app] in E.
    exists (firstn i l), p, post. split.
    + rewrite <- E. symmetry. apply firstn_skipn.
    + split; [|auto]. apply firstn_length_le.
      destruct (Nat.le_gt_cases i (List.length l)) as [Hle|Hgt]; [exact Hle|].
      exfalso. rewrite skipn_all2 in E by lia.
      destruct Hp as (t & s & k & -> & _). discriminate.
Qed.

Lemma matchAll_matches text rest :
  In rest (matchAll text)
  <-> exists i, occurs_at (list_ascii_of_string text) i rest
                /\ outermost (list_ascii_of_string text) i.
Proof.
  unfold matchAll, outermost. rewrite matchAll_from_matches. split.
  - intros (i & _ & Hat & Hbefore). exists i. split.
    + apply occurs_at_skipn. exact Hat.
    + intros j r Hocc Hlt. apply occurs_at_skipn in Hocc.
      apply (Hbefore j r); (lia || assumption).
  - intros (i & Hocc & Hout). exists i. split; [lia|]. split.
    + apply occurs_at_skipn. exact Hocc.
    + intros j r _ Hlt Hr. apply Hout; [|exact Hlt].
      apply occurs_at_skipn. exact Hr.
Qed.

Lemma existsb_eqb_In k keys :
  existsb (String.eqb k) keys = true <-> In k keys.
Proof.
  rewrite existsb_exists. split.
  - intros (x & Hin & E). apply String.eqb_eq in E. subst. exact Hin.
  - intros Hin. exists k. split; [exact Hin|apply String.eqb_refl].
Qed.

Lemma Set_add_In k x keys : In k (Set_add x keys) <-> k = x \/ In k keys.
Proof.
  unfold Set_add. destruct (existsb (String.eqb x) keys) eqn:E.
  - apply existsb_eqb_In in E. split; [auto|]. intros [->|H]; assumption.
  - rewrite in_app_iff. cbn [In]. intuition congruence.
Qed.

Lemma Set_add_NoDup x keys : NoDup keys -> NoDup (Set_add x keys).
Proof.
  intros H. unfold Set_add. destruct (existsb (String.eqb x) keys) eqn:E;
    [exact H|].
  apply NoDup_app; [exact H|constructor; [intros []|constructor]|].
  intros k Hin [<-|[]].
  apply existsb_eqb_In in Hin. congruence.
Qed.

Lemma fold_Set_add ms : forall keys,
  NoDup keys ->
  NoDup (fold_left (fun keys m1 => Set_add (key_of m1) keys) ms keys)
  /\ forall k,
       In k (fold_left (fun keys m1 => Set_add (key_of m1) keys) ms keys)
       <-> In k keys \/ exists m1, In m1 ms /\ k = key_of m1.
Proof.
  induction ms as [|m ms IH]; intros keys Hnd.
  - split; [exact Hnd|]. intros k. cbn [fold_left In]. split; [auto|].
    intros [H|(m1 & [] & _)]. exact H.
  - cbn [fold_left]. destruct (IH _ (Set_add_NoDup (key_of m) Hnd)) as [H1 H2].
    split; [exact H1|]. intros k. rewrite H2, Set_add_In. cbn [In]. split.
    + intros [[->|H]|(m1 & Hin & ->)]; eauto.
    + intros [H|(m1 & [<-|Hin] & ->)]; eauto.
Qed.


Lemma detectTarefaKeys_fold text :
  detectTarefaKeys text
  = fold_left (fun keys m1 => Set_add (key_of m1) keys) (matchAll text) [].
Proof.
  unfold detectTarefaKeys. destruct text; reflexivity.
Qed.

(** C3.  For every text, [detectTarefaKeys] returns, without
    repetition, exactly the keys [TSK-<rest>] of the matches of the
    pattern in the text: a key is returned if and only if at some index
    the text reads [TSK-] in any letter case, followed by [rest], one or
    more groups of ASCII letters and digits separated by hyphens, taken as
    long as it can be and in the casing found, the occurrence not lying
    inside an earlier one (matches do not overlap).  The example of the
    specification evaluates as it says, and a bare [TSK-] gives no key. *)
Theorem detectTarefaKeys_exactly_the_matches :
  (forall text,
     NoDup (detectTarefaKeys text)
     /\ forall k,
          In k (detectTarefaKeys text)
          <-> exists i rest,
                occurs_at (list_ascii_of_string text) i rest
                /\ outermost (list_ascii_of_string text) i
                /\ k = key_of rest)
  /\ detectTarefaKeys "fix TSK-12 and tsk-12 again, also TSK-AB-7"
     = ["TSK-12"; "TSK-AB-7"]
  /\ detectTarefaKeys "TSK-" = [].
Proof.
  split; [|split; reflexivity].
  intros text. rewrite detectTarefaKeys_fold.
  destruct (@fold_Set_add (matchAll text) [] (NoDup_nil _)) as [Hnd Hin].
  split; [exact Hnd|]. intros k. rewrite Hin. split.
  - intros [[]|(m1 & Hm & ->)]. apply matchAll_matches in Hm.
    destruct Hm as (i & Hocc & Hout). exists i, m1. auto.
  - intros (i & rest & Hocc & Hout & ->). right. exists rest.
    split; [|reflexivity]. apply matchAll_matches. exists i. auto.
Qed.

End Keys.

(** ** [createAutoLinks] and [processAutoLink] *)

Lemma for_each_quiet {A} (body : A -> M unit) :
  (forall x d, exists d', body x d = (Normal tt, d', [])) ->
  forall l d, exists d', for_each l body d = (Normal tt, d', []).
Proof.
  intros Hbody l. induction l as [|x l IH]; intros d.
  - exists d. reflexivity.
  - simpl. unfold bind. destruct (Hbody x d) as (d1 & ->).
    destruct (IH d1) as (d2 & ->). exists d2. reflexivity.
Qed.

Lemma createAutoLinks_quiet keys projectId repoId et entityId md d :
  exists d',
    AutoLink.createAutoLinks keys projectId repoId et entityId md d
    = (Normal tt, d', []).
Proof.
  unfold AutoLink.createAutoLinks.
  destruct (List.length keys =? 0)%nat; [exists d; reflexivity|].
  unfold bind at 1, query at 1.
  destruct (List.length _ =? 0)%nat; [exists d; reflexivity|].
  match goal with
  | |- context [for_each ?l ?body d] =>
      assert (H : exists d', for_each l body d = (Normal tt, d', []))
  end.
  { apply for_each_quiet. intros t d0. unfold bind, query.
    destruct (Store.data _); eexists; reflexivity. }
  destruct H as (d' & ->). exists d'. reflexivity.
Qed.

(** C10.  [processAutoLink] returns the keys of [detectTarefaKeys] on its
    text, whatever the store holds and whatever [createAutoLinks] does
    with it; it never throws and calls nothing outside; and when no key
    is detected the store is left as it was. *)
Theorem processAutoLink_returns_detected_keys :
  forall (text : string) (projectId repoId : Store.uuid)
         (et : Store.entity_type) (entityId : string)
         (branchName commitSha : option string) (prNumber : option Z)
         (d : Store.DB),
    exists d',
      AutoLink.processAutoLink text projectId repoId et entityId
                               branchName commitSha prNumber d
      = (Normal (AutoLink.detectTarefaKeys text), d', [])
      /\ (AutoLink.detectTarefaKeys text = [] -> d' = d).
Proof.
  intros. unfold AutoLink.processAutoLink.
  destruct (AutoLink.detectTarefaKeys text) as [|k keys] eqn:E.
  - exists d. split; reflexivity.
  - cbn [List.length Nat.ltb Nat.leb]. unfold bind at 1.
    match goal with
    | |- context [AutoLink.createAutoLinks ?a ?b ?c ?e ?f ?g d] =>
        destruct (createAutoLinks_quiet a b c e f g d) as (d' & ->)
    end.
    exists d'. split; [reflexivity|discriminate].
Qed.

Lemma processAutoLink_returns_detected_keys_witness :
  AutoLink.detectTarefaKeys "no task key in this text" = []
  /\ AutoLink.processAutoLink "no task key in this text" "proj-1" "repo-1"
       Store.commit_entity "c0ffee" None (Some "c0ffee") None review_db
     = (Normal [], review_db, []).
Proof.
  assert (E : AutoLink.detectTarefaKeys "no task key in this text" = [])
    by reflexivity.
  split; [exact E|].
  destruct (processAutoLink_returns_detected_keys
              "no task key in this text" "proj-1" "repo-1"
              Store.commit_entity "c0ffee" None (Some "c0ffee") None review_db)
    as (d' & Hrun & Hsame).
  rewrite Hrun, (Hsame E), E. reflexivity.
Defined.

(** ** [createAutoLinks] is idempotent while its lookup is unambiguous *)

Section Idempotence.
Import Store AutoLink LinkSpec.
Variables (et : entity_type) (entityId : string) (md : metadata).




(** The loop, as a fold over the resolved tasks. *)
Lemma for_each_link_step tasks : forall d,
  for_each tasks (fun t =>
    existing <- query (select_existing (existingLinkQuery t md)) ;;
    match data existing with
    | Some _ => ret tt
    | None => exec (insert_link (linkData t et entityId md))
    end) d
  = (Normal tt,
     with_tarefa_git_links d
       (fold_left (link_step et entityId md) tasks (tarefa_git_links d)), []).
Proof.
  induction tasks as [|t tasks IH]; intros d.
  - destruct d; reflexivity.
  - cbn [for_each fold_left]. unfold bind at 1.
    unfold bind at 1, query, select_existing.
    unfold link_step at 2, matching_rows.
    destruct (data (maybeSingle _)) eqn:E.
    + unfold ret. rewrite IH. reflexivity.
    + unfold exec. rewrite IH. reflexivity.
Qed.

Lemma createAutoLinks_fold keys projectId repoId d :
  createAutoLinks keys projectId repoId et entityId md d
  = (Normal tt,
     with_tarefa_git_links d
       (fold_left (link_step et entityId md) (resolved keys projectId d)
                  (tarefa_git_links d)), []).
Proof.
  unfold createAutoLinks, resolved.
  destruct (List.length keys =? 0)%nat; [destruct d; reflexivity|].
  unfold bind, query.
  destruct (select_tarefas projectId keys d) as [|t tasks] eqn:E;
    [destruct d; reflexivity|].
  cbn [List.length Nat.eqb]. rewrite for_each_link_step. reflexivity.
Qed.





End Idempotence.


(** ** ... and inserts again when it is not *)

(** C4.  When the lookup of [createAutoLinks] matches several rows,
    [.maybeSingle()] hands back no row and the link is inserted again:
    with two links made by hand for pull request 42, each of two
    identical runs adds a row for (tarefa-1, github, feat/TSK-1, no
    commit, 42). *)
Theorem createAutoLinks_inserts_again_on_several_matches :
  let run :=
    AutoLink.createAutoLinks ["TSK-1"] "proj-1" "repo-1"
      Store.pull_request_entity "pr-42" pr_42_metadata in
  let rows d :=
    List.length (rows_with_tuple d "tarefa-1" "github"
                                 (Some "feat/TSK-1") None (Some 42%Z)) in
  match run linked_twice_db with
  | (_, d1, _) =>
      match run d1 with
      | (_, d2, _) =>
          rows linked_twice_db = 0%nat /\ rows d1 = 1%nat /\ rows d2 = 2%nat
      end
  end.
Proof. vm_compute. repeat split. Qed.

(** ** [withRetry] *)

Section RetryProps.
Import GithubClient RetrySpec.
Variables (T St : Type).
Variable fn : St -> completion T * St.

(** The test of the [catch] block is the test for status 403 or 429. *)
Lemma is_rate_limit_status e : is_rate_limit e = rate_limited_b e.
Proof. destruct e as [m [[n|]|]|a [[n|]|]|a]; reflexivity. Qed.





Lemma retry_loop_exhausts n : forall i delay last s sn e s',
  after_rate_limits fn n s = Some sn ->
  fn sn = (Throw e, s') ->
  forall last_e, last = Some last_e \/ (0 < n)%nat ->
  exists err,
    retry_loop fn n i delay last s = (Throw err, sn, backoff delay i n)
    /\ (n = O -> last = Some err)
    /\ (forall m sm em, n = S m -> after_rate_limits fn m s = Some sm ->
                        fn sm = (Throw em, sn) -> err = as_Error em).
Proof.
  induction n as [|n IH]; intros i delay last s sn e s' Hn Hfn last_e Hlast.
  - simpl in Hn. injection Hn as <-. destruct Hlast as [->|]; [|lia].
    exists last_e. simpl. repeat split; congruence.
  - simpl in Hn. simpl.
    destruct (fn s) as [[v1|e1] s1] eqn:E1; [discriminate|].
    rewrite is_rate_limit_status.
    destruct (rate_limited_b e1) eqn:R1; [|discriminate].
    destruct (IH (i + 1)%Z delay (Some (as_Error e1)) s1 sn e s' Hn Hfn
                 (as_Error e1) (or_introl eq_refl)) as (err & Hrun & H0 & HS).
    exists err. rewrite Hrun. repeat split; [discriminate|].
    intros m sm em Hm Hsm Hem. injection Hm as ->.
    destruct m as [|m].
    + simpl in Hsm. injection Hsm as <-. rewrite E1 in Hem.
      injection Hem as <- _. specialize (H0 eq_refl). congruence.
    + simpl in Hsm. rewrite E1, R1 in Hsm. eapply HS; eauto.
Qed.

End RetryProps.



(** ** [canReviewPR] *)




(** C9.  A repository may be linked to several projects: the key of
    [project_repos] is (project, repository).  Pull request [pr-1] is
    alice's, its repository is linked to [proj-1] and to [proj-2], and bob
    holds a role in every project the repository is linked to; yet
    [canReviewPR] answers [false] to bob: [.maybeSingle()] finds two
    links and hands back no row. *)
Lemma canReviewPR_refuses_a_member_of_a_shared_repository :
  Permissions.canReviewPR "bob" "pr-1" shared_repo_db
  = (Normal false, shared_repo_db, [])
  /\ (exists p, In p (Store.pull_requests shared_repo_db)
                /\ Store.pr_id p = "pr-1"
                /\ Store.pr_author_id p = Some "alice"
                /\ (exists l, In l (Store.project_repos shared_repo_db)
                              /\ Store.pr_link_repo_id l = Store.pr_repo_id p)
                /\ forall l, In l (Store.project_repos shared_repo_db) ->
                             Store.pr_link_repo_id l = Store.pr_repo_id p ->
                             ReviewSpec.holds_role shared_repo_db "bob"
                               (Store.pr_link_project_id l)).
Proof.
  split; [reflexivity|].
  eexists. split; [left; reflexivity|]. split; [reflexivity|].
  split; [reflexivity|]. split.
  - eexists. split; [left; reflexivity|reflexivity].
  - intros l [<-|[<-|[]]] _.
    + eexists. split; [left; reflexivity|]. split; reflexivity.
    + eexists. split; [right; left; reflexivity|]. split; reflexivity.
Qed.

(** ** The OAuth callback: validation of the state token *)

Lemma no_live_state_filter d now_ state :
  HandshakeSpec.no_live_state d now_ state ->
  filter (fun s => String.eqb (Store.st_state s) state
                   && (now_ <? Store.st_expires_at s)%Z)
         (Store.github_oauth_states d) = [].
Proof.
  intros H. apply filter_none. intros s Hin.
  destruct (String.eqb (Store.st_state s) state) eqn:E; [|reflexivity].
  apply String.eqb_eq in E. specialize (H s Hin E).
  simpl. apply Z.ltb_ge. exact H.
Qed.

Lemma select_valid_state_stale o state d :
  HandshakeSpec.no_live_state d (Http.now o) state ->
  exists r, GithubOauth.select_valid_state o state d = (Normal r, d, [])
            /\ Store.data r = None.
Proof.
  intros H. unfold GithubOauth.select_valid_state, Http.stmt.
  destruct (Http.store_fails o _ _).
  - eexists. split; reflexivity.
  - rewrite (no_live_state_filter H). eexists. split; reflexivity.
Qed.

Lemma handleOAuthCallback_rejects_stale_state env o req d code state :
  HandshakeSpec.configured env ->
  HandshakeSpec.carries req code state ->
  HandshakeSpec.no_live_state d (Http.now o) state ->
  GithubOauth.handleOAuthCallback env o req d
  = (Normal (GithubOauth.error_redirect env "Invalid or expired state"), d, []).
Proof.
  intros (H1 & H2 & H3) (Hc & Hs) Hstale.
  unfold GithubOauth.handleOAuthCallback.
  rewrite H1, H2, H3, Hc, Hs. cbn [negb orb].
  unfold bind at 1.
  destruct (select_valid_state_stale o Hstale) as (r & -> & Hdata).
  rewrite Hdata. destruct (Store.error r); reflexivity.
Qed.

Lemma error_redirect'_run env o state message d :
  exists project,
    GithubOauthCallback.error_redirect env o state message d
    = (Normal (Http.redirect (HandshakeSpec.error_location env project message)),
       d, []).
Proof.
  unfold GithubOauthCallback.error_redirect, bind.
  destruct (Js.nonempty state) as [st|].
  - unfold GithubOauthCallback.select_state_project, Http.stmt.
    destruct (Http.store_fails o _ _).
    + exists None. reflexivity.
    + cbn -[HandshakeSpec.error_location filter].
      match goal with
      | |- context [Store.data ?x] => destruct (Store.data x) as [row|]
      end.
      * cbn [Js.nonempty]. destruct (Js.truthy (Store.st_project_id row)).
        -- exists (Some (Store.st_project_id row)). reflexivity.
        -- exists None. reflexivity.
      * exists None. reflexivity.
  - exists None. reflexivity.
Qed.

Lemma serve_rejects_stale_state env o req d code state :
  Http.method req = "GET" ->
  HandshakeSpec.configured env ->
  HandshakeSpec.carries req code state ->
  HandshakeSpec.no_live_state d (Http.now o) state ->
  exists project,
    GithubOauthCallback.serve env o req d
    = (Normal (Http.redirect
                 (HandshakeSpec.error_location env project
                    "Invalid or expired state")), d, []).
Proof.
  intros Hm (H1 & H2 & H3) (Hc & Hs) Hstale.
  unfold GithubOauthCallback.serve. rewrite Hm. cbn [String.eqb Ascii.eqb Bool.eqb negb].
  unfold try_catch.
  rewrite H1, H2, H3, Hc, Hs. cbn [negb orb].
  unfold bind at 1.
  destruct (select_valid_state_stale o Hstale) as (r & -> & Hdata).
  rewrite Hdata.
  destruct (error_redirect'_run env o (Http.searchParams_get req "state")
              "Invalid or expired state" d) as (project & E).
  exists project. destruct (Store.error r); rewrite E; reflexivity.
Qed.

(** ** The OAuth callback: what becomes of the state row *)

Lemma maybeSingle_data {A} (l : list A) (x : A) :
  Store.data (Store.maybeSingle l) = Some x -> l = [x].
Proof.
  destruct l as [|a [|b r]]; simpl; intros H; try discriminate.
  injection H as ->. reflexivity.
Qed.

Lemma handleOAuthCallback_state_rows env o req d :
  wp (GithubOauth.handleOAuthCallback env o req)
     (fun r d' _ =>
        Store.github_oauth_states d' = Store.github_oauth_states d
        \/ exists code state s,
             HandshakeSpec.carries req code state
             /\ HandshakeSpec.live_state d (Http.now o) state s
             /\ r = Normal (HandshakeSpec.connected_redirect env
                              (Store.st_project_id s))
             /\ Store.github_oauth_states d'
                = filter (fun x => negb (String.eqb (Store.st_state x) state))
                         (Store.github_oauth_states d)) d.
Proof.
  unfold GithubOauth.handleOAuthCallback.
  wp_steps.
  all: try (left; reflexivity).
  all: try discriminate.
  all: right;
    match goal with
    | Hc : Js.nonempty (Http.searchParams_get _ "code") = Some ?c,
      Hs : Js.nonempty (Http.searchParams_get _ "state") = Some ?st,
      Hd : Store.data (Store.maybeSingle _) = Some ?g |- _ =>
        exists c, st, g; split; [split; assumption|];
        split; [exact (maybeSingle_data _ Hd)|]; split; reflexivity
    end.
Qed.

Lemma serve_state_rows env o req d :
  Http.method req = "GET" ->
  wp (GithubOauthCallback.serve env o req)
     (fun r d' _ =>
        Store.github_oauth_states d' = Store.github_oauth_states d
        \/ exists code state s,
             HandshakeSpec.carries req code state
             /\ HandshakeSpec.live_state d (Http.now o) state s
             /\ r = Normal (HandshakeSpec.connected_redirect' env
                              (Store.st_project_id s))
             /\ Store.github_oauth_states d'
                = filter (fun x => negb (String.eqb (Store.st_state x) state))
                         (Store.github_oauth_states d)) d.
Proof.
  intros Hm. unfold GithubOauthCallback.serve. rewrite Hm.
  cbn [String.eqb Ascii.eqb Bool.eqb negb].
  unfold GithubOauthCallback.error_redirect.
  wp_steps.
  all: try (left; reflexivity).
  all: try discriminate.
  all: right;
    match goal with
    | Hc : Js.nonempty (Http.searchParams_get _ "code") = Some ?c,
      Hs : Js.nonempty (Http.searchParams_get _ "state") = Some ?st,
      Hd : Store.data (Store.maybeSingle _) = Some ?g |- _ =>
        exists c, st, g; split; [split; assumption|];
        split; [exact (maybeSingle_data _ Hd)|]; split; reflexivity
    end.
Qed.

Ltac wp_steps_using :=
  repeat (wp_step_by case_known; cbn [negb orb andb Store.maybeSingle]).

Lemma filter_update_rows id change rows :
  (forall c, Store.conn_id (change c) = Store.conn_id c) ->
  filter (fun c => String.eqb (Store.conn_id c) id)
         (GithubOauth.update_rows id change rows)
  = map change (filter (fun c => String.eqb (Store.conn_id c) id) rows).
Proof.
  intros Hid. unfold GithubOauth.update_rows.
  induction rows as [|c rows IH]; [reflexivity|]. simpl.
  destruct (String.eqb (Store.conn_id c) id) eqn:E; simpl.
  - rewrite Hid, E. simpl. f_equal. exact IH.
  - rewrite E. exact IH.
Qed.

Lemma update_rows_single d p change :
  PersistSpec.connections_keyed d ->
  In p (Store.provider_connections d) ->
  (forall c, Store.conn_id (change c) = Store.conn_id c) ->
  filter (fun c => String.eqb (Store.conn_id c) (Store.conn_id p))
         (GithubOauth.update_rows (Store.conn_id p) change
                                  (Store.provider_connections d))
  = [change p].
Proof.
  intros Hkey Hin Hid. rewrite (filter_update_rows _ _ _ Hid).
  rewrite (filter_the_one _ _ p (Hkey (Store.conn_id p)) Hin (String.eqb_refl _)).
  reflexivity.
Qed.

Lemma filter_out_state_absent rows state :
  forall s, In s (filter (fun x => negb (String.eqb (Store.st_state x) state)) rows) ->
            Store.st_state s <> state.
Proof.
  intros s Hin E. apply filter_In in Hin. destruct Hin as [_ Hf].
  rewrite E, String.eqb_refl in Hf. discriminate.
Qed.

Lemma handleOAuthCallback_success env o req d code state s token user uid :
  HandshakeSpec.configured env ->
  HandshakeSpec.carries req code state ->
  HandshakeSpec.live_state d (Http.now o) state s ->
  PersistSpec.github_answers o code token user uid ->
  PersistSpec.store_answers o ->
  PersistSpec.connections_keyed d ->
  wp (GithubOauth.handleOAuthCallback env o req)
     (fun r d' _ =>
        r = Normal (HandshakeSpec.connected_redirect env (Store.st_project_id s))
        /\ HandshakeSpec.state_absent d' state) d.
Proof.
  intros (C1 & C2 & C3) (Hc & Hs) Hlive
         (tr & td & ur & T1 & T2 & T3 & T4 & U1 & U2 & U3 & U4) Hstore Hkey.
  unfold HandshakeSpec.live_state in Hlive.
  pose proof (Hstore "github_oauth_states" Http.v_select) as S1.
  pose proof (Hstore "github_oauth_states" Http.v_delete) as S2.
  pose proof (Hstore "provider_connections" Http.v_select) as S3.
  pose proof (Hstore "provider_connections" Http.v_update) as S4.
  pose proof (Hstore "provider_connections" Http.v_insert) as S5.
  pose proof (Hstore "audit_events" Http.v_insert) as S6.
  unfold GithubOauth.handleOAuthCallback.
  wp_steps_using.
  all: try match goal with
       | Hd : Store.data (Store.maybeSingle _) = Some ?p,
         He : context [GithubOauth.update_rows (Store.conn_id ?p) ?ch _] |- _ =>
           rewrite (update_rows_single _ ch Hkey
                      (proj1 (filter_singleton_In _ _ (maybeSingle_data _ Hd)))
                      (fun c => eq_refl)) in He;
           simpl in He
       end.
  all: try discriminate.
  all: split; [reflexivity|]; intros x Hin.
  all: eapply filter_out_state_absent; exact Hin.
Qed.

Lemma serve_success env o req d code state s token user uid :
  Http.method req = "GET" ->
  HandshakeSpec.configured env ->
  HandshakeSpec.carries req code state ->
  HandshakeSpec.live_state d (Http.now o) state s ->
  PersistSpec.github_answers o code token user uid ->
  PersistSpec.store_answers o ->
  PersistSpec.connections_keyed d ->
  wp (GithubOauthCallback.serve env o req)
     (fun r d' _ =>
        r = Normal (HandshakeSpec.connected_redirect' env (Store.st_project_id s))
        /\ HandshakeSpec.state_absent d' state) d.
Proof.
  intros Hm (C1 & C2 & C3) (Hc & Hs) Hlive
         (tr & td & ur & T1 & T2 & T3 & T4 & U1 & U2 & U3 & U4) Hstore Hkey.
  unfold HandshakeSpec.live_state in Hlive.
  pose proof (Hstore "github_oauth_states" Http.v_select) as S1.
  pose proof (Hstore "github_oauth_states" Http.v_delete) as S2.
  pose proof (Hstore "provider_connections" Http.v_select) as S3.
  pose proof (Hstore "provider_connections" Http.v_update) as S4.
  pose proof (Hstore "provider_connections" Http.v_insert) as S5.
  pose proof (Hstore "audit_events" Http.v_insert) as S6.
  unfold GithubOauthCallback.serve. rewrite Hm.
  cbn [String.eqb Ascii.eqb Bool.eqb negb].
  wp_steps_using.
  all: try match goal with
       | Hd : Store.data (Store.maybeSingle _) = Some ?p,
         He : context [GithubOauth.update_rows (Store.conn_id ?p) ?ch _] |- _ =>
           rewrite (update_rows_single _ ch Hkey
                      (proj1 (filter_singleton_In _ _ (maybeSingle_data _ Hd)))
                      (fun c => eq_refl)) in He;
           simpl in He
       end.
  all: try discriminate.
  all: split; [reflexivity|]; intros x Hin.
  all: eapply filter_out_state_absent; exact Hin.
Qed.

(** C2.  What the two callbacks do with the row of a state token that
    passed validation:
    - whenever the response is anything but the redirect that reports
      the connection ([?connected=true]), be it an error redirect after
      a failed token exchange, a failed identity fetch or a failed write
      of the connection, or an exception, the table of state tokens is
      exactly as it was: the row is still there;
    - when GitHub answers both calls and the store executes every
      statement, the response is that redirect and no row with the
      token is left. *)
Theorem callback_deletes_state_on_success_only :
  forall env o req d code state s,
    HandshakeSpec.carries req code state ->
    HandshakeSpec.live_state d (Http.now o) state s ->
    (match GithubOauth.handleOAuthCallback env o req d with
     | (r, d', _) =>
         (r <> Normal (HandshakeSpec.connected_redirect env
                         (Store.st_project_id s)) ->
          Store.github_oauth_states d' = Store.github_oauth_states d)
         /\ (forall token user uid,
               HandshakeSpec.configured env ->
               PersistSpec.github_answers o code token user uid ->
               PersistSpec.store_answers o ->
               PersistSpec.connections_keyed d ->
               r = Normal (HandshakeSpec.connected_redirect env
                             (Store.st_project_id s))
               /\ HandshakeSpec.state_absent d' state)
     end)
    /\ (Http.method req = "GET" ->
        match GithubOauthCallback.serve env o req d with
        | (r, d', _) =>
            (r <> Normal (HandshakeSpec.connected_redirect' env
                            (Store.st_project_id s)) ->
             Store.github_oauth_states d' = Store.github_oauth_states d)
            /\ (forall token user uid,
                  HandshakeSpec.configured env ->
                  PersistSpec.github_answers o code token user uid ->
                  PersistSpec.store_answers o ->
                  PersistSpec.connections_keyed d ->
                  r = Normal (HandshakeSpec.connected_redirect' env
                                (Store.st_project_id s))
                  /\ HandshakeSpec.state_absent d' state)
        end).
Proof.
  intros env o req d code state s Hreq Hlive.
  assert (Hsame : forall code' state' s',
             HandshakeSpec.carries req code' state' ->
             HandshakeSpec.live_state d (Http.now o) state' s' -> s' = s).
  { intros code' state' s' (Hc' & Hs') Hl'. destruct Hreq as (Hc & Hs).
    rewrite Hs in Hs'. injection Hs' as <-.
    unfold HandshakeSpec.live_state in *. congruence. }
  split.
  - pose proof (handleOAuthCallback_state_rows env o req d) as Hrows.
    assert (Hok : forall token user uid,
               HandshakeSpec.configured env ->
               PersistSpec.github_answers o code token user uid ->
               PersistSpec.store_answers o -> PersistSpec.connections_keyed d ->
               wp (GithubOauth.handleOAuthCallback env o req)
                  (fun r d' _ =>
                     r = Normal (HandshakeSpec.connected_redirect env
                                   (Store.st_project_id s))
                     /\ HandshakeSpec.state_absent d' state) d).
    { intros. eapply handleOAuthCallback_success; eauto. }
    unfold wp in Hrows, Hok.
    destruct (GithubOauth.handleOAuthCallback env o req d) as [[r d'] calls].
    split.
    + intros Hr. destruct Hrows as [E|(c' & st' & s' & Hq & Hl & Hr' & _)];
        [exact E|].
      rewrite (Hsame _ _ _ Hq Hl) in Hr'. contradiction.
    + intros. eapply Hok; eauto.
  - intros Hm.
    pose proof (@serve_state_rows env o req d Hm) as Hrows.
    assert (Hok : forall token user uid,
               HandshakeSpec.configured env ->
               PersistSpec.github_answers o code token user uid ->
               PersistSpec.store_answers o -> PersistSpec.connections_keyed d ->
               wp (GithubOauthCallback.serve env o req)
                  (fun r d' _ =>
                     r = Normal (HandshakeSpec.connected_redirect' env
                                   (Store.st_project_id s))
                     /\ HandshakeSpec.state_absent d' state) d).
    { intros. eapply serve_success; eauto. }
    unfold wp in Hrows, Hok.
    destruct (GithubOauthCallback.serve env o req d) as [[r d'] calls].
    split.
    + intros Hr. destruct Hrows as [E|(c' & st' & s' & Hq & Hl & Hr' & _)];
        [exact E|].
      rewrite (Hsame _ _ _ Hq Hl) in Hr'. contradiction.
    + intros. eapply Hok; eauto.
Qed.

Lemma callback_deletes_state_on_success_only_witness :
  HandshakeSpec.carries callback_request "code-1" "state-1"
  /\ HandshakeSpec.live_state pending_db (Http.now outside0) "state-1" state_1
  /\ HandshakeSpec.state_absent
       (snd (fst (GithubOauth.handleOAuthCallback env0 outside0
                    callback_request pending_db))) "state-1"
  /\ Store.github_oauth_states
       (snd (fst (GithubOauth.handleOAuthCallback env0 outside_refused
                    callback_request pending_db))) = [state_1].
Proof.
  assert (Hreq : HandshakeSpec.carries callback_request "code-1" "state-1")
    by (split; reflexivity).
  assert (Hlive : HandshakeSpec.live_state pending_db (Http.now outside0)
                                           "state-1" state_1) by reflexivity.
  split; [exact Hreq|]. split; [exact Hlive|]. split.
  - pose proof (proj1 (@callback_deletes_state_on_success_only
                         env0 outside0 callback_request pending_db
                         "code-1" "state-1" state_1 Hreq Hlive)) as H.
    destruct H as [_ H].
    refine (proj2 (H "gho_token"
                     {| Http.gh_id := Some 583231%Z;
                        Http.gh_login := Some "octocat" |} 583231%Z _ _ _ _)).
    + repeat split.
    + exists token_granted.
      eexists. eexists. repeat split.
    + intros table v. reflexivity.
    + intros id. cbn [pending_db connected_db Store.provider_connections
                      Store.with_github_oauth_states filter].
      destruct (String.eqb _ id); simpl; lia.
  - pose proof (proj1 (@callback_deletes_state_on_success_only
                         env0 outside_refused callback_request pending_db
                         "code-1" "state-1" state_1 Hreq Hlive)) as H.
    destruct H as [H _].
    refine (eq_trans (H _) eq_refl). discriminate.
Defined.

(** C2, as it is stated, fails: the state token passes validation,
    GitHub refuses the code, the handler redirects with its error, and the
    row of the token is still in [github_oauth_states]; the same with
    [github-oauth-callback]. *)
Lemma callback_keeps_state_after_refused_code :
  HandshakeSpec.live_state pending_db (Http.now outside_refused) "state-1" state_1
  /\ GithubOauth.handleOAuthCallback env0 outside_refused callback_request
                                     pending_db
     = (Normal (GithubOauth.error_redirect env0
                  "Failed to exchange code for token"),
        pending_db,
        [fetch_call "POST" "https://github.com/login/oauth/access_token"])
  /\ GithubOauthCallback.serve env0 outside_refused callback_request pending_db
     = (Normal (GithubOauthCallback.project_error_redirect env0 "proj-1"
                  "Failed to exchange code for token"),
        pending_db,
        [fetch_call "POST" "https://github.com/login/oauth/access_token"])
  /\ In state_1 (Store.github_oauth_states pending_db).
Proof.
  split; [reflexivity|]. split; [vm_compute; reflexivity|].
  split; [vm_compute; reflexivity|]. left. reflexivity.
Qed.

(** ** The OAuth callback fails closed *)

Lemma handleOAuthCallback_fails_closed env o req d :
  (forall state,
     Js.nonempty (Http.searchParams_get req "state") = Some state ->
     HandshakeSpec.no_live_state d (Http.now o) state) ->
  exists message,
    GithubOauth.handleOAuthCallback env o req d
    = (Normal (GithubOauth.error_redirect env message), d, []).
Proof.
  intros Hstale. unfold GithubOauth.handleOAuthCallback.
  destruct (_ || _); [eexists; reflexivity|].
  destruct (Js.nonempty (Http.searchParams_get req "code"));
    [|eexists; reflexivity].
  destruct (Js.nonempty (Http.searchParams_get req "state")) as [state|];
    [|eexists; reflexivity].
  unfold bind at 1.
  destruct (select_valid_state_stale o (Hstale state eq_refl)) as (r & -> & Hdata).
  rewrite Hdata. destruct (Store.error r); eexists; reflexivity.
Qed.

Lemma serve_fails_closed env o req d :
  Http.method req = "GET" ->
  (forall state,
     Js.nonempty (Http.searchParams_get req "state") = Some state ->
     HandshakeSpec.no_live_state d (Http.now o) state) ->
  exists project message,
    GithubOauthCallback.serve env o req d
    = (Normal (Http.redirect (HandshakeSpec.error_location env project message)),
       d, []).
Proof.
  intros Hm Hstale. unfold GithubOauthCallback.serve. rewrite Hm.
  cbn [String.eqb Ascii.eqb Bool.eqb negb]. unfold try_catch.
  destruct (_ || _).
  { destruct (error_redirect'_run env o (Http.searchParams_get req "state")
                "GitHub OAuth not configured" d) as (project & ->).
    eexists. eexists. reflexivity. }
  destruct (Js.nonempty (Http.searchParams_get req "code")).
  2:{ destruct (error_redirect'_run env o (Http.searchParams_get req "state")
                  "Missing code or state parameter" d) as (project & ->).
      eexists. eexists. reflexivity. }
  destruct (Js.nonempty (Http.searchParams_get req "state")) as [state|].
  2:{ destruct (error_redirect'_run env o (Http.searchParams_get req "state")
                  "Missing code or state parameter" d) as (project & ->).
      eexists. eexists. reflexivity. }
  unfold bind at 1.
  destruct (select_valid_state_stale o (Hstale state eq_refl)) as (r & -> & Hdata).
  rewrite Hdata.
  destruct (error_redirect'_run env o (Http.searchParams_get req "state")
              "Invalid or expired state" d) as (project & E).
  exists project. eexists. destruct (Store.error r); rewrite E; reflexivity.
Qed.

Lemma state_absent_no_live_state d state t :
  HandshakeSpec.state_absent d state -> HandshakeSpec.no_live_state d t state.
Proof. intros H s Hin E. exfalso. exact (H s Hin E). Qed.

Lemma handleOAuthStart_state_rows env o req userId d :
  wp (GithubOauth.handleOAuthStart env o req userId)
     (fun _ d' _ =>
        Store.github_oauth_states d' = Store.github_oauth_states d
        \/ exists row,
             Store.github_oauth_states d'
             = (Store.github_oauth_states d ++ [row])%list
             /\ Store.st_state row = Http.randomUUID o
             /\ Store.st_expires_at row = (Http.now o + 5 * 60 * 1000)%Z) d.
Proof.
  unfold GithubOauth.handleOAuthStart, Permissions.canConnectGit,
    Permissions.getProjectRole.
  wp_steps.
  all: try (left; reflexivity).
  all: right; eexists; split; [reflexivity|split; reflexivity].
Qed.

Lemma issued_state_expires env o req userId d :
  HandshakeSpec.state_absent d (Http.randomUUID o) ->
  wp (GithubOauth.handleOAuthStart env o req userId)
     (fun _ d' _ =>
        forall t, (Http.now o + 5 * 60 * 1000 <= t)%Z ->
                  HandshakeSpec.no_live_state d' t (Http.randomUUID o)) d.
Proof.
  intros Habs. eapply wp_conseq; [|apply handleOAuthStart_state_rows].
  cbv beta. intros _ d' _ [E|(row & E & Hst & Hexp)] t Ht s Hin Hs; rewrite E in Hin.
  - exfalso. exact (Habs s Hin Hs).
  - apply in_app_or in Hin. destruct Hin as [Hin|[<-|[]]].
    + exfalso. exact (Habs s Hin Hs).
    + lia.
Qed.

(** C1.  Both callbacks, [handleOAuthCallback] of github-oauth and
    [serve] of github-oauth-callback, accept no state token that is not
    stored with an expiry strictly in the future:
    - for every request whose [state] has no such row, the handler calls
      nothing outside (no token exchange), leaves the store as it is and
      answers with an error redirect;
    - when the request carries a code and a state and the OAuth variables
      are set, so that it reaches the validation of the state, the error
      of that redirect is "Invalid or expired state";
    - a token issued by [handleOAuthStart] has no such row any more from
      five minutes after it was issued;
    - after a callback that succeeded, a second callback with the same
      [state] is answered with "Invalid or expired state". *)
Theorem callback_rejects_stale_state :
  forall env o req d,
    ((forall state,
        Js.nonempty (Http.searchParams_get req "state") = Some state ->
        HandshakeSpec.no_live_state d (Http.now o) state) ->
     (exists message,
        GithubOauth.handleOAuthCallback env o req d
        = (Normal (GithubOauth.error_redirect env message), d, []))
     /\ (Http.method req = "GET" ->
         exists project message,
           GithubOauthCallback.serve env o req d
           = (Normal (Http.redirect
                        (HandshakeSpec.error_location env project message)),
              d, [])))
    /\ (forall code state,
          HandshakeSpec.configured env ->
          HandshakeSpec.carries req code state ->
          HandshakeSpec.no_live_state d (Http.now o) state ->
          GithubOauth.handleOAuthCallback env o req d
          = (Normal (GithubOauth.error_redirect env "Invalid or expired state"),
             d, [])
          /\ (Http.method req = "GET" ->
              exists project,
                GithubOauthCallback.serve env o req d
                = (Normal (Http.redirect
                             (HandshakeSpec.error_location env project
                                "Invalid or expired state")), d, [])))
    /\ (forall start userId,
          HandshakeSpec.state_absent d (Http.randomUUID o) ->
          match GithubOauth.handleOAuthStart env o start userId d with
          | (_, d1, _) =>
              forall t, (Http.now o + 5 * 60 * 1000 <= t)%Z ->
                        HandshakeSpec.no_live_state d1 t (Http.randomUUID o)
          end)
    /\ (forall code state s token user uid o2 req2 code2,
          HandshakeSpec.configured env ->
          HandshakeSpec.carries req code state ->
          HandshakeSpec.live_state d (Http.now o) state s ->
          PersistSpec.github_answers o code token user uid ->
          PersistSpec.store_answers o ->
          PersistSpec.connections_keyed d ->
          HandshakeSpec.carries req2 code2 state ->
          match GithubOauth.handleOAuthCallback env o req d with
          | (_, d1, _) =>
              GithubOauth.handleOAuthCallback env o2 req2 d1
              = (Normal (GithubOauth.error_redirect env
                           "Invalid or expired state"), d1, [])
          end).
Proof.
  intros env o req d. split; [|split; [|split]].
  - intros Hstale. split.
    + apply handleOAuthCallback_fails_closed. exact Hstale.
    + intros Hm. apply serve_fails_closed; assumption.
  - intros code state Hcfg Hreq Hstale. split.
    + eapply handleOAuthCallback_rejects_stale_state; eauto.
    + intros Hm. eapply serve_rejects_stale_state; eauto.
  - intros start userId Habs.
    exact (@issued_state_expires env o start userId d Habs).
  - intros code state s token user uid o2 req2 code2
           Hcfg Hreq Hlive Hgh Hstore Hkey Hreq2.
    pose proof (@handleOAuthCallback_success env o req d code state s token
                  user uid Hcfg Hreq Hlive Hgh Hstore Hkey) as H.
    unfold wp in H.
    destruct (GithubOauth.handleOAuthCallback env o req d) as [[r d1] calls].
    destruct H as [_ Habs].
    eapply handleOAuthCallback_rejects_stale_state; eauto.
    apply state_absent_no_live_state. exact Habs.
Qed.

Lemma callback_rejects_stale_state_witness :
  HandshakeSpec.configured env0
  /\ HandshakeSpec.carries callback_request "code-1" "state-1"
  /\ HandshakeSpec.no_live_state pending_db (Http.now outside_late) "state-1"
  /\ GithubOauth.handleOAuthCallback env0 outside_late callback_request pending_db
     = (Normal (GithubOauth.error_redirect env0 "Invalid or expired state"),
        pending_db, []).
Proof.
  assert (Hcfg : HandshakeSpec.configured env0) by (repeat split).
  assert (Hreq : HandshakeSpec.carries callback_request "code-1" "state-1")
    by (split; reflexivity).
  assert (Hstale : HandshakeSpec.no_live_state pending_db
                     (Http.now outside_late) "state-1").
  { intros s [<-|[]] _. vm_compute. discriminate. }
  split; [exact Hcfg|]. split; [exact Hreq|]. split; [exact Hstale|].
  exact (proj1 (proj1 (proj2 (callback_rejects_stale_state
                                env0 outside_late callback_request pending_db))
                      "code-1" "state-1" Hcfg Hreq Hstale)).
Defined.

(** ** The callback route always redirects *)

Lemma wp_error_redirect' env o state message Q d :
  (forall project,
     Q (Normal (Http.redirect (HandshakeSpec.error_location env project message)))
       d []) ->
  wp (GithubOauthCallback.error_redirect env o state message) Q d.
Proof.
  intros H. unfold wp.
  destruct (error_redirect'_run env o state message d) as (project & ->).
  apply H.
Qed.

Lemma serve_redirects env o req d :
  Http.method req = "GET" ->
  wp (GithubOauthCallback.serve env o req)
     (fun r _ _ =>
        (exists p, r = Normal (HandshakeSpec.connected_redirect' env p))
        \/ (exists project message,
              r = Normal (Http.redirect
                            (HandshakeSpec.error_location env project message)))) d.
Proof.
  intros Hm. unfold GithubOauthCallback.serve. rewrite Hm.
  cbn [String.eqb Ascii.eqb Bool.eqb negb].
  repeat first [ apply wp_error_redirect'; intros ? | wp_step ].
  all: try (right; eexists; eexists; reflexivity).
  all: try (right; eexists (Some _); eexists; reflexivity).
  all: left; eexists; reflexivity.
Qed.

Lemma github_oauth_callback_route_redirects env o req d :
  Http.method req = "GET" ->
  Js.includes "/callback" (Http.pathname req) = true ->
  wp (GithubOauth.serve env o req)
     (fun r _ _ => exists location, r = Normal (Http.redirect location)) d.
Proof.
  intros Hm Hp. unfold GithubOauth.serve. rewrite Hm, Hp.
  cbn [String.eqb Ascii.eqb Bool.eqb negb andb].
  unfold GithubOauth.handleOAuthCallback.
  wp_steps.
  all: eexists; reflexivity.
Qed.

(** C7, as the code has it.  Every GET request to the edge function
    [github-oauth-callback] is answered with status 302 and no body:
    either the redirect that reports the connection, or a redirect whose
    location carries the reason as [error=] or [message=]; no exception
    leaves the handler.  The same holds for the callback route of
    [github-oauth] (GET, with [/callback] in the path).  A request to
    [github-oauth-callback] with another method is not redirected and
    touches nothing: OPTIONS gets the preflight response (status 200, the
    CORS headers, no body), and every other method gets status 405 with
    the JSON body [{ error: "Method not allowed" }]. *)
Theorem callback_GET_always_redirects :
  forall env o req d,
    (Http.method req = "GET" ->
     (exists r d' calls,
        GithubOauthCallback.serve env o req d = (Normal r, d', calls)
        /\ Http.status r = 302%Z /\ Http.body r = None
        /\ ((exists p, r = HandshakeSpec.connected_redirect' env p)
            \/ (exists project message,
                  r = Http.redirect
                        (HandshakeSpec.error_location env project message))))
     /\ (Js.includes "/callback" (Http.pathname req) = true ->
         exists location d' calls,
           GithubOauth.serve env o req d
           = (Normal (Http.redirect location), d', calls)))
    /\ (Http.method req = "OPTIONS" ->
        GithubOauthCallback.serve env o req d
        = (Normal {| Http.status := 200;
                     Http.headers := Http.corsHeaders;
                     Http.body := None |}, d, []))
    /\ (Http.method req <> "GET" -> Http.method req <> "OPTIONS" ->
        GithubOauthCallback.serve env o req d
        = (Normal {| Http.status := 405;
                     Http.headers :=
                       (Http.corsHeaders
                        ++ [("Content-Type", "application/json")])%list;
                     Http.body :=
                       Some (Http.j_obj
                               [("error", Http.j_str "Method not allowed")]) |},
           d, [])).
Proof.
  intros env o req d. split; [|split].
  - intros Hm. split.
    + pose proof (@serve_redirects env o req d Hm) as H. unfold wp in H.
      destruct (GithubOauthCallback.serve env o req d) as [[r d'] calls].
      destruct H as [(p & ->)|(project & message & ->)].
      * eexists. exists d', calls. split; [reflexivity|].
        split; [reflexivity|]. split; [reflexivity|]. left. exists p. reflexivity.
      * eexists. exists d', calls. split; [reflexivity|].
        split; [reflexivity|]. split; [reflexivity|].
        right. exists project, message. reflexivity.
    + intros Hp.
      pose proof (@github_oauth_callback_route_redirects env o req d Hm Hp) as H.
      unfold wp in H.
      destruct (GithubOauth.serve env o req d) as [[r d'] calls].
      destruct H as (location & ->). exists location, d', calls. reflexivity.
  - intros Hm. unfold GithubOauthCallback.serve. rewrite Hm. reflexivity.
  - intros Hget Hopt. unfold GithubOauthCallback.serve.
    destruct (String.eqb (Http.method req) "OPTIONS") eqn:E1;
      [apply String.eqb_eq in E1; contradiction|].
    destruct (String.eqb (Http.method req) "GET") eqn:E2;
      [apply String.eqb_eq in E2; contradiction|].
    reflexivity.
Qed.

Lemma callback_GET_always_redirects_witness :
  Http.method callback_request = "GET"
  /\ exists r d' calls,
       GithubOauthCallback.serve env0 outside_refused callback_request pending_db
       = (Normal r, d', calls)
       /\ Http.status r = 302%Z.
Proof.
  split; [reflexivity|].
  destruct (proj1 (proj1 (callback_GET_always_redirects env0 outside_refused
                            callback_request pending_db) eq_refl))
    as (r & d' & calls & E & Hst & _).
  exists r, d', calls. split; assumption.
Defined.

(** C7, as it is stated, fails: a POST to the callback is answered with
    status 405 and the JSON body [{ error: "Method not allowed" }], not
    with a redirect; the store is not touched. *)
Lemma callback_POST_is_answered_with_json :
  GithubOauthCallback.serve env0 outside0 callback_post pending_db
  = (Normal {| Http.status := 405;
               Http.headers :=
                 (Http.corsHeaders ++ [("Content-Type", "application/json")])%list;
               Http.body :=
                 Some (Http.j_obj [("error", Http.j_str "Method not allowed")]) |},
     pending_db, []).
Proof. reflexivity. Qed.

(** ** The OAuth callbacks keep one connection per project *)

Lemma filter_map_same {A} (f : A -> bool) (g : A -> A) (l : list A) :
  (forall x, f (g x) = f x) ->
  List.length (filter f (map g l)) = List.length (filter f l).
Proof.
  intros H. induction l as [|x l IH]; [reflexivity|].
  cbn [map filter]. rewrite H. destruct (f x); simpl; rewrite IH; reflexivity.
Qed.

Lemma github_rows_update rows id o uid login token scopes ref p :
  List.length
    (filter (fun c => String.eqb (Store.conn_project_id c) p
                      && String.eqb (Store.conn_provider c) "github")
            (GithubOauth.update_rows id
               (fun c => Migrations.update_updated_at_column o
                           (GithubOauth.reconnect o uid login token scopes ref c))
               rows))
  = List.length
      (filter (fun c => String.eqb (Store.conn_project_id c) p
                        && String.eqb (Store.conn_provider c) "github") rows).
Proof.
  unfold GithubOauth.update_rows.
  apply filter_map_same. intros c.
  destruct (String.eqb (Store.conn_id c) id); reflexivity.
Qed.

Lemma maybeSingle_none {A} (l : list A) :
  Store.data (Store.maybeSingle l) = None ->
  l = [] \/ (2 <= List.length l)%nat.
Proof.
  destruct l as [|a [|b r]]; simpl; intros H; [auto|discriminate|right; lia].
Qed.

Lemma github_rows_insert rows o projectId userId uid login token scopes ref p :
  Store.data
    (Store.maybeSingle
       (filter (fun c => String.eqb (Store.conn_project_id c) projectId
                         && String.eqb (Store.conn_provider c) "github")
               rows)) = None ->
  (List.length
     (filter (fun c => String.eqb (Store.conn_project_id c) p
                       && String.eqb (Store.conn_provider c) "github") rows)
   <= 1)%nat ->
  (List.length
     (filter (fun c => String.eqb (Store.conn_project_id c) p
                       && String.eqb (Store.conn_provider c) "github")
             (rows ++ [GithubOauth.new_connection o projectId userId uid login
                         token scopes ref])) <= 1)%nat.
Proof.
  intros Hnone Hle.
  rewrite filter_app, length_app. cbn [filter GithubOauth.new_connection
    Store.conn_project_id Store.conn_provider].
  destruct (String.eqb projectId p) eqn:E; cbn [andb]; [|simpl; lia].
  apply String.eqb_eq in E. subst p.
  destruct (@maybeSingle_none _ _ Hnone) as [H|H].
  - rewrite H. simpl. lia.
  - lia.
Qed.

Lemma handleOAuthCallback_keeps_one_connection env o req d :
  Http.store_fails o "provider_connections" Http.v_select = None ->
  wp (GithubOauth.handleOAuthCallback env o req)
     (fun _ d' _ =>
        forall proj, (List.length (github_connections d proj) <= 1)%nat ->
                     (List.length (github_connections d' proj) <= 1)%nat) d.
Proof.
  intros Hsel. unfold GithubOauth.handleOAuthCallback.
  wp_steps.
  all: try congruence.
  all: intros proj Hp.
  all: try exact Hp.
  all: unfold github_connections in *; store_simpl.
  all: try (rewrite github_rows_update; exact Hp).
  all: eapply github_rows_insert; eassumption.
Qed.

Lemma serve_keeps_one_connection env o req d :
  Http.store_fails o "provider_connections" Http.v_select = None ->
  wp (GithubOauthCallback.serve env o req)
     (fun _ d' _ =>
        forall proj, (List.length (github_connections d proj) <= 1)%nat ->
                     (List.length (github_connections d' proj) <= 1)%nat) d.
Proof.
  intros Hsel. unfold GithubOauthCallback.serve, GithubOauthCallback.error_redirect.
  wp_steps.
  all: try congruence.
  all: intros proj Hp.
  all: try exact Hp.
  all: unfold github_connections in *; store_simpl.
  all: try (rewrite github_rows_update; exact Hp).
  all: eapply github_rows_insert; eassumption.
Qed.

(** ** The installation callback of git-connect does not *)

(** C5.  The installation callback of git-connect inserts without
    looking for a connection of the project: on a project that already
    has its GitHub connection it answers 200 and leaves two. *)
Theorem handleCallback_adds_a_second_connection :
  match GitConnect.handleCallback env0 outside0 app_callback_request "alice"
                                  connected_db with
  | (r, d', _) =>
      List.length (github_connections connected_db "proj-1") = 1%nat
      /\ (exists body, r = Normal (Http.json_response 200 body))
      /\ map Store.conn_id (github_connections d' "proj-1") = ["conn-1"; "conn-2"]
  end.
Proof.
  vm_compute. split; [reflexivity|]. split; [|reflexivity].
  eexists. reflexivity.
Qed.

(** ** The revocation of github-oauth does clear the selection *)

Lemma update_rows_revoked o id rows c :
  In c (GithubOauth.update_rows id
          (fun c => Migrations.update_updated_at_column o
                      (GithubOauth.set_revoked c)) rows) ->
  Store.conn_id c = id -> Store.conn_status c = Store.status_revoked.
Proof.
  unfold GithubOauth.update_rows. intros Hin Hid.
  apply in_map_iff in Hin. destruct Hin as (c0 & E & _).
  destruct (String.eqb (Store.conn_id c0) id) eqn:Eid.
  - subst c. reflexivity.
  - subst c. apply String.eqb_neq in Eid. contradiction.
Qed.

Lemma handleRevokeConnection_clears_selected env o req userId d :
  Http.store_fails o "repos" Http.v_update = None ->
  wp (GithubOauth.handleRevokeConnection env o req userId)
     (fun r d' _ =>
        r = Normal (Http.json_response 200 (Http.j_obj [("ok", Http.j_bool true)])) ->
        exists connectionId,
          (forall c, In c (Store.provider_connections d') ->
                     Store.conn_id c = connectionId ->
                     Store.conn_status c = Store.status_revoked)
          /\ selected_repos d' connectionId = []) d.
Proof.
  intros Hrepos.
  unfold GithubOauth.handleRevokeConnection, Permissions.canConnectGit,
    Permissions.getProjectRole.
  wp_steps.
  all: try (intros H; discriminate H).
  all: try congruence.
  all: intros _; eexists; split;
    [intros c Hin Hid; eapply update_rows_revoked; eassumption|].
  all: unfold selected_repos; store_simpl; apply filter_none;
    intros r Hin; apply in_map_iff in Hin; destruct Hin as (r0 & <- & _);
    destruct (Store.col_eq String.eqb (Store.repo_connection_id r0) _) eqn:E;
    cbn [Store.repo_connection_id Store.repo_selected];
    rewrite ?E; [apply andb_false_r|reflexivity].
Qed.

(** ** ... and [DELETE /connections/:id] does not *)

(** C8.  [DELETE /connections/:id] marks the connection as revoked and
    answers 200, and the repository that referenced the connection is
    still selected afterwards. *)
Theorem handleDeleteConnection_keeps_selected :
  match GitConnect.handleDeleteConnection outside0 "conn-1" "alice"
                                          connected_db with
  | (r, d', _) =>
      r = Normal (Http.json_response 200
                    (Http.j_obj [("success", Http.j_bool true)]))
      /\ status_of d' "conn-1" = [Store.status_revoked]
      /\ map Store.repo_id (selected_repos d' "conn-1") = ["repo-1"]
  end.
Proof. vm_compute. repeat split. Qed.

(* ================================================================== *)
(** * Properties of the other handlers and helpers *)
(* ================================================================== *)

(** ** The answers of [_shared/permissions.ts] *)

Lemma select_member_In d userId projectId m :
  Store.data (Permissions.select_member userId projectId d) = Some m ->
  AccessSpec.has_role d userId projectId (Store.member_role m).
Proof.
  unfold Permissions.select_member. intros H.
  apply maybeSingle_data, filter_singleton_In in H. destruct H as [Hin Hf].
  apply andb_true_iff in Hf. destruct Hf as [Hu Hp].
  apply String.eqb_eq in Hu, Hp. exists m. auto.
Qed.

Lemma select_member_keyed d userId projectId role :
  ReviewSpec.members_keyed d ->
  AccessSpec.has_role d userId projectId role ->
  exists m, Permissions.select_member userId projectId d = Store.ok m
            /\ Store.member_role m = role.
Proof.
  intros Hkey (m & Hin & Hu & Hp & Hr). exists m. split; [|exact Hr].
  unfold Permissions.select_member.
  rewrite (filter_the_one _ _ m (Hkey userId projectId) Hin).
  - reflexivity.
  - rewrite Hu, Hp, !String.eqb_refl. reflexivity.
Qed.

Lemma getProjectRole_role d userId projectId :
  exists r,
    Permissions.getProjectRole userId projectId d = (Normal r, d, [])
    /\ (forall role, r = Some role -> AccessSpec.has_role d userId projectId role)
    /\ (ReviewSpec.members_keyed d ->
        forall role, AccessSpec.has_role d userId projectId role -> r = Some role)
    /\ (r = None -> ReviewSpec.members_keyed d ->
        ~ ReviewSpec.holds_role d userId projectId).
Proof.
  unfold Permissions.getProjectRole, bind, query, ret.
  destruct (Store.data (Permissions.select_member userId projectId d)) as [m|] eqn:Ed.
  - pose proof (select_member_In _ _ _ Ed) as Hm.
    assert (He : Store.error (Permissions.select_member userId projectId d) = None).
    { unfold Permissions.select_member in *.
      destruct (filter _ _) as [|a [|b l]]; simpl in *; congruence. }
    rewrite He. eexists. split; [reflexivity|]. split; [|split].
    + intros role E. injection E as <-. exact Hm.
    + intros Hkey role Hr.
      destruct (select_member_keyed Hkey Hr) as (m' & E & <-).
      rewrite E in Ed. simpl in Ed. congruence.
    + discriminate.
  - exists None. split.
    + destruct (Store.error _); reflexivity.
    + split; [discriminate|]. split.
      * intros Hkey role Hr.
        destruct (select_member_keyed Hkey Hr) as (m' & E & _).
        rewrite E in Ed. discriminate.
      * intros _ Hkey (m & Hin & Hu & Hp).
        destruct (@select_member_keyed d userId projectId (Store.member_role m) Hkey)
          as (m' & E & _).
        { exists m. auto. }
        rewrite E in Ed. discriminate.
Qed.






(** X7.  The permissions are nested, on any store: who may connect Git
    may create pull requests in the same project, and who may merge a
    pull request may review it, unless they wrote it. *)
Theorem permissions_are_nested :
  forall (d : Store.DB) (userId : Store.uuid),
    (forall projectId,
       Permissions.canConnectGit userId projectId d = (Normal true, d, []) ->
       Permissions.canCreatePR userId projectId d = (Normal true, d, []))
    /\ (forall prId,
          Permissions.canMergePR userId prId d = (Normal true, d, []) ->
          (forall p, In p (Store.pull_requests d) -> Store.pr_id p = prId ->
                     Store.pr_author_id p <> Some userId) ->
          Permissions.canReviewPR userId prId d = (Normal true, d, [])).
Proof.
  intros d userId. split.
  - intros projectId. unfold Permissions.canConnectGit, Permissions.canCreatePR, bind.
    destruct (getProjectRole_role d userId projectId) as (r & -> & _).
    destruct r as [[]|]; simpl; intros H; try discriminate; reflexivity.
  - intros prId. unfold Permissions.canMergePR, Permissions.canReviewPR, bind, query.
    destruct (Store.data (Permissions.select_pr prId d)) as [pr|] eqn:Epr;
      [|intros H; discriminate H].
    intros Hmerge Hauthor.
    assert (Hpr : In pr (Store.pull_requests d) /\ Store.pr_id pr = prId).
    { unfold Permissions.select_pr in Epr.
      apply maybeSingle_data, filter_singleton_In in Epr.
      destruct Epr as [Hin Hf]. apply String.eqb_eq in Hf. auto. }
    destruct Hpr as [Hin Hid].
    assert (Hna : Store.col_eq String.eqb (Store.pr_author_id pr) userId = false).
    { specialize (Hauthor pr Hin Hid). unfold Store.col_eq.
      destruct (Store.pr_author_id pr) as [a|]; [|reflexivity].
      destruct (String.eqb a userId) eqn:E; [|reflexivity].
      apply String.eqb_eq in E. congruence. }
    rewrite Hna.
    destruct (Store.data (Permissions.select_project_repo (Store.pr_repo_id pr) d))
      as [l|]; [|discriminate Hmerge].
    destruct (getProjectRole_role d userId (Store.pr_link_project_id l))
      as (r & Hrun & _).
    rewrite Hrun in *. destruct r as [[]|]; simpl in *; try discriminate; reflexivity.
Qed.

Lemma permissions_are_nested_witness :
  Permissions.canConnectGit "alice" "proj-1" connected_db
  = (Normal true, connected_db, [])
  /\ Permissions.canCreatePR "alice" "proj-1" connected_db
     = (Normal true, connected_db, []).
Proof.
  assert (H : Permissions.canConnectGit "alice" "proj-1" connected_db
              = (Normal true, connected_db, [])) by reflexivity.
  split; [exact H|].
  exact (proj1 (permissions_are_nested connected_db "alice") "proj-1" H).
Defined.

(** ** [withRetry], for any number of attempts *)

Section RetryShape.
Import GithubClient RetrySpec.
Variables (T St : Type).
Variable fn : St -> completion T * St.

Lemma attempts_backoff delay i k :
  RetryTrace.attempts (backoff delay i k) = k.
Proof.
  revert i. induction k as [|k IH]; intros i; [reflexivity|].
  cbn [backoff]. unfold RetryTrace.attempts in *. cbn [filter List.length].
  rewrite IH. reflexivity.
Qed.

Lemma retry_loop_shape n : forall i delay last s,
  match retry_loop fn n i delay last s with
  | (r, _, evs) =>
      (exists k, (k < n)%nat
                 /\ evs = (backoff delay i k ++ [attempt])%list
                 /\ forall e, r = Throw e -> exists e0, e = as_Error e0
                                                        /\ is_rate_limit e0 = false)
      \/ (evs = backoff delay i n
          /\ exists e, r = Throw e
                       /\ (n = O -> e = match last with
                                        | Some l => l
                                        | None => thrown_Error "Max retries exceeded" None
                                        end))
  end.
Proof.
  induction n as [|n IH]; intros i delay last s.
  - simpl. right. split; [reflexivity|]. eexists. split; reflexivity.
  - cbn [retry_loop]. destruct (fn s) as [[v|err] s1].
    + left. exists O. split; [lia|]. split; [reflexivity|]. discriminate.
    + destruct (is_rate_limit err) eqn:R.
      * specialize (IH (i + 1)%Z delay (Some (as_Error err)) s1).
        destruct (retry_loop fn n (i + 1) delay (Some (as_Error err)) s1)
          as [[r s2] evs].
        destruct IH as [(k & Hk & -> & Hr)|(-> & e & -> & _)].
        -- left. exists (S k). split; [lia|]. split; [reflexivity|exact Hr].
        -- right. split; [reflexivity|]. exists e. split; [reflexivity|discriminate].
      * left. exists O. split; [lia|]. split; [reflexivity|].
        intros e E. injection E as <-. exists err. auto.
Qed.

End RetryShape.

(** X4.  [withRetry], for any function and any [maxRetries]: [fn] is
    invoked [maxRetries] times at most; what can be seen is some rounds
    of an attempt followed by its wait of [delay * attemptNumber], and
    then either one more attempt that ended it (at most [maxRetries]
    attempts in all, nothing after the last one), or nothing more after
    [maxRetries] rounds, and then an error is raised.  With
    [maxRetries = 0], [fn] is never invoked and the error is
    "Max retries exceeded". *)
Theorem withRetry_trace_shape :
  forall (T St : Type) (fn : St -> completion T * St)
         (maxRetries : nat) (delay : Z) (s : St),
    match GithubClient.withRetry fn maxRetries delay s with
    | (r, _, evs) =>
        (RetryTrace.attempts evs <= maxRetries)%nat
        /\ ((exists k, (k < maxRetries)%nat
                       /\ evs = (RetrySpec.backoff delay 0 k
                                 ++ [GithubClient.attempt])%list)
            \/ (evs = RetrySpec.backoff delay 0 maxRetries
                /\ exists e, r = Throw e))
        /\ (maxRetries = O ->
            r = Throw (thrown_Error "Max retries exceeded" None) /\ evs = [])
    end.
Proof.
  intros T St fn n delay s. unfold GithubClient.withRetry.
  pose proof (retry_loop_shape fn n 0 delay None s) as H.
  destruct (GithubClient.retry_loop fn n 0 delay None s) as [[r s'] evs].
  destruct H as [(k & Hk & -> & _)|(-> & e & -> & H0)].
  - split; [|split].
    + unfold RetryTrace.attempts. rewrite filter_app, length_app.
      fold (RetryTrace.attempts (RetrySpec.backoff delay 0 k)).
      rewrite attempts_backoff. simpl. lia.
    + left. exists k. auto.
    + intros ->. lia.
  - split; [|split].
    + rewrite attempts_backoff. lia.
    + right. split; [reflexivity|]. exists e. reflexivity.
    + intros ->. rewrite (H0 eq_refl). split; reflexivity.
Qed.

Lemma withRetry_trace_shape_witness :
  fst (fst (GithubClient.withRetry always_429 0 1000 0%nat))
  = Throw (thrown_Error "Max retries exceeded" None).
Proof.
  exact (proj1 (proj2 (proj2 (withRetry_trace_shape always_429 0 1000 0%nat))
                      eq_refl)).
Defined.

(** ** A detected key is detected again *)

Section KeysAgain.
Import AutoLink KeySpec.

Lemma matchAll_from_short l : forall skip,
  (List.length l <= skip)%nat -> matchAll_from skip l = [].
Proof.
  induction l as [|c l IH]; intros skip H; [reflexivity|].
  destruct skip as [|k]; simpl in H; [lia|].
  cbn [matchAll_from]. apply IH. lia.
Qed.

Lemma matchAll_from_match c l m :
  regex_exec_at (c :: l) = Some m ->
  matchAll_from 0 (c :: l) = m :: matchAll_from (3 + List.length m) l.
Proof. intros E. cbn [matchAll_from]. rewrite E. reflexivity. Qed.

Lemma detected_key_rest text k :
  In k (detectTarefaKeys text) -> exists rest, key_rest rest /\ k = key_of rest.
Proof.
  rewrite detectTarefaKeys_fold. intros H.
  apply (proj2 (@fold_Set_add (matchAll text) [] (NoDup_nil _))) in H.
  destruct H as [[]|(rest & Hin & ->)].
  apply matchAll_matches in Hin.
  destruct Hin as (i & (pre & p & post & _ & _ & _ & Hr & _) & _).
  exists rest. auto.
Qed.

Lemma detectTarefaKeys_key_of rest :
  key_rest rest -> detectTarefaKeys (key_of rest) = [key_of rest].
Proof.
  intros Hr. unfold detectTarefaKeys, key_of.
  cbn [append Js.truthy String.eqb negb]. unfold matchAll.
  cbn [append list_ascii_of_string].
  rewrite list_ascii_of_string_of_list_ascii.
  assert (E : regex_exec_at ("T" :: "S" :: "K" :: "-" :: rest)%char = Some rest).
  { apply regex_exec_at_occurs. exists [], ["T"; "S"; "K"; hyphen]%char, [].
    split; [rewrite app_nil_r; reflexivity|]. split; [reflexivity|].
    split; [|split; [exact Hr|exact I]].
    exists "T"%char, "S"%char, "K"%char. split; [reflexivity|]. auto. }
  rewrite (@matchAll_from_match _ _ _ E).
  rewrite matchAll_from_short by (simpl; lia).
  reflexivity.
Qed.

End KeysAgain.

(** X1.  A key that [detectTarefaKeys] returns is a fixed point of the
    detector: scanned on its own, it gives exactly itself and nothing
    else. *)
Theorem detectTarefaKeys_fixes_its_keys :
  forall (text k : string),
    In k (AutoLink.detectTarefaKeys text) ->
    AutoLink.detectTarefaKeys k = [k].
Proof.
  intros text k H. destruct (detected_key_rest _ _ H) as (rest & Hr & ->).
  apply detectTarefaKeys_key_of. exact Hr.
Qed.

Lemma detectTarefaKeys_fixes_its_keys_witness :
  In "TSK-AB-7" (AutoLink.detectTarefaKeys "see tsk-AB-7, and TSK-12")
  /\ AutoLink.detectTarefaKeys "TSK-AB-7" = ["TSK-AB-7"].
Proof.
  assert (H : In "TSK-AB-7" (AutoLink.detectTarefaKeys "see tsk-AB-7, and TSK-12"))
    by (left; reflexivity).
  split; [exact H|].
  exact (detectTarefaKeys_fixes_its_keys _ _ H).
Defined.

(** ** What [processAutoLink] writes *)

Section Written.
Import Store AutoLink LinkSpec.
Variables (et : entity_type) (entityId : string) (md : metadata).

Lemma fold_link_step_appends tasks : forall links,
  exists linked,
    fold_left (link_step et entityId md) tasks links
    = (links ++ map (fun t => linkData t et entityId md) linked)%list
    /\ incl linked tasks.
Proof.
  induction tasks as [|t tasks IH]; intros links.
  - exists []. split; [symmetry; apply app_nil_r|intros x []].
  - cbn [fold_left]. unfold link_step at 2.
    destruct (data (maybeSingle (matching_rows md links t))).
    + destruct (IH links) as (linked & E & Hincl). exists linked.
      split; [exact E|]. intros x Hx. right. apply Hincl. exact Hx.
    + destruct (IH (links ++ [linkData t et entityId md])%list)
        as (linked & E & Hincl).
      exists (t :: linked). split.
      * rewrite E, <- app_assoc. reflexivity.
      * intros x [<-|Hx]; [left; reflexivity|right; apply Hincl; exact Hx].
Qed.

Lemma resolved_In keys projectId d t :
  In t (resolved keys projectId d) ->
  In t (tarefas d) /\ tarefa_project_id t = projectId /\ In (tarefa_key t) keys.
Proof.
  unfold resolved, select_tarefas.
  destruct (List.length keys =? 0)%nat; [intros []|].
  intros H. apply filter_In in H. destruct H as [Hin Hf].
  apply andb_true_iff in Hf. destruct Hf as [Hp Hk].
  apply String.eqb_eq in Hp. split; [exact Hin|]. split; [exact Hp|].
  apply existsb_exists in Hk. destruct Hk as (k & Hk & E).
  apply String.eqb_eq in E. rewrite E. exact Hk.
Qed.

Lemma createAutoLinks_appends keys projectId repoId d :
  exists linked,
    createAutoLinks keys projectId repoId et entityId md d
    = (Normal tt,
       with_tarefa_git_links d
         (tarefa_git_links d ++ map (fun t => linkData t et entityId md) linked),
       [])
    /\ forall t, In t linked ->
         In t (tarefas d) /\ tarefa_project_id t = projectId
         /\ In (tarefa_key t) keys.
Proof.
  rewrite createAutoLinks_fold.
  destruct (fold_link_step_appends (resolved keys projectId d) (tarefa_git_links d))
    as (linked & E & Hincl).
  exists linked. rewrite E. split; [reflexivity|].
  intros t Hin. apply (@resolved_In keys projectId d). apply Hincl. exact Hin.
Qed.

End Written.

(** [substring(0, n)] on a text of ASCII characters: its first [n]
    bytes. *)
Lemma substring0_ascii n : forall s,
  (forall c, In c (list_ascii_of_string s) -> (nat_of_ascii c < 128)%nat) ->
  Js.substring0 n s = String.substring 0 n s.
Proof.
  unfold Js.substring0.
  induction n as [|n IH]; intros [|c s] H; try reflexivity.
  cbn [Js.take_units String.substring].
  assert (Hc : (nat_of_ascii c < 128)%nat) by (apply H; left; reflexivity).
  unfold Js.utf8_bytes.
  replace (nat_of_ascii c <? 192)%nat with true
    by (symmetry; apply Nat.ltb_lt; lia).
  cbn [Nat.eqb Nat.sub]. f_equal. apply IH.
  intros c' Hc'. apply H. right. exact Hc'.
Qed.

(** X3.  [processAutoLink] only appends to [tarefa_git_links], and every
    row it appends links a task of the given project whose key
    [detectTarefaKeys] found in the text; the row is what [linkData]
    builds for that task, with provider github, the entity, and the first
    200 UTF-16 code units of the text as [detected_from].  Rows that were
    there stay as they are, and no other table changes. *)
Theorem processAutoLink_links_detected_tasks_of_the_project :
  forall (text : string) (projectId repoId : Store.uuid)
         (et : Store.entity_type) (entityId : string)
         (branchName commitSha : option string) (prNumber : option Z)
         (d : Store.DB),
    let md := {| AutoLink.branchName := branchName;
                 AutoLink.commitSha := commitSha;
                 AutoLink.prNumber := prNumber;
                 AutoLink.detectedFrom := Some (Js.substring0 200 text) |} in
    exists linked,
      AutoLink.processAutoLink text projectId repoId et entityId
                               branchName commitSha prNumber d
      = (Normal (AutoLink.detectTarefaKeys text),
         Store.with_tarefa_git_links d
           (Store.tarefa_git_links d
            ++ map (fun t => AutoLink.linkData t et entityId md) linked),
         [])
      /\ forall t, In t linked ->
           In t (Store.tarefas d)
           /\ Store.tarefa_project_id t = projectId
           /\ In (Store.tarefa_key t) (AutoLink.detectTarefaKeys text).
Proof.
  intros. unfold AutoLink.processAutoLink.
  destruct (AutoLink.detectTarefaKeys text) as [|k keys] eqn:E.
  - exists []. split; [|intros t []].
    cbn [map]. rewrite app_nil_r. destruct d; reflexivity.
  - cbn [List.length Nat.ltb Nat.leb]. unfold bind at 1.
    destruct (createAutoLinks_appends et entityId md (k :: keys) projectId repoId d)
      as (linked & Hrun & Hin).
    fold md. rewrite Hrun. exists linked. split; [reflexivity|exact Hin].
Qed.

(** ** [syncRepos] always comes back *)

Lemma try_catch_total {A} (m : M A) (h : thrown -> M A) d :
  (forall e d1, exists a d2 c2, h e d1 = (Normal a, d2, c2)) ->
  exists a d' c, try_catch m h d = (Normal a, d', c).
Proof.
  intros Hh. unfold try_catch. destruct (m d) as [[[a|e] d1] c1].
  - exists a, d1, c1. reflexivity.
  - destruct (Hh e d1) as (a & d2 & c2 & ->). eexists. eexists. eexists. reflexivity.
Qed.

Lemma syncRepos_total env o connectionId userId d :
  exists d' c, GitConnect.syncRepos env o connectionId userId d = (Normal tt, d', c).
Proof.
  unfold GitConnect.syncRepos.
  match goal with
  | |- context [try_catch ?m ?h] =>
      destruct (@try_catch_total _ m h d) as ([] & d' & c & ->)
  end.
  - intros e d1. unfold bind, GithubOauth.update_connection, Http.stmt, ret.
    destruct (Http.store_fails o _ _); eexists; eexists; eexists; reflexivity.
  - exists d', c. reflexivity.
Qed.

Lemma wp_syncRepos_any env o connectionId userId Q d :
  (forall d' c, Q (Normal tt) d' c) ->
  wp (GitConnect.syncRepos env o connectionId userId) Q d.
Proof.
  intros H. unfold wp.
  destruct (syncRepos_total env o connectionId userId d) as (d' & c & ->).
  apply H.
Qed.

Lemma wp_any {A} (m : M A) (Q : completion A -> Store.DB -> list outside_call -> Prop) d :
  (forall r d' c, Q r d' c) -> wp m Q d.
Proof. intros H. unfold wp. destruct (m d) as [[r d'] c]. apply H. Qed.

(** ** Who may change what *)

Lemma canConnectGit_admin userId projectId Q d :
  (forall allowed,
     (allowed = true -> AccessSpec.has_role d userId projectId Store.admin) ->
     Q (Normal allowed) d []) ->
  wp (Permissions.canConnectGit userId projectId) Q d.
Proof.
  intros H. unfold wp, Permissions.canConnectGit, bind.
  destruct (getProjectRole_role d userId projectId) as (r & -> & Hsome & _).
  unfold ret. apply H. intros E.
  destruct r as [[]|]; try discriminate. apply Hsome. reflexivity.
Qed.

Ltac admin_known :=
  match goal with
  | H : ?a = true -> AccessSpec.has_role _ _ _ _, Hb : negb ?a = false |- _ =>
      apply H; destruct a; [reflexivity|discriminate Hb]
  end.

Ltac wp_access :=
  repeat first [ apply canConnectGit_admin; intros ? ? | wp_step ].

(** X8.  [POST /start] of github-oauth calls nothing outside, and either
    leaves the store as it is, the answer then being an error or an
    exception and never a 200, or the caller is an admin of the project
    named in the body and exactly one state row was added: the token of
    [crypto.randomUUID()], for that project and that user, expiring five
    minutes after now. *)
Theorem handleOAuthStart_issues_states_to_admins_only :
  forall (env : Http.Env) (o : Http.Outside) (req : Http.Request)
         (userId : Store.uuid) (d : Store.DB),
    match GithubOauth.handleOAuthStart env o req userId d with
    | (r, d', calls) =>
        calls = []
        /\ ((d' = d /\ forall resp, r = Normal resp -> Http.status resp <> 200%Z)
            \/ exists fields projectId,
                 Http.payload req = Some fields
                 /\ Js.nonempty (Http.assoc "projectId" fields) = Some projectId
                 /\ AccessSpec.has_role d userId projectId Store.admin
                 /\ d' = Store.with_github_oauth_states d
                           (Store.github_oauth_states d
                            ++ [{| Store.st_state := Http.randomUUID o;
                                   Store.st_project_id := projectId;
                                   Store.st_user_id := userId;
                                   Store.st_expires_at :=
                                     (Http.now o + 5 * 60 * 1000)%Z |}]))
    end.
Proof.
  intros env o req userId d.
  refine (_ : wp (GithubOauth.handleOAuthStart env o req userId) _ d).
  unfold GithubOauth.handleOAuthStart.
  wp_access.
  all: split; [reflexivity|].
  all: first [ left; split; [reflexivity|]; intros resp E;
               first [ discriminate E
                     | injection E as <-; cbn; discriminate ]
             | right; eexists; eexists;
               split; [reflexivity|]; split; [eassumption|];
               split; [admin_known|reflexivity] ].
Qed.

(** X13.  [POST /connection/revoke] does something only for an admin:
    either the store is as it was, nothing was called outside and the
    answer is no 200, or the caller is an admin of the project named in
    the body. *)
Theorem handleRevokeConnection_is_for_admins :
  forall (env : Http.Env) (o : Http.Outside) (req : Http.Request)
         (userId : Store.uuid) (d : Store.DB),
    match GithubOauth.handleRevokeConnection env o req userId d with
    | (r, d', calls) =>
        (d' = d /\ calls = []
         /\ forall resp, r = Normal resp -> Http.status resp <> 200%Z)
        \/ exists fields projectId,
             Http.payload req = Some fields
             /\ Js.nonempty (Http.assoc "projectId" fields) = Some projectId
             /\ AccessSpec.has_role d userId projectId Store.admin
    end.
Proof.
  intros env o req userId d.
  refine (_ : wp (GithubOauth.handleRevokeConnection env o req userId) _ d).
  unfold GithubOauth.handleRevokeConnection.
  wp_access.
  all: first [ left; split; [reflexivity|]; split; [reflexivity|]; intros resp E;
               first [ discriminate E
                     | injection E as <-; cbn; discriminate ]
             | right; eexists; eexists;
               split; [reflexivity|]; split; [eassumption|admin_known] ].
Qed.

(** X22.  [DELETE /connections/:id] calls nothing outside, and either
    answers with a JSON error and leaves the store as it is, or the
    connection exists, the caller is an admin of its project,
    the answer is [{ success: true }] and the store differs in exactly
    this: the rows with that id have status revoked and the database's
    time of the update in [updated_at], and the audit log has gained the
    CONNECT event, or nothing when the insert into [audit_events]
    failed. *)
Theorem handleDeleteConnection_effect :
  forall (o : Http.Outside) (connectionId userId : Store.uuid) (d : Store.DB),
    match GitConnect.handleDeleteConnection o connectionId userId d with
    | (r, d', calls) =>
        calls = []
        /\ ((d' = d
             /\ exists st message,
                  r = Normal (Http.json_error st message) /\ st <> 200%Z)
            \/ exists c,
                 In c (Store.provider_connections d)
                 /\ Store.conn_id c = connectionId
                 /\ AccessSpec.has_role d userId (Store.conn_project_id c) Store.admin
                 /\ r = Normal (Http.json_response 200
                                  (Http.j_obj [("success", Http.j_bool true)]))
                 /\ d' = Store.with_audit_events
                           (Store.with_provider_connections d
                              (ConnectionSpec.with_rows_of_id connectionId
                                 (ConnectionSpec.revoked_at (Http.db_now o))
                                 (Store.provider_connections d)))
                           (Store.audit_events d
                            ++ ConnectionSpec.logged o
                                 {| Store.audit_actor_id :=
                                      if String.eqb userId "system"
                                      then "00000000-0000-0000-0000-000000000000"
                                      else userId;
                                    Store.audit_action := "CONNECT";
                                    Store.audit_entity_type := "provider_connection";
                                    Store.audit_entity_id := Some connectionId;
                                    Store.audit_before := Some [("status", "active")];
                                    Store.audit_after := Some [("status", "revoked")]
                                 |}))
    end.
Proof.
  intros o connectionId userId d.
  refine (_ : wp (GitConnect.handleDeleteConnection o connectionId userId) _ d).
  unfold GitConnect.handleDeleteConnection.
  wp_access.
  all: split; [reflexivity|].
  all: first [ left; split; [reflexivity|]; eexists; eexists;
               split; [reflexivity|discriminate]
             | right;
               match goal with
               | Hd : Store.data (Store.maybeSingle _) = Some ?c |- _ =>
                   exists c;
                   destruct (filter_singleton_In _ _ (maybeSingle_data _ Hd))
                     as [Hin Hid];
                   apply String.eqb_eq in Hid
               end;
               split; [assumption|]; split; [assumption|];
               split; [admin_known|]; split; [reflexivity|];
               unfold ConnectionSpec.logged;
               match goal with
               | H : Http.store_fails _ "audit_events" _ = _ |- _ => rewrite H
               end;
               rewrite ?app_nil_r; reflexivity ].
Qed.

(** X19.  [POST /start] of git-connect only reads: the store is as it
    was and nothing is called outside.  It answers 200 only to an admin
    of the project named in the body, and then with the installation URL
    of the GitHub App. *)
Theorem handleStartConnection_is_for_admins :
  forall (env : Http.Env) (req : Http.Request) (userId : Store.uuid)
         (d : Store.DB),
    match GitConnect.handleStartConnection env req userId d with
    | (r, d', calls) =>
        d' = d /\ calls = []
        /\ forall resp,
             r = Normal resp -> Http.status resp = 200%Z ->
             exists fields projectId,
               Http.payload req = Some fields
               /\ Js.nonempty (Http.assoc "projectId" fields) = Some projectId
               /\ AccessSpec.has_role d userId projectId Store.admin
               /\ resp = Http.json_response 200
                           (Http.j_obj
                              [("url", Http.j_str ("https://github.com/apps/"
                                                   ++ Http.GITHUB_APP_ID env
                                                   ++ "/installations/new"));
                               ("provider", Http.j_str "github");
                               ("type", Http.j_str "github_app")])
    end.
Proof.
  intros env req userId d.
  refine (_ : wp (GitConnect.handleStartConnection env req userId) _ d).
  unfold GitConnect.handleStartConnection.
  wp_access.
  all: split; [reflexivity|]; split; [reflexivity|]; intros resp E Hst.
  all: try discriminate E.
  all: injection E as <-.
  all: try discriminate Hst.
  all: eexists; eexists; split; [reflexivity|]; split; [eassumption|];
    split; [admin_known|reflexivity].
Qed.

(** X20.  [POST /callback] of git-connect does something only for an
    admin: either the store is as it was, nothing was called outside and
    the answer is no 200, or the caller is an admin of the project named
    in the body.  It throws only when the body is not JSON; whatever
    happens after the permission check, GitHub's failures and those of
    the first sync included, comes back as a response. *)
Theorem handleCallback_is_for_admins :
  forall (env : Http.Env) (o : Http.Outside) (req : Http.Request)
         (userId : Store.uuid) (d : Store.DB),
    match GitConnect.handleCallback env o req userId d with
    | (r, d', calls) =>
        ((d' = d /\ calls = []
          /\ forall resp, r = Normal resp -> Http.status resp <> 200%Z)
         \/ exists fields projectId,
              Http.payload req = Some fields
              /\ Js.nonempty (Http.assoc "projectId" fields) = Some projectId
              /\ AccessSpec.has_role d userId projectId Store.admin)
        /\ (forall e, r = Throw e -> Http.payload req = None)
    end.
Proof.
  intros env o req userId d.
  refine (_ : wp (GitConnect.handleCallback env o req userId) _ d).
  unfold GitConnect.handleCallback, GitConnect.getGitHubAppClient,
    GitConnect.getGitHubAppCredentials, GitConnect.octokit.
  repeat first [ apply canConnectGit_admin; intros ? ?
               | apply wp_syncRepos_any; intros ? ?
               | wp_step ].
  all: split; [|intros e E; first [discriminate E|reflexivity]].
  all: first [ left; split; [reflexivity|]; split; [reflexivity|]; intros resp E;
               first [ discriminate E
                     | injection E as <-; cbn; discriminate ]
             | right; eexists; eexists;
               split; [reflexivity|]; split; [eassumption|admin_known] ].
Qed.

(** X21.  [POST /sync] answers 400 without doing anything when neither
    [connectionId] nor [repoId] is given, and [{ success: true }] in
    every other case: whether the sync worked cannot be seen from the
    answer, and no exception leaves the handler. *)
Theorem handleSync_reports_success :
  forall (env : Http.Env) (o : Http.Outside) (req : Http.Request)
         (userId : Store.uuid) (d : Store.DB),
    match GitConnect.handleSync env o req userId d with
    | (r, d', calls) =>
        match Js.nonempty (Http.searchParams_get req "connectionId"),
              Js.nonempty (Http.searchParams_get req "repoId") with
        | None, None =>
            r = Normal (Http.json_error 400 "connectionId or repoId is required")
            /\ d' = d /\ calls = []
        | _, _ =>
            r = Normal (Http.json_response 200
                          (Http.j_obj [("success", Http.j_bool true)]))
        end
    end.
Proof.
  intros env o req userId d.
  refine (_ : wp (GitConnect.handleSync env o req userId) _ d).
  unfold GitConnect.handleSync, GitConnect.select_repo_by_id.
  destruct (Js.nonempty (Http.searchParams_get req "connectionId"));
    destruct (Js.nonempty (Http.searchParams_get req "repoId")).
  all: repeat first [ apply wp_syncRepos_any; intros ? ? | wp_step ].
  all: first [ reflexivity | split; [reflexivity|split; reflexivity] ].
Qed.

(** ** Links made by hand *)

(** X26.  [POST /] of git-links, whatever the upsert does with the
    row: nothing is called outside, and either the store is as it was and
    the answer is no 200, or the task of the body exists and the caller
    has a membership row in its project as admin, tech lead or
    developer. *)
Theorem handleCreateLink_is_for_writers :
  forall (upsert_link : Store.tarefa_git_link -> Store.DB ->
                        Store.result Store.tarefa_git_link * Store.DB)
         (o : Http.Outside) (body : option GitLinks.link_body)
         (userId : Store.uuid) (d : Store.DB),
    match GitLinks.handleCreateLink upsert_link o body userId d with
    | (r, d', calls) =>
        calls = []
        /\ ((d' = d /\ forall resp, r = Normal resp -> Http.status resp <> 200%Z)
            \/ exists b t role,
                 body = Some b
                 /\ In t (Store.tarefas d)
                 /\ Js.nonempty (GitLinks.body_tarefaId b) = Some (Store.tarefa_id t)
                 /\ AccessSpec.has_role d userId (Store.tarefa_project_id t) role
                 /\ (role = Store.admin \/ role = Store.tech_lead
                     \/ role = Store.developer))
    end.
Proof.
  intros upsert_link o body userId d.
  refine (_ : wp (GitLinks.handleCreateLink upsert_link o body userId) _ d).
  unfold GitLinks.handleCreateLink, GitLinks.select_tarefa, GitLinks.select_role,
    GitConnect.select_repo_by_id.
  wp_steps.
  all: split; [reflexivity|].
  all: first [ left; split; [reflexivity|]; intros resp E;
               first [ discriminate E
                     | injection E as <-; cbn; discriminate ]
             | right ].
  all: match goal with
       | Ht : Store.data (Store.maybeSingle _) = Some ?t,
         Hm : Store.data (Permissions.select_member _ _ _) = Some ?m |- _ =>
           eexists; exists t, (Store.member_role m);
           destruct (filter_singleton_In _ _ (maybeSingle_data _ Ht)) as [Hin Hid];
           apply String.eqb_eq in Hid;
           split; [reflexivity|]; split; [exact Hin|];
           split; [rewrite Hid; assumption|];
           split; [exact (select_member_In _ _ _ Hm)|];
           destruct (Store.member_role m);
           first [ left; reflexivity
                 | right; left; reflexivity
                 | right; right; reflexivity
                 | match goal with
                   | H : negb _ = false |- _ => discriminate H
                   | H : _ = true |- _ => discriminate H
                   end ]
       end.
Qed.

(** ** The edge function [github-oauth] as a whole *)

(** X17.  github-oauth answers every request: no exception leaves
    [serve], whatever the request, the store, GitHub and the failures of
    the store, and every response carries the CORS headers. *)
Theorem github_oauth_always_answers_with_cors :
  forall (env : Http.Env) (o : Http.Outside) (req : Http.Request) (d : Store.DB),
    exists resp d' calls,
      GithubOauth.serve env o req d = (Normal resp, d', calls)
      /\ exists more, Http.headers resp = (Http.corsHeaders ++ more)%list.
Proof.
  intros env o req d.
  assert (H : wp (GithubOauth.serve env o req)
                 (fun r _ _ =>
                    exists resp, r = Normal resp
                                 /\ exists more,
                                      Http.headers resp
                                      = (Http.corsHeaders ++ more)%list) d).
  { unfold GithubOauth.serve, GithubOauth.handleOAuthCallback,
      GithubOauth.handleOAuthStart, GithubOauth.handleGetConnection,
      GithubOauth.handleRevokeConnection, Permissions.canConnectGit,
      Permissions.getProjectRole.
    wp_steps.
    all: eexists; split; [reflexivity|].
    all: first [ exists []; reflexivity | eexists; reflexivity ]. }
  unfold wp in H. destruct (GithubOauth.serve env o req d) as [[r d'] calls].
  destruct H as (resp & -> & Hh). exists resp, d', calls. split; [reflexivity|exact Hh].
Qed.

(** X16.  Every request to github-oauth other than a preflight and the
    callback (a GET with [/callback] in its path) needs a user: without a
    bearer token that the auth service maps to a user id, the answer is
    401 [{ error: "Unauthorized" }], the store is not touched and nothing
    is called outside. *)
Theorem github_oauth_requires_a_user :
  forall (env : Http.Env) (o : Http.Outside) (req : Http.Request) (d : Store.DB),
    Http.method req <> "OPTIONS" ->
    (Http.method req = "GET" ->
     Js.includes "/callback" (Http.pathname req) = false) ->
    RouteSpec.unauthenticated o req ->
    GithubOauth.serve env o req d
    = (Normal (Http.json_error 401 "Unauthorized"), d, []).
Proof.
  intros env o req d Hopt Hcb Hanon.
  unfold GithubOauth.serve.
  apply String.eqb_neq in Hopt. rewrite Hopt.
  assert (Hget : String.eqb (Http.method req) "GET"
                 && Js.includes "/callback" (Http.pathname req) = false).
  { destruct (String.eqb (Http.method req) "GET") eqn:E; [|reflexivity].
    apply String.eqb_eq in E. rewrite (Hcb E). reflexivity. }
  rewrite Hget. unfold try_catch, Http.validateAuth, RouteSpec.unauthenticated in *.
  destruct (Http.authorization req) as [h|]; [|reflexivity].
  destruct Hanon as [Hp|[Hu|Hu]].
  - rewrite Hp. reflexivity.
  - rewrite Hu. destruct (String.prefix "Bearer " h); reflexivity.
  - rewrite Hu. destruct (String.prefix "Bearer " h); reflexivity.
Qed.

Lemma github_oauth_requires_a_user_witness :
  Http.method anonymous_start_request <> "OPTIONS"
  /\ RouteSpec.unauthenticated outside0 anonymous_start_request
  /\ GithubOauth.serve env0 outside0 anonymous_start_request connected_db
     = (Normal (Http.json_error 401 "Unauthorized"), connected_db, []).
Proof.
  assert (H1 : Http.method anonymous_start_request <> "OPTIONS") by discriminate.
  assert (H2 : RouteSpec.unauthenticated outside0 anonymous_start_request)
    by exact I.
  split; [exact H1|]. split; [exact H2|].
  apply (@github_oauth_requires_a_user env0 outside0 anonymous_start_request
           connected_db H1).
  - intros E. discriminate E.
  - exact H2.
Defined.

(** ** The path the routes are matched against *)

Lemma slice_length_app p : forall rest,
  Js.slice (String.length p) (p ++ rest) = rest.
Proof. induction p as [|c p IH]; intros rest; [destruct rest; reflexivity|apply IH]. Qed.

Lemma prefix_app p : forall rest, String.prefix p (p ++ rest) = true.
Proof.
  induction p as [|c p IH]; intros rest; [destruct rest; reflexivity|].
  simpl. rewrite Ascii.eqb_refl || destruct (ascii_dec c c); auto.
Qed.

Lemma strip_slashes_no_slash s : String.prefix "/" (Js.strip_slashes s) = false.
Proof.
  induction s as [|c s IH]; [reflexivity|].
  cbn [Js.strip_slashes].
  destruct c as [[] [] [] [] [] [] [] []]; try exact IH; reflexivity.
Qed.

Lemma strip_slashes_other c s :
  c <> "/"%char -> Js.strip_slashes (String c s) = String c s.
Proof.
  intros H. destruct c as [[] [] [] [] [] [] [] []]; try reflexivity.
  exfalso. apply H. reflexivity.
Qed.

Lemma prefix_slash_other c s :
  c <> "/"%char -> String.prefix "/" (String c s) = false.
Proof.
  intros H. cbn [String.prefix]. destruct (ascii_dec "/" c); [congruence|reflexivity].
Qed.

Lemma eqb_slash_other c s :
  c <> "/"%char -> String.eqb (String c s) "/" = false.
Proof.
  intros H. cbn [String.eqb]. apply Ascii.eqb_neq in H. rewrite H. reflexivity.
Qed.

Lemma prefix_slash_same x : String.prefix "/" (String "/" x) = true.
Proof. destruct x; reflexivity. Qed.

Lemma prefix_slashes x :
  String.prefix "//" (String "/" x) = String.prefix "/" x.
Proof. reflexivity. Qed.

Lemma route_of_slash rest :
  String.prefix "/" (RouteSpec.route_of rest) = true
  /\ String.prefix "//" (RouteSpec.route_of rest) = false.
Proof.
  unfold RouteSpec.route_of, GithubOauth.normalize_path.
  cbn [GithubOauth.strip_prefix].
  destruct rest as [|c s]; [split; reflexivity|].
  destruct (ascii_dec c "/") as [->|Hne].
  - destruct s as [|c' s']; [split; reflexivity|].
    change (String.eqb (String "/" (String c' s')) "") with false.
    change (String.eqb (String "/" (String c' s')) "/") with false.
    change (String.prefix "/" (String "/" (String c' s'))) with true.
    cbn [orb negb].
    change (String.eqb (String "/" (String c' s')) "/") with false.
    cbn [Js.collapse_leading_slashes].
    rewrite prefix_slash_same, prefix_slashes. split; [reflexivity|].
    apply strip_slashes_no_slash.
  - change (String.eqb (String c s) "") with false.
    rewrite (eqb_slash_other s Hne), (prefix_slash_other s Hne).
    cbn [orb negb append].
    change (String.eqb (String "/" (String c s)) "/") with false.
    cbn [Js.collapse_leading_slashes].
    rewrite (strip_slashes_other s Hne).
    rewrite prefix_slash_same, prefix_slashes. split; [reflexivity|].
    apply prefix_slash_other. exact Hne.
Qed.

(** X18.  The path github-oauth routes on does not depend on how the
    function is mounted: with the prefix [/functions/v1/github-oauth] or
    [/github-oauth] it is the path of the rest alone, and it always
    starts with exactly one slash. *)
Theorem normalize_path_ignores_the_function_prefix :
  forall (rest : string),
    let prefixes := ["/functions/v1/github-oauth"; "/github-oauth"] in
    GithubOauth.normalize_path prefixes ("/functions/v1/github-oauth" ++ rest)
    = RouteSpec.route_of rest
    /\ GithubOauth.normalize_path prefixes ("/github-oauth" ++ rest)
       = RouteSpec.route_of rest
    /\ String.prefix "/" (RouteSpec.route_of rest) = true
    /\ String.prefix "//" (RouteSpec.route_of rest) = false.
Proof.
  intros rest prefixes.
  split; [|split; [|apply route_of_slash]].
  - unfold RouteSpec.route_of, GithubOauth.normalize_path, prefixes.
    cbn [GithubOauth.strip_prefix].
    rewrite (prefix_app "/functions/v1/github-oauth" rest).
    rewrite (slice_length_app "/functions/v1/github-oauth" rest). reflexivity.
  - unfold RouteSpec.route_of, GithubOauth.normalize_path, prefixes.
    cbn [GithubOauth.strip_prefix].
    assert (E : String.prefix "/functions/v1/github-oauth" ("/github-oauth" ++ rest)
                = false) by reflexivity.
    rewrite E, (prefix_app "/github-oauth" rest).
    rewrite (slice_length_app "/github-oauth" rest). reflexivity.
Qed.

(** ** What a successful callback leaves in the store *)

Lemma In_update_rows p change rows :
  In p rows ->
  In (change p) (GithubOauth.update_rows (Store.conn_id p) change rows).
Proof.
  intros H. unfold GithubOauth.update_rows. apply in_map_iff. exists p.
  rewrite String.eqb_refl. auto.
Qed.

Lemma handleOAuthCallback_connection env o req d code state s token user uid :
  HandshakeSpec.configured env ->
  HandshakeSpec.carries req code state ->
  HandshakeSpec.live_state d (Http.now o) state s ->
  PersistSpec.github_answers o code token user uid ->
  PersistSpec.store_answers o ->
  PersistSpec.connections_keyed d ->
  wp (GithubOauth.handleOAuthCallback env o req)
     (fun r d' _ =>
        ConnectionSpec.connected_with d' (Store.st_project_id s) token uid) d.
Proof.
  intros (C1 & C2 & C3) (Hc & Hs) Hlive
         (tr & td & ur & T1 & T2 & T3 & T4 & U1 & U2 & U3 & U4) Hstore Hkey.
  unfold HandshakeSpec.live_state in Hlive.
  pose proof (Hstore "github_oauth_states" Http.v_select) as S1.
  pose proof (Hstore "github_oauth_states" Http.v_delete) as S2.
  pose proof (Hstore "provider_connections" Http.v_select) as S3.
  pose proof (Hstore "provider_connections" Http.v_update) as S4.
  pose proof (Hstore "provider_connections" Http.v_insert) as S5.
  pose proof (Hstore "audit_events" Http.v_insert) as S6.
  unfold GithubOauth.handleOAuthCallback.
  wp_steps_using.
  all: try match goal with
       | Hd : Store.data (Store.maybeSingle _) = Some ?p,
         He : context [GithubOauth.update_rows (Store.conn_id ?p) ?ch _] |- _ =>
           rewrite (update_rows_single _ ch Hkey
                      (proj1 (filter_singleton_In _ _ (maybeSingle_data _ Hd)))
                      (fun c => eq_refl)) in He;
           simpl in He
       end.
  all: try discriminate.
  - destruct (filter_singleton_In _ _ (maybeSingle_data _ Heqo1)) as [Hin Hf].
    apply andb_true_iff in Hf. destruct Hf as [Hp Hg].
    apply String.eqb_eq in Hp, Hg.
    unfold ConnectionSpec.connected_with. store_simpl.
    match goal with
    | |- exists c, In c (GithubOauth.update_rows (Store.conn_id ?p) ?ch ?rows) /\ _ =>
        exists (ch p); split; [exact (@In_update_rows p ch rows Hin)|]
    end.
    cbn [GithubOauth.reconnect Migrations.update_updated_at_column
         Store.conn_project_id Store.conn_provider
         Store.conn_status Store.conn_access_token_encrypted
         Store.conn_github_user_id].
    repeat split; assumption.
  - eexists. split; [store_simpl; apply in_or_app; right; left; reflexivity|].
    repeat split.
Qed.

Lemma serve_connection env o req d code state s token user uid :
  Http.method req = "GET" ->
  HandshakeSpec.configured env ->
  HandshakeSpec.carries req code state ->
  HandshakeSpec.live_state d (Http.now o) state s ->
  PersistSpec.github_answers o code token user uid ->
  PersistSpec.store_answers o ->
  PersistSpec.connections_keyed d ->
  wp (GithubOauthCallback.serve env o req)
     (fun r d' _ =>
        ConnectionSpec.connected_with d' (Store.st_project_id s) token uid) d.
Proof.
  intros Hm (C1 & C2 & C3) (Hc & Hs) Hlive
         (tr & td & ur & T1 & T2 & T3 & T4 & U1 & U2 & U3 & U4) Hstore Hkey.
  unfold HandshakeSpec.live_state in Hlive.
  pose proof (Hstore "github_oauth_states" Http.v_select) as S1.
  pose proof (Hstore "github_oauth_states" Http.v_delete) as S2.
  pose proof (Hstore "provider_connections" Http.v_select) as S3.
  pose proof (Hstore "provider_connections" Http.v_update) as S4.
  pose proof (Hstore "provider_connections" Http.v_insert) as S5.
  pose proof (Hstore "audit_events" Http.v_insert) as S6.
  unfold GithubOauthCallback.serve. rewrite Hm.
  cbn [String.eqb Ascii.eqb Bool.eqb negb].
  wp_steps_using.
  all: try match goal with
       | Hd : Store.data (Store.maybeSingle _) = Some ?p,
         He : context [GithubOauth.update_rows (Store.conn_id ?p) ?ch _] |- _ =>
           rewrite (update_rows_single _ ch Hkey
                      (proj1 (filter_singleton_In _ _ (maybeSingle_data _ Hd)))
                      (fun c => eq_refl)) in He;
           simpl in He
       end.
  all: try discriminate.
  - destruct (filter_singleton_In _ _ (maybeSingle_data _ Heqo1)) as [Hin Hf].
    apply andb_true_iff in Hf. destruct Hf as [Hp Hg].
    apply String.eqb_eq in Hp, Hg.
    unfold ConnectionSpec.connected_with. store_simpl.
    match goal with
    | |- exists c, In c (GithubOauth.update_rows (Store.conn_id ?p) ?ch ?rows) /\ _ =>
        exists (ch p); split; [exact (@In_update_rows p ch rows Hin)|]
    end.
    cbn [GithubOauth.reconnect Migrations.update_updated_at_column
         Store.conn_project_id Store.conn_provider
         Store.conn_status Store.conn_access_token_encrypted
         Store.conn_github_user_id].
    repeat split; assumption.
  - eexists. split; [store_simpl; apply in_or_app; right; left; reflexivity|].
    repeat split.
Qed.

(** X10.  After a callback whose state is valid, when GitHub answers
    both calls and the store executes every statement, the project of the
    state has a connection with provider github and status active that
    holds the access token received and the id of the GitHub account, be
    it a row that was updated or a new one; for [handleOAuthCallback] of
    github-oauth and for github-oauth-callback. *)
Theorem callback_persists_the_connection :
  forall env o req d code state s token user uid,
    HandshakeSpec.configured env ->
    HandshakeSpec.carries req code state ->
    HandshakeSpec.live_state d (Http.now o) state s ->
    PersistSpec.github_answers o code token user uid ->
    PersistSpec.store_answers o ->
    PersistSpec.connections_keyed d ->
    (match GithubOauth.handleOAuthCallback env o req d with
     | (_, d', _) =>
         ConnectionSpec.connected_with d' (Store.st_project_id s) token uid
     end)
    /\ (Http.method req = "GET" ->
        match GithubOauthCallback.serve env o req d with
        | (_, d', _) =>
            ConnectionSpec.connected_with d' (Store.st_project_id s) token uid
        end).
Proof.
  intros env o req d code state s token user uid Hcfg Hreq Hlive Hgh Hst Hkey.
  split.
  - exact (@handleOAuthCallback_connection env o req d code state s token user
             uid Hcfg Hreq Hlive Hgh Hst Hkey).
  - intros Hm.
    exact (@serve_connection env o req d code state s token user uid
             Hm Hcfg Hreq Hlive Hgh Hst Hkey).
Qed.

Lemma callback_persists_the_connection_witness :
  HandshakeSpec.configured env0
  /\ HandshakeSpec.carries callback_request "code-1" "state-1"
  /\ HandshakeSpec.live_state pending_db (Http.now outside0) "state-1" state_1
  /\ ConnectionSpec.connected_with
       (snd (fst (GithubOauth.handleOAuthCallback env0 outside0 callback_request
                    pending_db)))
       "proj-1" "gho_token" 583231.
Proof.
  assert (Hcfg : HandshakeSpec.configured env0) by (repeat split).
  assert (Hreq : HandshakeSpec.carries callback_request "code-1" "state-1")
    by (split; reflexivity).
  assert (Hlive : HandshakeSpec.live_state pending_db (Http.now outside0)
                                           "state-1" state_1) by reflexivity.
  split; [exact Hcfg|]. split; [exact Hreq|]. split; [exact Hlive|].
  refine (proj1 (@callback_persists_the_connection env0 outside0 callback_request
                   pending_db "code-1" "state-1" state_1 "gho_token"
                   {| Http.gh_id := Some 583231%Z;
                      Http.gh_login := Some "octocat" |} 583231%Z
                   Hcfg Hreq Hlive _ _ _)).
  - exists token_granted. eexists. eexists. repeat split.
  - intros table v. reflexivity.
  - intros id. cbn [pending_db connected_db Store.provider_connections
                    Store.with_github_oauth_states filter].
    destruct (String.eqb _ id); simpl; lia.
Defined.


(** ** From [POST /start] to the callback *)

Lemma canConnectGit_of_admin d userId projectId :
  ReviewSpec.members_keyed d ->
  AccessSpec.has_role d userId projectId Store.admin ->
  Permissions.canConnectGit userId projectId d = (Normal true, d, []).
Proof.
  intros Hkey Hr. unfold Permissions.canConnectGit, bind.
  destruct (getProjectRole_role d userId projectId) as (r & -> & _ & Hk & _).
  rewrite (Hk Hkey _ Hr). reflexivity.
Qed.

Lemma handleOAuthStart_admin env o req userId d fields projectId :
  HandshakeSpec.configured env ->
  Http.payload req = Some fields ->
  Js.nonempty (Http.assoc "projectId" fields) = Some projectId ->
  ReviewSpec.members_keyed d ->
  AccessSpec.has_role d userId projectId Store.admin ->
  Http.store_fails o "github_oauth_states" Http.v_insert = None ->
  exists url,
    GithubOauth.handleOAuthStart env o req userId d
    = (Normal (Http.json_response 200
                 (Http.j_obj [("authorizeUrl", Http.j_str url);
                              ("state", Http.j_str (Http.randomUUID o))])),
       Store.with_github_oauth_states d
         (Store.github_oauth_states d
          ++ [{| Store.st_state := Http.randomUUID o;
                 Store.st_project_id := projectId;
                 Store.st_user_id := userId;
                 Store.st_expires_at := (Http.now o + 5 * 60 * 1000)%Z |}]),
       []).
Proof.
  intros (C1 & _ & C3) Hp Hid Hkey Hadmin Hins.
  unfold GithubOauth.handleOAuthStart, Http.req_json. rewrite Hp.
  unfold bind at 1. unfold ret at 1. rewrite Hid.
  unfold bind at 1. rewrite (canConnectGit_of_admin Hkey Hadmin).
  cbn [negb]. unfold bind at 1, GithubOauth.insert_state, Http.stmt.
  rewrite Hins. cbn [Store.error Store.empty]. rewrite C1, C3. cbn [negb orb].
  eexists. reflexivity.
Qed.

(** X9.  From [POST /start] to the callback: when an admin starts the
    handshake and the callback comes back with the state of the answer
    less than five minutes later, with a code that GitHub exchanges, the
    callback redirects to the project with [connected=true], the project
    has an active connection holding the token GitHub granted, and the
    state is gone from the store.  Here the store answers every
    statement, membership rows and connections are keyed, and the state
    value was not in the store before. *)
Theorem issued_state_is_accepted_in_time :
  forall env o1 o2 start callback userId d fields projectId code token user uid,
    HandshakeSpec.configured env ->
    Http.payload start = Some fields ->
    Js.nonempty (Http.assoc "projectId" fields) = Some projectId ->
    ReviewSpec.members_keyed d ->
    AccessSpec.has_role d userId projectId Store.admin ->
    PersistSpec.store_answers o1 ->
    HandshakeSpec.state_absent d (Http.randomUUID o1) ->
    HandshakeSpec.carries callback code (Http.randomUUID o1) ->
    (Http.now o2 < Http.now o1 + 5 * 60 * 1000)%Z ->
    PersistSpec.github_answers o2 code token user uid ->
    PersistSpec.store_answers o2 ->
    PersistSpec.connections_keyed d ->
    match GithubOauth.handleOAuthStart env o1 start userId d with
    | (r1, d1, _) =>
        (exists url,
           r1 = Normal (Http.json_response 200
                          (Http.j_obj [("authorizeUrl", Http.j_str url);
                                       ("state",
                                        Http.j_str (Http.randomUUID o1))])))
        /\ match GithubOauth.handleOAuthCallback env o2 callback d1 with
           | (r2, d2, _) =>
               r2 = Normal (HandshakeSpec.connected_redirect env projectId)
               /\ ConnectionSpec.connected_with d2 projectId token uid
               /\ HandshakeSpec.state_absent d2 (Http.randomUUID o1)
           end
    end.
Proof.
  intros env o1 o2 start callback userId d fields projectId code token user uid
         Hcfg Hp Hid Hmk Hadmin Hst1 Habs Hreq Hnow Hgh Hst2 Hck.
  destruct (@handleOAuthStart_admin env o1 start userId d fields projectId
              Hcfg Hp Hid Hmk Hadmin (Hst1 _ _)) as (url & ->).
  split; [exists url; reflexivity|].
  set (row := {| Store.st_state := Http.randomUUID o1;
                 Store.st_project_id := projectId;
                 Store.st_user_id := userId;
                 Store.st_expires_at := (Http.now o1 + 5 * 60 * 1000)%Z |}).
  set (d1 := Store.with_github_oauth_states d (Store.github_oauth_states d ++ [row])).
  assert (Hlive : HandshakeSpec.live_state d1 (Http.now o2) (Http.randomUUID o1) row).
  { unfold HandshakeSpec.live_state, d1. store_simpl. rewrite filter_app.
    rewrite (no_live_state_filter (state_absent_no_live_state (Http.now o2) Habs)).
    cbn [filter row Store.st_state Store.st_expires_at app].
    rewrite String.eqb_refl. apply Z.ltb_lt in Hnow. rewrite Hnow. reflexivity. }
  assert (Hck1 : PersistSpec.connections_keyed d1) by exact Hck.
  pose proof (@handleOAuthCallback_success env o2 callback d1 code
                (Http.randomUUID o1) row token user uid
                Hcfg Hreq Hlive Hgh Hst2 Hck1) as H1.
  pose proof (@handleOAuthCallback_connection env o2 callback d1 code
                (Http.randomUUID o1) row token user uid
                Hcfg Hreq Hlive Hgh Hst2 Hck1) as H2.
  unfold wp in H1, H2.
  destruct (GithubOauth.handleOAuthCallback env o2 callback d1) as [[r2 d2] calls].
  destruct H1 as [Hr Hab]. split; [exact Hr|]. split; [exact H2|exact Hab].
Qed.

Lemma connected_db_members_keyed : ReviewSpec.members_keyed connected_db.
Proof.
  intros u p. cbn [connected_db Store.project_members filter].
  destruct (_ && _); simpl; lia.
Qed.

Lemma connected_db_connections_keyed : PersistSpec.connections_keyed connected_db.
Proof.
  intros id. cbn [connected_db Store.provider_connections filter].
  destruct (String.eqb _ id); simpl; lia.
Qed.

Lemma issued_state_is_accepted_in_time_witness :
  AccessSpec.has_role connected_db "alice" "proj-1" Store.admin
  /\ HandshakeSpec.carries callback_request_2 "code-1" (Http.randomUUID outside0)
  /\ (Http.now outside_minute_later < Http.now outside0 + 5 * 60 * 1000)%Z
  /\ match GithubOauth.handleOAuthStart env0 outside0 start_request "alice"
                                        connected_db with
     | (r1, d1, _) =>
         (exists url,
            r1 = Normal (Http.json_response 200
                           (Http.j_obj [("authorizeUrl", Http.j_str url);
                                        ("state",
                                         Http.j_str (Http.randomUUID outside0))])))
         /\ match GithubOauth.handleOAuthCallback env0 outside_minute_later
                                                  callback_request_2 d1 with
            | (r2, d2, _) =>
                r2 = Normal (HandshakeSpec.connected_redirect env0 "proj-1")
                /\ ConnectionSpec.connected_with d2 "proj-1" "gho_token" 583231
                /\ HandshakeSpec.state_absent d2 (Http.randomUUID outside0)
            end
     end.
Proof.
  assert (Hadmin : AccessSpec.has_role connected_db "alice" "proj-1" Store.admin).
  { eexists. split; [left; reflexivity|]. repeat split. }
  assert (Hreq : HandshakeSpec.carries callback_request_2 "code-1"
                   (Http.randomUUID outside0)) by (split; reflexivity).
  assert (Hnow : (Http.now outside_minute_later
                  < Http.now outside0 + 5 * 60 * 1000)%Z) by reflexivity.
  split; [exact Hadmin|]. split; [exact Hreq|]. split; [exact Hnow|].
  refine (@issued_state_is_accepted_in_time env0 outside0 outside_minute_later
            start_request callback_request_2 "alice" connected_db
            [("projectId", "proj-1")] "proj-1" "code-1" "gho_token"
            {| Http.gh_id := Some 583231%Z; Http.gh_login := Some "octocat" |}
            583231%Z _ eq_refl eq_refl connected_db_members_keyed Hadmin _ _
            Hreq Hnow _ _ connected_db_connections_keyed).
  - repeat split.
  - intros table v. reflexivity.
  - intros s [].
  - exists token_granted. eexists. eexists. repeat split.
  - intros table v. reflexivity.
Defined.

(** ** One connection per project, through the OAuth callbacks *)

(** X11.  Neither OAuth callback adds a second GitHub connection to a
    project: when the lookup of the connection does not fail, every
    project that had one GitHub connection at most before the request has
    one at most after it, whatever the request and whatever GitHub
    answers. *)
Theorem oauth_callbacks_keep_one_connection :
  forall (env : Http.Env) (o : Http.Outside) (req : Http.Request) (d : Store.DB),
    Http.store_fails o "provider_connections" Http.v_select = None ->
    (match GithubOauth.handleOAuthCallback env o req d with
     | (_, d', _) =>
         forall projectId,
           (List.length (github_connections d projectId) <= 1)%nat ->
           (List.length (github_connections d' projectId) <= 1)%nat
     end)
    /\ match GithubOauthCallback.serve env o req d with
       | (_, d', _) =>
           forall projectId,
             (List.length (github_connections d projectId) <= 1)%nat ->
             (List.length (github_connections d' projectId) <= 1)%nat
       end.
Proof.
  intros env o req d Hsel. split.
  - exact (@handleOAuthCallback_keeps_one_connection env o req d Hsel).
  - exact (@serve_keeps_one_connection env o req d Hsel).
Qed.

Lemma oauth_callbacks_keep_one_connection_witness :
  Http.store_fails outside0 "provider_connections" Http.v_select = None
  /\ (List.length
        (github_connections
           (snd (fst (GithubOauth.handleOAuthCallback env0 outside0
                        callback_request pending_db))) "proj-1") <= 1)%nat.
Proof.
  split; [reflexivity|].
  refine (proj1 (@oauth_callbacks_keep_one_connection env0 outside0
                   callback_request pending_db eq_refl) "proj-1" _).
  cbn. lia.
Defined.

(** ** Revocation through [github-oauth], and what is read afterwards *)

Lemma selected_repos_unselected id rows :
  filter (fun r => Store.col_eq String.eqb (Store.repo_connection_id r) id
                   && Store.repo_selected r)
         (map (fun r =>
                 if Store.col_eq String.eqb (Store.repo_connection_id r) id
                 then {| Store.repo_id := Store.repo_id r;
                         Store.repo_connection_id := Store.repo_connection_id r;
                         Store.repo_provider_repo_id := Store.repo_provider_repo_id r;
                         Store.repo_full_name := Store.repo_full_name r;
                         Store.repo_default_branch := Store.repo_default_branch r;
                         Store.repo_visibility := Store.repo_visibility r;
                         Store.repo_description := Store.repo_description r;
                         Store.repo_url := Store.repo_url r;
                         Store.repo_sync_status := Store.repo_sync_status r;
                         Store.repo_last_synced_at := Store.repo_last_synced_at r;
                         Store.repo_selected := false;
                         Store.repo_project_id := Store.repo_project_id r |}
                 else r) rows) = [].
Proof.
  apply filter_none. intros r Hin. apply in_map_iff in Hin.
  destruct Hin as (r0 & <- & _).
  destruct (Store.col_eq String.eqb (Store.repo_connection_id r0) id) eqn:E;
    cbn [Store.repo_connection_id Store.repo_selected];
    rewrite ?E; [apply andb_false_r|reflexivity].
Qed.

Lemma github_rows_revoked rows id projectId c
    (ch : Store.provider_connection -> Store.provider_connection) :
  (forall x, Store.conn_project_id (ch x) = Store.conn_project_id x) ->
  (forall x, Store.conn_provider (ch x) = Store.conn_provider x) ->
  filter (fun c => String.eqb (Store.conn_project_id c) projectId
                   && String.eqb (Store.conn_provider c) "github") rows = [c] ->
  Store.conn_id c = id ->
  filter (fun c => String.eqb (Store.conn_project_id c) projectId
                   && String.eqb (Store.conn_provider c) "github")
         (GithubOauth.update_rows id ch rows)
  = [ch c].
Proof.
  intros Hproj Hprov H Hid. unfold GithubOauth.update_rows.
  revert H. induction rows as [|x rows IH]; [discriminate|].
  cbn [filter map].
  destruct (String.eqb (Store.conn_project_id x) projectId
            && String.eqb (Store.conn_provider x) "github") eqn:E.
  - intros H. injection H as -> Hrest.
    rewrite Hid, String.eqb_refl.
    rewrite Hproj, Hprov, E. f_equal.
    clear IH E. induction rows as [|y rows IH]; [reflexivity|].
    cbn [filter map] in *.
    assert (Ey : (String.eqb
                    (Store.conn_project_id
                       (if String.eqb (Store.conn_id y) id
                        then ch y else y)) projectId
                  && String.eqb
                       (Store.conn_provider
                          (if String.eqb (Store.conn_id y) id
                           then ch y else y)) "github")
                 = (String.eqb (Store.conn_project_id y) projectId
                    && String.eqb (Store.conn_provider y) "github")).
    { destruct (String.eqb (Store.conn_id y) id);
        rewrite ?Hproj, ?Hprov; reflexivity. }
    rewrite Ey.
    destruct (String.eqb (Store.conn_project_id y) projectId
              && String.eqb (Store.conn_provider y) "github");
      [discriminate Hrest|]. apply IH. exact Hrest.
  - intros H.
    assert (Ex : (String.eqb
                    (Store.conn_project_id
                       (if String.eqb (Store.conn_id x) id
                        then ch x else x)) projectId
                  && String.eqb
                       (Store.conn_provider
                          (if String.eqb (Store.conn_id x) id
                           then ch x else x)) "github")
                 = false).
    { destruct (String.eqb (Store.conn_id x) id);
        rewrite ?Hproj, ?Hprov; exact E. }
    rewrite Ex. apply IH. exact H.
Qed.

(** X14.  When [POST /connection/revoke] answers [{ ok: true }], the
    project had exactly one GitHub connection, that connection is now the
    same row with status revoked and the database's time of the update in
    [updated_at], and no repository of that connection is selected any
    more, also when GitHub could not be told; provided the update of
    [repos] does not fail. *)
Theorem handleRevokeConnection_revokes_and_unselects :
  forall (env : Http.Env) (o : Http.Outside) (req : Http.Request)
         (userId : Store.uuid) (d : Store.DB),
    Http.store_fails o "repos" Http.v_update = None ->
    match GithubOauth.handleRevokeConnection env o req userId d with
    | (r, d', _) =>
        r = Normal (Http.json_response 200 (Http.j_obj [("ok", Http.j_bool true)])) ->
        exists fields projectId c,
          Http.payload req = Some fields
          /\ Js.nonempty (Http.assoc "projectId" fields) = Some projectId
          /\ github_connections d projectId = [c]
          /\ github_connections d' projectId
             = [ConnectionSpec.revoked_at (Http.db_now o) c]
          /\ selected_repos d' (Store.conn_id c) = []
    end.
Proof.
  intros env o req userId d Hrepos.
  refine (_ : wp (GithubOauth.handleRevokeConnection env o req userId) _ d).
  unfold GithubOauth.handleRevokeConnection, Permissions.canConnectGit,
    Permissions.getProjectRole.
  wp_steps.
  all: try (intros H; discriminate H).
  all: try congruence.
  all: intros _;
    match goal with
    | Hd : Store.data (Store.maybeSingle _) = Some ?c |- _ =>
        eexists; eexists; exists c;
        pose proof (maybeSingle_data _ Hd) as Hone
    end;
    split; [reflexivity|]; split; [eassumption|];
    split; [exact Hone|];
    split; [unfold github_connections; store_simpl;
            exact (@github_rows_revoked _ _ _ _
                     (fun c => Migrations.update_updated_at_column o
                                 (GithubOauth.set_revoked c))
                     (fun _ => eq_refl) (fun _ => eq_refl) Hone eq_refl)|];
    unfold selected_repos; store_simpl; apply selected_repos_unselected.
Qed.

Lemma handleRevokeConnection_revokes_and_unselects_witness :
  Http.store_fails outside0 "repos" Http.v_update = None
  /\ exists c,
       github_connections connected_db "proj-1" = [c]
       /\ github_connections
            (snd (fst (GithubOauth.handleRevokeConnection env0 outside0
                         revoke_request "alice" connected_db))) "proj-1"
          = [ConnectionSpec.revoked_at (Http.db_now outside0) c]
       /\ selected_repos
            (snd (fst (GithubOauth.handleRevokeConnection env0 outside0
                         revoke_request "alice" connected_db)))
            (Store.conn_id c) = [].
Proof.
  split; [reflexivity|].
  destruct (@handleRevokeConnection_revokes_and_unselects env0 outside0
              revoke_request "alice" connected_db eq_refl eq_refl)
    as (fields & projectId & c & Hp & Hid & Hc & Hc' & Hsel).
  injection Hp as <-. injection Hid as <-.
  exists c. split; [exact Hc|]. split; [exact Hc'|exact Hsel].
Defined.

(** X12.  [GET /connection] never writes to the store, calls nothing
    outside and never throws; it answers 200 only to a caller with a
    membership row in the project of the query. *)
Theorem handleGetConnection_is_for_members :
  forall (o : Http.Outside) (req : Http.Request) (userId : Store.uuid)
         (d : Store.DB),
    match GithubOauth.handleGetConnection o req userId d with
    | (r, d', calls) =>
        d' = d /\ calls = []
        /\ exists resp,
             r = Normal resp
             /\ (Http.status resp = 200%Z ->
                 exists projectId,
                   Js.nonempty (Http.searchParams_get req "projectId")
                   = Some projectId
                   /\ ReviewSpec.holds_role d userId projectId)
    end.
Proof.
  intros o req userId d.
  refine (_ : wp (GithubOauth.handleGetConnection o req userId) _ d).
  unfold GithubOauth.handleGetConnection.
  wp_steps.
  all: split; [reflexivity|]; split; [reflexivity|].
  all: eexists; split; [reflexivity|]; intros Hst; try discriminate Hst.
  all: eexists; split; [reflexivity|].
  all: match goal with
       | Hm : Store.data (Permissions.select_member _ _ _) = Some ?m |- _ =>
           destruct (select_member_In _ _ _ Hm) as (m' & Hin & Hu & Hp & _);
           exists m'; auto
       end.
Qed.



(** ** Loops *)

Lemma wp_for_each {A} (I : Store.DB -> Prop) (l : list A) (body : A -> M unit) :
  (forall x d0, In x l -> I d0 -> wp (body x) (fun _ d' _ => I d') d0) ->
  forall d, I d -> wp (for_each l body) (fun _ d' _ => I d') d.
Proof.
  induction l as [|x l IH]; intros Hbody d Hd.
  - exact Hd.
  - cbn [for_each]. apply wp_bind.
    eapply wp_conseq; [|apply (Hbody x d (or_introl eq_refl) Hd)].
    cbv beta. intros [[]|e] d1 c1 H1; [|exact H1].
    apply IH; [|exact H1]. intros y d0 Hy. apply Hbody. right. exact Hy.
Qed.

(** ** Upserts on a list of rows *)

Section Upsert.
Variable A : Type.
Variables (key : A -> bool) (w : A -> A) (new : A).

Lemma upsert_keeps_count (q : A -> bool) rows :
  (forall r, key r = true -> q (w r) = q r) ->
  (q new = true -> forall r, q r = true -> key r = true) ->
  (List.length (filter q rows) <= 1)%nat ->
  (List.length
     (filter q (if existsb key rows
                then map (fun r => if key r then w r else r) rows
                else (rows ++ [new])%list)) <= 1)%nat.
Proof.
  intros Hw Hnew Hle.
  destruct (existsb key rows) eqn:E.
  - rewrite filter_map_same; [exact Hle|].
    intros r. destruct (key r) eqn:K; [apply Hw; exact K|reflexivity].
  - rewrite filter_app, length_app. cbn [filter].
    destruct (q new) eqn:Q; [|simpl; lia].
    rewrite (@filter_none _ q rows); [simpl; lia|].
    intros r Hin. destruct (q r) eqn:Qr; [|reflexivity].
    exfalso. assert (Hk : existsb key rows = true).
    { apply existsb_exists. exists r. split; [exact Hin|]. apply Hnew; auto. }
    congruence.
Qed.

Lemma upsert_keeps_others (q : A -> bool) rows :
  (forall r, key r = true -> q r = false /\ q (w r) = false) ->
  q new = false ->
  filter q (if existsb key rows
            then map (fun r => if key r then w r else r) rows
            else (rows ++ [new])%list)
  = filter q rows.
Proof.
  intros Hw Hnew. destruct (existsb key rows).
  - induction rows as [|r rows IH]; [reflexivity|]. cbn [map filter].
    destruct (key r) eqn:K.
    + destruct (Hw r K) as [-> ->]. exact IH.
    + destruct (q r); [f_equal|]; exact IH.
  - rewrite filter_app. cbn [filter]. rewrite Hnew. apply app_nil_r.
Qed.

End Upsert.

(** ** The trigger of [branches] *)

Section Trigger.
Import Store SyncSpec.

Lemma fold_left_invariant {A B} (f : A -> B -> A) (P : A -> Prop) (l : list B) :
  (forall a x, In x l -> P a -> P (f a x)) ->
  forall a, P a -> P (fold_left f l a).
Proof.
  induction l as [|x l IH]; intros Hf a Ha; [exact Ha|].
  cbn [fold_left]. apply IH.
  - intros b y Hy. apply Hf. right. exact Hy.
  - apply Hf; [left; reflexivity|exact Ha].
Qed.

Lemma matched_key_detected text m :
  In m (AutoLink.matchAll text) ->
  In (KeySpec.key_of m) (AutoLink.detectTarefaKeys text).
Proof.
  intros H. rewrite detectTarefaKeys_fold.
  apply (proj2 (@fold_Set_add (AutoLink.matchAll text) [] (NoDup_nil _))).
  right. exists m. split; [exact H|reflexivity].
Qed.

(** What [detect_and_link_tarefas] does for a branch: only links are
    added, each for a task of the project whose key is found in the
    text. *)
Lemma detect_and_link_tarefas_adds o name project id d :
  let d' := Migrations.detect_and_link_tarefas o name project branch_entity id
              (Some name) None None d in
  but_links d' = but_links d
  /\ exists added,
       tarefa_git_links d' = (tarefa_git_links d ++ added)%list
       /\ Forall (fun l => exists t,
                    In t (tarefas d) /\ tarefa_project_id t = project
                    /\ In (tarefa_key t) (AutoLink.detectTarefaKeys name)
                    /\ l = link_of_branch t name id) added.
Proof.
  cbv zeta. unfold Migrations.detect_and_link_tarefas.
  apply fold_left_invariant.
  - intros a m Hm (Hbut & added & Hl & Hall).
    assert (Ht : tarefas a = tarefas d)
      by exact (f_equal tarefas Hbut).
    destruct (filter _ (tarefas a)) as [|t rest] eqn:F.
    { split; [exact Hbut|]. exists added. split; assumption. }
    assert (Hin : In t (filter (fun t => String.eqb (tarefa_project_id t) project
                                         && String.eqb (tarefa_key t)
                                              ("TSK-" ++ string_of_list_ascii m))
                               (tarefas a)))
      by (rewrite F; left; reflexivity).
    apply filter_In in Hin. destruct Hin as [Hin Hq].
    apply andb_true_iff in Hq. destruct Hq as [Hp Hk].
    apply String.eqb_eq in Hp, Hk.
    destruct (Http.links_conflict o _ (tarefa_git_links a)).
    { split; [exact Hbut|]. exists added. split; assumption. }
    split; [exact Hbut|].
    eexists (added ++ [_])%list. cbn [tarefa_git_links with_tarefa_git_links].
    rewrite Hl, app_assoc. split; [reflexivity|].
    apply Forall_app. split; [exact Hall|]. constructor; [|constructor].
    exists t. rewrite <- Ht. split; [exact Hin|]. split; [exact Hp|].
    split; [|reflexivity]. rewrite Hk. apply matched_key_detected. exact Hm.
  - split; [reflexivity|]. exists []. rewrite app_nil_r. split; [reflexivity|constructor].
Qed.

Lemma auto_link_branch_tarefas_adds o new d :
  let d' := Migrations.auto_link_branch_tarefas o new d in
  but_links d' = but_links d
  /\ exists added,
       tarefa_git_links d' = (tarefa_git_links d ++ added)%list
       /\ Forall (fun l => exists t r,
                    In t (tarefas d) /\ In r (repos d)
                    /\ repo_id r = branch_repo_id new
                    /\ repo_project_id r = Some (tarefa_project_id t)
                    /\ In (tarefa_key t) (AutoLink.detectTarefaKeys (branch_name new))
                    /\ l = link_of_branch t (branch_name new) (branch_id new))
                 added.
Proof.
  cbv zeta. unfold Migrations.auto_link_branch_tarefas.
  assert (Hnone : but_links d = but_links d
                  /\ exists added,
                       tarefa_git_links d = (tarefa_git_links d ++ added)%list
                       /\ Forall (fun l => exists t r,
                                    In t (tarefas d) /\ In r (repos d)
                                    /\ repo_id r = branch_repo_id new
                                    /\ repo_project_id r = Some (tarefa_project_id t)
                                    /\ In (tarefa_key t)
                                          (AutoLink.detectTarefaKeys (branch_name new))
                                    /\ l = link_of_branch t (branch_name new)
                                             (branch_id new)) added).
  { split; [reflexivity|]. exists []. rewrite app_nil_r.
    split; [reflexivity|constructor]. }
  destruct (filter _ (repos d)) as [|r rest] eqn:F; [exact Hnone|].
  assert (Hr : In r (filter (fun r => String.eqb (repo_id r) (branch_repo_id new))
                            (repos d)))
    by (rewrite F; left; reflexivity).
  apply filter_In in Hr. destruct Hr as [Hr Hid]. apply String.eqb_eq in Hid.
  destruct (repo_project_id r) as [project|] eqn:P; [|exact Hnone].
  destruct (detect_and_link_tarefas_adds o (branch_name new) project
              (branch_id new) d) as (Hbut & added & Hl & Hall).
  split; [exact Hbut|]. exists added. split; [exact Hl|].
  eapply Forall_impl; [|exact Hall]. cbv beta.
  intros l (t & Ht & Hp & Hk & ->). exists t, r. subst project.
  repeat split; assumption.
Qed.

End Trigger.

(** ** [syncBranches] *)

Section Branches.
Import Store SyncSpec.
Variables (o : Http.Outside) (repoId : uuid) (d0 : DB).

Lemma same_branch_key r n b :
  GitConnect.same_branch r n b = true <->
  branch_repo_id b = r /\ branch_name b = n.
Proof.
  unfold GitConnect.same_branch.
  rewrite andb_true_iff, !String.eqb_eq. reflexivity.
Qed.

Lemma upsert_branch_inv g d :
  branches_kept repoId d0 d ->
  wp (GitConnect.upsert_branch o repoId g)
     (fun _ d' _ => branches_kept repoId d0 d') d.
Proof.
  intros (Hbut & Helse & Hkey & Hstay & Hlinks). unfold GitConnect.upsert_branch.
  apply wp_stmt. destruct (Http.store_fails o "branches" Http.v_upsert).
  { repeat split; assumption. }
  cbn [fst snd].
  pose (w := fun b : branch =>
               {| branch_id := branch_id b;
                  branch_repo_id := repoId;
                  branch_name := Http.gh_branch_name g;
                  branch_last_commit_sha := Http.gh_commit_sha g;
                  branch_is_default :=
                    String.eqb (Http.gh_branch_name g) "main"
                    || String.eqb (Http.gh_branch_name g) "master";
                  branch_protected := Http.gh_protected g |}).
  pose proof (fun new q =>
                @upsert_keeps_others _ (GitConnect.same_branch repoId
                                          (Http.gh_branch_name g))
                  w new q (branches d)) as Hothers.
  pose proof (fun new q =>
                @upsert_keeps_count _ (GitConnect.same_branch repoId
                                         (Http.gh_branch_name g))
                  w new q (branches d)) as Hcount.
  destruct (existsb _ (branches d)) eqn:E.
  - (* the branch is there: it is updated *)
    split; [exact Hbut|]. cbn [branches with_branches tarefa_git_links].
    split; [|split; [|split; [|exact Hlinks]]].
    + rewrite <- Helse. unfold branches_elsewhere.
      pose proof (Hothers (w {| branch_id := ""; branch_repo_id := repoId; branch_name := ""; branch_last_commit_sha := ""; branch_is_default := false; branch_protected := false |})
                    (fun b => negb (String.eqb (branch_repo_id b) repoId)))
        as Ho.
      rewrite ?E in Ho. apply Ho.
      * intros b K. apply same_branch_key in K. destruct K as [K _].
        cbn [w branch_repo_id]. rewrite K, String.eqb_refl. split; reflexivity.
      * cbn [w branch_repo_id]. rewrite String.eqb_refl. reflexivity.
    + intros H0 r n.
      pose proof (Hcount (w {| branch_id := ""; branch_repo_id := repoId; branch_name := ""; branch_last_commit_sha := ""; branch_is_default := false; branch_protected := false |}) (GitConnect.same_branch r n)) as Hc.
      rewrite ?E in Hc. apply Hc; [| |exact (Hkey H0 r n)].
      * intros b K. apply same_branch_key in K. destruct K as [K1 K2].
        unfold GitConnect.same_branch. cbn [branch_repo_id branch_name].
        rewrite K1, K2. reflexivity.
      * intros Q b Qb. apply same_branch_key in Q, Qb.
        cbn [branch_repo_id branch_name] in Q.
        apply same_branch_key. destruct Q as [<- <-]. exact Qb.
    + intros b Hb. destruct (Hstay b Hb) as (b' & Hb' & Hr & Hn).
      eexists. split; [apply in_map; exact Hb'|].
      cbv beta. destruct (GitConnect.same_branch _ _ b') eqn:K; [|auto].
      apply same_branch_key in K. destruct K as [K1 K2].
      cbn [branch_repo_id branch_name]. split; congruence.
  - (* the branch is new: it is inserted, and the trigger runs *)
    match goal with
    | |- branches_kept _ _ (Migrations.auto_link_branch_tarefas _ ?new ?d1) =>
        destruct (auto_link_branch_tarefas_adds o new d1)
          as (Hsame & added & Hl & Hall);
        set (d' := Migrations.auto_link_branch_tarefas o new d1) in *;
        set (row := new) in *
    end.
    assert (Hb : branches d' = (branches d ++ [row])%list)
      by exact (f_equal branches Hsame).
    assert (Hnew : forall b, In b (branches d0) ->
                             branch_repo_id b = repoId ->
                             branch_name b <> Http.gh_branch_name g).
    { intros b Hin Hr Hn. destruct (Hstay b Hin) as (b' & Hin' & Hr' & Hn').
      assert (X : existsb (GitConnect.same_branch repoId (Http.gh_branch_name g))
                          (branches d) = true).
      { apply existsb_exists. exists b'. split; [exact Hin'|].
        apply same_branch_key. split; congruence. }
      congruence. }
    split; [|split; [|split; [|split]]].
    + unfold but_for_branches_and_links. rewrite <- Hbut.
      exact (f_equal (fun x => with_branches x []) Hsame).
    + rewrite Hb, <- Helse. unfold branches_elsewhere.
      rewrite filter_app. cbn [filter row branch_repo_id].
      rewrite String.eqb_refl. apply app_nil_r.
    + intros H0 r n. rewrite Hb.
      pose proof (Hcount row (GitConnect.same_branch r n)) as Hc.
      rewrite ?E in Hc. apply Hc; [| |exact (Hkey H0 r n)].
      * intros b K. apply same_branch_key in K. destruct K as [K1 K2].
        unfold GitConnect.same_branch. cbn [branch_repo_id branch_name].
        rewrite K1, K2. reflexivity.
      * intros Q b Qb. apply same_branch_key in Q, Qb.
        cbn [row branch_repo_id branch_name] in Q.
        apply same_branch_key. destruct Q as [<- <-]. exact Qb.
    + intros b Hin. destruct (Hstay b Hin) as (b' & Hin' & Hr & Hn).
      exists b'. rewrite Hb. split; [apply in_or_app; left; exact Hin'|auto].
    + destruct Hlinks as (before & Hl0 & Hall0).
      exists (before ++ added)%list. cbn [tarefa_git_links with_branches] in Hl.
      rewrite Hl, Hl0, app_assoc. split; [reflexivity|].
      apply Forall_app. split; [exact Hall0|].
      eapply Forall_impl; [|exact Hall]. cbv beta.
      intros l (t & r & Ht & Hr & Hid & Hp & Hk & ->).
      cbn [tarefas repos with_branches row branch_repo_id branch_name branch_id]
        in Ht, Hr, Hid, Hk |- *.
      exists t, r, (Http.gh_branch_name g),
             (Http.new_branch_id o repoId (Http.gh_branch_name g)).
      assert (Et : tarefas d = tarefas d0) by exact (f_equal tarefas Hbut).
      assert (Er : repos d = repos d0) by exact (f_equal repos Hbut).
      rewrite <- Et, <- Er. repeat split; assumption.
Qed.

Lemma branches_kept_refl d : branches_kept repoId d d.
Proof.
  split; [reflexivity|]. split; [reflexivity|]. split; [auto|].
  split; [intros b Hb; exists b; auto|].
  exists []. rewrite app_nil_r. split; [reflexivity|constructor].
Qed.

Lemma syncBranches_inv repoFullName d :
  branches_kept repoId d0 d ->
  wp (GitConnect.syncBranches o repoId repoFullName)
     (fun r d' _ => r = Normal tt /\ branches_kept repoId d0 d') d.
Proof.
  intros Hd. unfold GitConnect.syncBranches, GitConnect.octokit.
  apply wp_try_catch. apply wp_bind. apply wp_bind. apply wp_outside.
  cbv beta iota. destruct (Http.list_branches o repoFullName) as [listed|].
  - apply wp_ret.
    eapply wp_conseq;
      [|apply (@wp_for_each _ (branches_kept repoId d0) listed
                 (fun b => GitConnect.upsert_branch o repoId b ;;; ret tt))].
    + cbv beta. intros [[]|e] d' c H; [split; [reflexivity|exact H]|].
      apply wp_ret. split; [reflexivity|exact H].
    + intros b d1 _ H1. apply wp_bind.
      eapply wp_conseq; [|apply (upsert_branch_inv b H1)].
      cbv beta. intros [a|e] d2 c2 H2; [apply wp_ret|]; exact H2.
    + exact Hd.
  - apply wp_throw. apply wp_ret. split; [reflexivity|exact Hd].
Qed.

End Branches.

(** X25.  [syncBranches] never throws and changes two tables only,
    [branches] and [tarefa_git_links].  The branches of every other
    repository are exactly as they were; every branch that was there is
    still there under its repository and name; and when (repository,
    name) was a key of [branches] before, it still is one.  The links
    that were there are kept, and after them come only links that the
    database makes for a branch of this repository that was not there
    before: automatic links of that branch to a task of the project of
    the repository, the key of the task being one of those that
    [detectTarefaKeys] finds in the name of the branch. *)
Theorem syncBranches_touches_one_repository :
  forall (o : Http.Outside) (repoId : Store.uuid) (repoFullName : string)
         (d : Store.DB),
    match GitConnect.syncBranches o repoId repoFullName d with
    | (r, d', _) =>
        r = Normal tt /\ SyncSpec.branches_kept repoId d d'
    end.
Proof.
  intros o repoId repoFullName d.
  refine (_ : wp (GitConnect.syncBranches o repoId repoFullName) _ d).
  eapply wp_conseq; [|apply (@syncBranches_inv o repoId d repoFullName d)].
  - cbv beta. auto.
  - apply branches_kept_refl.
Qed.

(** ** [syncRepos] *)

Section Repos.
Import Store SyncSpec.

Lemma same_place_trans a b c : same_place a b -> same_place b c -> same_place a c.
Proof.
  unfold same_place. intros (A1 & A2 & A3 & A4 & A5) (B1 & B2 & B3 & B4 & B5).
  repeat split; congruence.
Qed.

Lemma Forall2_same_place_refl rows : Forall2 same_place rows rows.
Proof.
  induction rows as [|r rows IH]; constructor; [|exact IH].
  repeat split.
Qed.

Lemma Forall2_same_place_map (f : repo -> repo) old kept :
  (forall r, same_place r (f r)) ->
  Forall2 same_place old kept -> Forall2 same_place old (map f kept).
Proof.
  intros Hf H. induction H as [|a b old kept Hab H IH]; [constructor|].
  cbn [map]. constructor; [|exact IH].
  exact (same_place_trans Hab (Hf b)).
Qed.

Lemma extended_refl rows : extended rows rows.
Proof.
  exists rows, []. split; [symmetry; apply app_nil_r|].
  split; [apply Forall2_same_place_refl|constructor].
Qed.

Lemma same_repo_key c p r :
  GitConnect.same_repo c p r = true <->
  repo_connection_id r = Some c /\ repo_provider_repo_id r = p.
Proof.
  unfold GitConnect.same_repo, col_eq. rewrite andb_true_iff, String.eqb_eq.
  destruct (repo_connection_id r) as [x|].
  - rewrite String.eqb_eq. split; intros [H1 H2]; split; congruence.
  - split; intros [H1 H2]; discriminate.
Qed.

Lemma upsert_repo_kept o connectionId g d0 d :
  repos_kept d0 d ->
  wp (GitConnect.upsert_repo o connectionId g) (fun _ d' _ => repos_kept d0 d') d.
Proof.
  intros (Hext & Hkey). unfold GitConnect.upsert_repo.
  apply wp_stmt. destruct (Http.store_fails o "repos" Http.v_upsert).
  { split; assumption. }
  cbn [fst snd repos with_repos]. split.
  - destruct Hext as (kept & added & E & Hkept & Hadded).
    destruct (existsb _ (repos d)).
    + rewrite E, map_app. eexists. eexists. split; [reflexivity|]. split.
      * apply Forall2_same_place_map; [|exact Hkept].
        intros r. destruct (GitConnect.same_repo _ _ r) eqn:K; [|repeat split].
        apply same_repo_key in K. destruct K as [K1 K2].
        unfold same_place. cbn. auto.
      * apply Forall_forall. intros r Hin. apply in_map_iff in Hin.
        destruct Hin as (r0 & <- & Hin0).
        rewrite Forall_forall in Hadded. specialize (Hadded r0 Hin0).
        destruct (GitConnect.same_repo _ _ r0); [cbn|]; exact Hadded.
    + rewrite E, <- app_assoc. eexists. eexists. split; [reflexivity|].
      split; [exact Hkept|]. apply Forall_app. split; [exact Hadded|].
      constructor; [|constructor]. split; reflexivity.
  - intros H0 c p. apply upsert_keeps_count; [| |apply Hkey; exact H0].
    + intros r K. apply same_repo_key in K. destruct K as [K1 K2].
      unfold GitConnect.same_repo.
      cbn [repo_connection_id repo_provider_repo_id]. rewrite K1, K2. reflexivity.
    + intros Q r Qr. apply same_repo_key in Q, Qr.
      cbn [repo_connection_id repo_provider_repo_id] in Q.
      destruct Q as [Q1 Q2], Qr as [R1 R2].
      apply same_repo_key. injection Q1 as <-. subst p. auto.
Qed.

Lemma syncBranches_repos_kept o repoId repoFullName d0 d :
  repos_kept d0 d ->
  wp (GitConnect.syncBranches o repoId repoFullName)
     (fun r d' _ => r = Normal tt /\ repos_kept d0 d') d.
Proof.
  intros Hd.
  eapply wp_conseq; [|apply (@syncBranches_inv o repoId d repoFullName d)].
  - cbv beta. intros r d' _ (Hr & Hbut & _). split; [exact Hr|].
    unfold repos_kept in *.
    assert (E : repos d' = repos d) by exact (f_equal repos Hbut).
    rewrite E. exact Hd.
  - apply branches_kept_refl.
Qed.

Lemma syncRepos_kept env o connectionId userId d :
  wp (GitConnect.syncRepos env o connectionId userId)
     (fun _ d' _ => repos_kept d d') d.
Proof.
  assert (Hd : repos_kept d d) by (split; [apply extended_refl|auto]).
  unfold GitConnect.syncRepos, GitConnect.getGitHubClient,
    GitConnect.getGitHubAppCredentials, GitConnect.octokit.
  repeat first
    [ lazymatch goal with
      | |- wp (for_each ?l ?body) _ _ =>
          eapply wp_conseq;
          [|apply (@wp_for_each _ (repos_kept d) l body);
            [intros g d1 _ H1|exact Hd]]
      end
    | wp_step ].
  all: try exact Hd.
  - intros [[]|e] d' c H; cbv beta in H; wp_steps; exact H.
  - eapply wp_conseq; [|apply (upsert_repo_kept o connectionId g H1)].
    cbv beta. intros [a|e] d2 c2 H2; [|exact H2].
    destruct (error a); [apply wp_ret; exact H2|].
    apply wp_bind. unfold GitConnect.select_synced_repo. apply wp_stmt.
    destruct (Http.store_fails o "repos" Http.v_select);
      cbn [fst snd data failed]; [apply wp_ret; exact H2|].
    match goal with
    | |- wp (match ?x with _ => _ end) _ _ => destruct x as [synced|]
    end; [|apply wp_ret; exact H2].
    eapply wp_conseq; [|apply (syncBranches_repos_kept o _ _ H2)].
    cbv beta. intros r d3 c3 [_ H3]. exact H3.
Qed.

End Repos.

(** X23.  [syncRepos] never throws, whatever GitHub and the store do,
    and it keeps the catalogue: every row of [repos] is still there, in
    its place, with its id, its connection and GitHub id, its selection
    and its project; rows that were added are not selected and belong to
    no project; and when (connection, GitHub id) was a key of [repos]
    before, it still is one. *)
Theorem syncRepos_keeps_the_catalogue :
  forall (env : Http.Env) (o : Http.Outside) (connectionId userId : Store.uuid)
         (d : Store.DB),
    match GitConnect.syncRepos env o connectionId userId d with
    | (r, d', _) =>
        r = Normal tt
        /\ SyncSpec.extended (Store.repos d) (Store.repos d')
        /\ (SyncSpec.repos_keyed (Store.repos d) ->
            SyncSpec.repos_keyed (Store.repos d'))
    end.
Proof.
  intros env o connectionId userId d.
  pose proof (syncRepos_kept env o connectionId userId d) as H. unfold wp in H.
  destruct (syncRepos_total env o connectionId userId d) as (d' & c & E).
  rewrite E in *. destruct H as [Hext Hkey]. auto.
Qed.


(** X24.  [syncRepos] on a connection without an installation id, as
    the OAuth callbacks create them, calls nothing outside and marks the
    connection: status error, the message "Connection not found or
    invalid", and the database's time of the update in [updated_at];
    no other column and no other row changes, and nothing is logged.
    The select and the update of the connection do not fail here. *)
Theorem syncRepos_needs_an_installation :
  forall (env : Http.Env) (o : Http.Outside) (connectionId userId : Store.uuid)
         (d : Store.DB) (c : Store.provider_connection),
    Http.store_fails o "provider_connections" Http.v_select = None ->
    Http.store_fails o "provider_connections" Http.v_update = None ->
    filter (fun c => String.eqb (Store.conn_id c) connectionId)
           (Store.provider_connections d) = [c] ->
    Js.nonempty (Store.conn_installation_id c) = None ->
    GitConnect.syncRepos env o connectionId userId d
    = (Normal tt,
       Store.with_provider_connections d
         (ConnectionSpec.with_rows_of_id connectionId
            (ConnectionSpec.rewritten Store.status_error
               (Some "Connection not found or invalid") (Http.db_now o))
            (Store.provider_connections d)),
       []).
Proof.
  intros env o connectionId userId d c Hsel Hupd Hone Hinst.
  unfold GitConnect.syncRepos, try_catch.
  unfold bind at 1, GitConnect.select_connection_by_id, Http.stmt.
  rewrite Hsel, Hone. cbn [Store.maybeSingle Store.data Store.ok].
  rewrite Hinst. unfold throw.
  unfold bind, GithubOauth.update_connection, Http.stmt. rewrite Hupd.
  reflexivity.
Qed.

Lemma syncRepos_needs_an_installation_witness :
  Js.nonempty (Store.conn_installation_id conn_1) = None
  /\ status_of
       (snd (fst (GitConnect.syncRepos env0 outside0 "conn-1" "alice"
                    connected_db))) "conn-1"
     = [Store.status_error].
Proof.
  split; [reflexivity|].
  rewrite (@syncRepos_needs_an_installation env0 outside0 "conn-1" "alice"
             connected_db conn_1 eq_refl eq_refl eq_refl eq_refl).
  reflexivity.
Defined.

(** ** Expired states and their cleanup *)

(** X27.  [cleanup_expired_oauth_states] run at a time [t] removes
    exactly the states that expired before [t] and touches no other
    table; for a callback that arrives at [t] or later it changes
    nothing: the same states are accepted and the same are refused. *)
Theorem cleanup_keeps_what_the_callback_accepts :
  forall (d : Store.DB) (t now_ : Store.timestamp) (state : string),
    (t <= now_)%Z ->
    let d' := Migrations.cleanup_expired_oauth_states t d in
    (forall s, In s (Store.github_oauth_states d')
               <-> In s (Store.github_oauth_states d)
                   /\ (t <= Store.st_expires_at s)%Z)
    /\ Store.with_github_oauth_states d' (Store.github_oauth_states d)
       = Store.with_github_oauth_states d (Store.github_oauth_states d)
    /\ (forall s, HandshakeSpec.live_state d' now_ state s
                  <-> HandshakeSpec.live_state d now_ state s)
    /\ (HandshakeSpec.no_live_state d' now_ state
        <-> HandshakeSpec.no_live_state d now_ state).
Proof.
  intros d t now_ state Ht d'.
  assert (Hin : forall s, In s (Store.github_oauth_states d')
                          <-> In s (Store.github_oauth_states d)
                              /\ (t <= Store.st_expires_at s)%Z).
  { intros s. unfold d', Migrations.cleanup_expired_oauth_states. store_simpl.
    rewrite filter_In, negb_true_iff, Z.ltb_ge. reflexivity. }
  assert (Hlive : filter (fun s => String.eqb (Store.st_state s) state
                                   && (now_ <? Store.st_expires_at s)%Z)
                         (Store.github_oauth_states d')
                  = filter (fun s => String.eqb (Store.st_state s) state
                                     && (now_ <? Store.st_expires_at s)%Z)
                           (Store.github_oauth_states d)).
  { clear Hin. unfold d', Migrations.cleanup_expired_oauth_states. store_simpl.
    induction (Store.github_oauth_states d) as [|x rows IH]; [reflexivity|].
    cbn [filter].
    destruct (Store.st_expires_at x <? t)%Z eqn:E; cbn [negb].
    - apply Z.ltb_lt in E.
      assert (E' : (now_ <? Store.st_expires_at x)%Z = false)
        by (apply Z.ltb_ge; lia).
      rewrite E', andb_false_r. exact IH.
    - cbn [filter]. rewrite IH. reflexivity. }
  split; [exact Hin|]. split; [reflexivity|]. split.
  - intros s. unfold HandshakeSpec.live_state. rewrite Hlive. reflexivity.
  - unfold HandshakeSpec.no_live_state. split.
    + intros H s Hs E.
      destruct (Z.le_gt_cases t (Store.st_expires_at s)) as [Hle|Hgt]; [|lia].
      apply H; [apply Hin; auto|exact E].
    + intros H s Hs E. apply Hin in Hs. apply H; [apply Hs|exact E].
Qed.

Lemma cleanup_keeps_what_the_callback_accepts_witness :
  (Http.now outside_late <= Http.now outside_late)%Z
  /\ Store.github_oauth_states
       (Migrations.cleanup_expired_oauth_states (Http.now outside_late) pending_db)
     = []
  /\ HandshakeSpec.no_live_state
       (Migrations.cleanup_expired_oauth_states (Http.now outside_late) pending_db)
       (Http.now outside_late) "state-1".
Proof.
  assert (H : (Http.now outside_late <= Http.now outside_late)%Z) by lia.
  split; [exact H|]. split; [reflexivity|].
  apply (proj2 (proj2 (proj2 (@cleanup_keeps_what_the_callback_accepts
                                pending_db (Http.now outside_late)
                                (Http.now outside_late) "state-1" H)))).
  intros s [<-|[]] _. vm_compute. discriminate.
Defined.

(** ** GitHub is asked once *)

(** X28.  Both OAuth callbacks ask GitHub at most twice and never
    repeat a request: nothing, or the token exchange, or the token
    exchange followed by the lookup of the user. *)
Theorem callbacks_ask_github_once :
  forall (env : Http.Env) (o : Http.Outside) (req : Http.Request) (d : Store.DB),
    (match GithubOauth.handleOAuthCallback env o req d with
     | (_, _, calls) => CallSpec.single_attempts calls
     end)
    /\ match GithubOauthCallback.serve env o req d with
       | (_, _, calls) => CallSpec.single_attempts calls
       end.
Proof.
  intros env o req d. split.
  - refine (_ : wp (GithubOauth.handleOAuthCallback env o req) _ d).
    unfold GithubOauth.handleOAuthCallback.
    wp_steps.
    all: unfold CallSpec.single_attempts, CallSpec.token_exchange,
           CallSpec.user_lookup; cbn [app].
    all: first [ left; reflexivity | right; left; reflexivity
               | right; right; reflexivity ].
  - refine (_ : wp (GithubOauthCallback.serve env o req) _ d).
    unfold GithubOauthCallback.serve, GithubOauthCallback.error_redirect.
    wp_steps.
    all: unfold CallSpec.single_attempts, CallSpec.token_exchange,
           CallSpec.user_lookup; cbn [app].
    all: first [ left; reflexivity | right; left; reflexivity
               | right; right; reflexivity ].
Qed.

(** ** The audit log only grows *)

Section AuditLog.
Import Store AuditSpec.

Lemma grown_same n d0 d :
  audit_events d = audit_events d0 -> grown_by n d0 d.
Proof.
  intros E. exists []. rewrite E, app_nil_r. split; [reflexivity|cbn; lia].
Qed.

Lemma grown_one n d0 d e :
  audit_events d = (audit_events d0 ++ [e])%list -> grown_by (S n) d0 d.
Proof.
  intros E. exists [e]. split; [exact E|cbn; lia].
Qed.

Lemma grown_trans n m d0 d1 d2 :
  grown_by n d0 d1 -> grown_by m d1 d2 -> grown_by (n + m) d0 d2.
Proof.
  intros (a & Ea & La) (b & Eb & Lb). exists (a ++ b)%list.
  rewrite Eb, Ea, <- app_assoc, length_app. split; [reflexivity|lia].
Qed.

Ltac audit_leaf :=
  store_simpl;
  first [ apply grown_same; store_simpl; first [reflexivity|assumption|congruence]
        | eapply grown_one; store_simpl;
          first [reflexivity|congruence|f_equal; assumption] ].

Lemma syncBranches_audit o repoId repoFullName d :
  wp (GitConnect.syncBranches o repoId repoFullName)
     (fun _ d' _ => audit_events d' = audit_events d) d.
Proof.
  eapply wp_conseq;
    [|apply (@syncBranches_inv o repoId d repoFullName d);
      apply branches_kept_refl].
  cbv beta. intros r d' _ (_ & Hbut & _). exact (f_equal audit_events Hbut).
Qed.

Lemma syncRepos_audit env o connectionId userId d :
  wp (GitConnect.syncRepos env o connectionId userId)
     (fun _ d' _ => grown_by 1 d d') d.
Proof.
  unfold GitConnect.syncRepos, GitConnect.getGitHubClient,
    GitConnect.getGitHubAppCredentials, GitConnect.octokit.
  repeat first
    [ lazymatch goal with
      | |- wp (for_each ?l ?body) _ _ =>
          eapply wp_conseq;
          [|apply (@wp_for_each _ (fun d' => audit_events d' = audit_events d)
                     l body);
            [intros g d1 _ H1|reflexivity]]
      end
    | wp_step ].
  all: try audit_leaf.
  - intros [[]|e] d' c H; cbv beta in H; wp_steps; audit_leaf.
  - unfold GitConnect.upsert_repo, GitConnect.select_synced_repo.
    repeat first
      [ lazymatch goal with
        | |- wp (GitConnect.syncBranches _ _ _) _ ?s =>
            eapply wp_conseq; [|apply syncBranches_audit];
            cbv beta; intros ? ? ? ->
        end
      | wp_step ].
    all: store_simpl; first [exact H1|reflexivity|congruence].
Qed.

End AuditLog.

(** X29.  No handler rewrites or removes an audit event: after any
    request to github-oauth or github-oauth-callback, and after
    [handleSync] and [handleDeleteConnection], the audit log is the old
    one followed by at most one event; after [handleCallback] of
    git-connect by at most two. *)
Theorem handlers_only_add_to_the_audit_log :
  forall (env : Http.Env) (o : Http.Outside) (req : Http.Request)
         (id userId : Store.uuid) (d : Store.DB),
    (match GithubOauth.serve env o req d with
     | (_, d', _) => AuditSpec.grown_by 1 d d' end)
    /\ (match GithubOauthCallback.serve env o req d with
        | (_, d', _) => AuditSpec.grown_by 1 d d' end)
    /\ (match GitConnect.handleCallback env o req userId d with
        | (_, d', _) => AuditSpec.grown_by 2 d d' end)
    /\ (match GitConnect.handleSync env o req userId d with
        | (_, d', _) => AuditSpec.grown_by 1 d d' end)
    /\ (match GitConnect.handleDeleteConnection o id userId d with
        | (_, d', _) => AuditSpec.grown_by 1 d d' end).
Proof.
  intros env o req id userId d. repeat split.
  - refine (_ : wp (GithubOauth.serve env o req) _ d).
    unfold GithubOauth.serve, GithubOauth.handleOAuthCallback,
      GithubOauth.handleOAuthStart, GithubOauth.handleGetConnection,
      GithubOauth.handleRevokeConnection, Permissions.canConnectGit,
      Permissions.getProjectRole.
    wp_steps.
    all: first [ apply grown_same; reflexivity
               | eapply grown_one; reflexivity ].
  - refine (_ : wp (GithubOauthCallback.serve env o req) _ d).
    unfold GithubOauthCallback.serve, GithubOauthCallback.error_redirect.
    wp_steps.
    all: first [ apply grown_same; reflexivity
               | eapply grown_one; reflexivity ].
  - refine (_ : wp (GitConnect.handleCallback env o req userId) _ d).
    unfold GitConnect.handleCallback, GitConnect.getGitHubAppClient,
      GitConnect.getGitHubAppCredentials, GitConnect.octokit,
      Permissions.canConnectGit, Permissions.getProjectRole.
    repeat first
      [ lazymatch goal with
        | |- wp (GitConnect.syncRepos _ _ _ _) _ ?s =>
            eapply wp_conseq; [|apply syncRepos_audit];
            cbv beta; intros ? ? ? ?
        end
      | wp_step ].
    all: try (apply grown_same; reflexivity).
    all: match goal with
         | H : AuditSpec.grown_by 1 ?d1 _ |- _ =>
             refine (@grown_trans 1 1 d d1 _ _ H);
             first [ eapply grown_one; reflexivity
                   | apply grown_same; reflexivity ]
         end.
  - refine (_ : wp (GitConnect.handleSync env o req userId) _ d).
    unfold GitConnect.handleSync, GitConnect.select_repo_by_id.
    repeat first
      [ lazymatch goal with
        | |- wp (GitConnect.syncRepos _ _ _ _) _ ?s =>
            eapply wp_conseq; [|apply syncRepos_audit];
            cbv beta; intros ? ? ? ?
        end
      | wp_step ].
    all: first [ apply grown_same; reflexivity | assumption ].
  - refine (_ : wp (GitConnect.handleDeleteConnection o id userId) _ d).
    unfold GitConnect.handleDeleteConnection, Permissions.canConnectGit,
      Permissions.getProjectRole.
    wp_steps.
    all: first [ apply grown_same; reflexivity
               | eapply grown_one; reflexivity ].
Qed.
